(** * The data-query layer of the Top-2000-companies dashboard

    The dashboard script ([app.py], and its near-duplicate) keeps one
    global [df] read from a CSV file and derives everything it shows from
    it with a handful of pandas calls:

    - lines 40-41: [filtered_df = df[df['Continent'] == continent]] and
      [filtered_sorted = filtered_df.sort_values(by=metric,
      ascending=False).head(top_n)];
    - [describe_relationship(x, y)]: [df[x].corr(df[y])] formatted into a
      sentence;
    - [safe_get_columns(cols)]: [[df[col].mean() for col in cols]] inside
      [try ... except KeyError], falling back to a list of zeros;
    - line 35, the select box over [df['Continent'].unique()]; line 46,
      the bars drawn from [filtered_sorted]; line 64, the frame behind
      the map, [df[[...]].dropna()].

    This file embeds those lines over a model of the pandas objects they
    touch: a [DataFrame] is an index of row labels and named, typed
    columns; a failing lookup raises; the module-level names live in an
    explicit record of globals that every statement threads through.

    Three library routines are modelled beyond their contract, from
    their sources: numpy's quicksort on positions, which is what
    [sort_values] runs when no [kind] is passed; [Series.corr], that is
    [numpy.corrcoef] on the rows where both columns have a value, in
    binary64 arithmetic; and, for the question of what the calls change,
    the frames as objects in a heap that names point into. *)

From Stdlib Require Import String.
From Stdlib Require Import List ZArith Bool Arith Lia.
From Stdlib Require Import Permutation Sorted.
From Stdlib Require Import Floats.SpecFloat.
Import ListNotations.

Local Open Scope string_scope.
Local Open Scope list_scope.

Set Implicit Arguments.

(** ** numpy float64 *)

(** A [float64] cell is an IEEE-754 binary64 datum.  Only its comparison
    and its NaN test matter to the lines modelled here; both are the
    standard library's executable ones. *)
Definition float64 := spec_float.

Definition isnan (f : float64) : bool :=
  match f with
  | S754_nan => true
  | _ => false
  end.

(** [a < b] as numpy evaluates it: false as soon as one side is NaN. *)
Definition flt (a b : float64) : bool := SFltb a b.

(** Two keys tie when [sort_values] cannot tell them apart: both are
    missing, or neither is below the other. *)
Definition tie (a b : float64) : bool :=
  if isnan a then isnan b
  else negb (isnan b) && negb (flt a b) && negb (flt b a).

(** The order [sort_values(ascending=False)] aims at, with the default
    [na_position='last']: [a] may come before [b] when [b] is missing,
    or when both are present and [a] is not below [b]. *)
Definition desc (a b : float64) : Prop :=
  isnan b = true \/ (isnan a = false /\ isnan b = false /\ flt a b = false).

(** Ascending order on present values: [b] is not below [a]. *)
Definition asc (a b : float64) : Prop := flt b a = false.

(** A present float is placed in a lexicographic order on triples of
    integers: sign class, then exponent, then mantissa (both negated
    for negative numbers). *)
Definition float_rank (f : float64) : Z * Z * Z :=
  match f with
  | S754_nan => (0, 0, 0)%Z
  | S754_zero _ => (0, 0, 0)%Z
  | S754_infinity true => (-2, 0, 0)%Z
  | S754_infinity false => (2, 0, 0)%Z
  | S754_finite true m e => (-1, - e, - Z.pos m)%Z
  | S754_finite false m e => (1, e, Z.pos m)%Z
  end.

Definition lexlt (x y : Z * Z * Z) : Prop :=
  match x, y with
  | (x1, x2, x3), (y1, y2, y3) =>
      (x1 < y1 \/ (x1 = y1 /\ (x2 < y2 \/ (x2 = y2 /\ x3 < y3))))%Z
  end.

(** ** Exceptions *)

(** The exceptions the modelled lines can meet.  A computation either
    returns or raises; [try ... except KeyError] inspects which. *)
Inductive exn : Type :=
| KeyError
| TypeError
| IndexError
| NameError
| ValueError
| AttributeError.

Inductive Exc (A : Type) : Type :=
| OK (a : A)
| Raise (e : exn).

Arguments OK {A} a.
Arguments Raise {A} e.

Definition bindE {A B : Type} (m : Exc A) (k : A -> Exc B) : Exc B :=
  match m with
  | OK a => k a
  | Raise e => Raise e
  end.

Declare Scope exc_scope.
Delimit Scope exc_scope with exc.
Notation "x <- m ;; k" := (bindE m (fun x => k))
  (at level 61, m at next level, right associativity) : exc_scope.
Local Open Scope exc_scope.

(** A comprehension [[f(x) for x in l]]: evaluated left to right, the
    first raise ends it. *)
Fixpoint mapM {A B : Type} (f : A -> Exc B) (l : list A) : Exc (list B) :=
  match l with
  | [] => OK []
  | x :: l' =>
      y <- f x ;;
      ys <- mapM f l' ;;
      OK (y :: ys)
  end.

(** ** pandas objects *)

(** What a column read from a CSV file may hold: text, or a float (NaN
    marks a missing entry of a text column). *)
Inductive cell : Type :=
| CStr (s : string)
| CFloat (f : float64).

(** A column has a dtype: [float64], or [object] for anything with text
    in it.  (A column of whole numbers, which pandas would keep as
    [int64], is not told apart from a float column here.) *)
Inductive Series : Type :=
| Float64 (l : list float64)
| Object (l : list cell).

(** A frame: the row labels and the named columns, in file order.
    [read_csv] labels the rows 0, 1, 2, ... *)
Record DataFrame : Type := mkFrame {
  index : list nat;
  columns : list (string * Series)
}.

Definition series_cells (s : Series) : list cell :=
  match s with
  | Float64 l => map CFloat l
  | Object l => l
  end.

Definition series_len (s : Series) : nat :=
  match s with
  | Float64 l => length l
  | Object l => length l
  end.

Definition nrows (d : DataFrame) : nat := length (index d).

(** Every column is as long as the index. *)
Definition wf (d : DataFrame) : Prop :=
  Forall (fun c => series_len (snd c) = nrows d) (columns d).

(** The frame as [read_csv] builds it: rows labelled by position. *)
Definition range_indexed (d : DataFrame) : Prop :=
  index d = seq 0 (nrows d).

Fixpoint lookup (c : string) (cols : list (string * Series)) : option Series :=
  match cols with
  | [] => None
  | (n, s) :: cols' => if String.eqb c n then Some s else lookup c cols'
  end.

(** [d[c]] *)
Definition getitem (d : DataFrame) (c : string) : Exc Series :=
  match lookup c (columns d) with
  | Some s => OK s
  | None => Raise KeyError
  end.

(** *** Positional selection *)

Definition item {A : Type} (l : list A) (i : nat) : Exc A :=
  match nth_error l i with
  | Some x => OK x
  | None => Raise IndexError
  end.

(** [l.take(idx)]: the entries of [l] at the positions [idx], in that
    order; a position past the end raises. *)
Definition take {A : Type} (idx : list nat) (l : list A) : Exc (list A) :=
  mapM (item l) idx.

(** What [take] returns when every position is in range (positions
    past the end are skipped here, where [take] raises). *)
Definition picks {A : Type} (idx : list nat) (l : list A) : list A :=
  flat_map (fun i => match nth_error l i with
                     | Some x => [x]
                     | None => []
                     end) idx.

Definition series_take (idx : list nat) (s : Series) : Exc Series :=
  match s with
  | Float64 l => l' <- take idx l ;; OK (Float64 l')
  | Object l => l' <- take idx l ;; OK (Object l')
  end.

Definition frame_take (idx : list nat) (d : DataFrame) : Exc DataFrame :=
  ix <- take idx (index d) ;;
  cols <- mapM (fun c => s <- series_take idx (snd c) ;; OK (fst c, s))
               (columns d) ;;
  OK (mkFrame ix cols).

(** [mask.nonzero()[0]]: the positions at which a boolean array is true. *)
Fixpoint nonzero_from (k : nat) (mask : list bool) : list nat :=
  match mask with
  | [] => []
  | b :: mask' =>
      if b then k :: nonzero_from (S k) mask' else nonzero_from (S k) mask'
  end.

Definition nonzero (mask : list bool) : list nat := nonzero_from 0 mask.

(** [a[mask]] on an array. *)
Fixpoint compress {A : Type} (mask : list bool) (l : list A) : list A :=
  match mask, l with
  | b :: mask', x :: l' =>
      if b then x :: compress mask' l' else compress mask' l'
  | _, _ => []
  end.

(** [s == c] for a string [c]: elementwise, false on a missing entry and
    on anything that is not text. *)
Definition cell_eq_str (c : string) (x : cell) : bool :=
  match x with
  | CStr s => String.eqb s c
  | CFloat _ => false
  end.

Definition series_eq (s : Series) (c : string) : list bool :=
  map (cell_eq_str c) (series_cells s).

(** [d[mask]] with a boolean mask: the rows at the mask's true
    positions, copied into a new frame. *)
Definition getitem_bool (d : DataFrame) (mask : list bool) : Exc DataFrame :=
  frame_take (nonzero mask) d.

(** *** Slicing *)

(** The stop of the slice [[:n]] over [len] entries: a negative [n]
    counts from the end. *)
Definition slice_stop (n : Z) (len : nat) : nat :=
  if (n <? 0)%Z then len - Z.to_nat (- n) else Nat.min (Z.to_nat n) len.

Definition head_list {A : Type} (n : Z) (l : list A) : list A :=
  firstn (slice_stop n (length l)) l.

(** A positional operation acts alike on the index and on every column. *)
Definition series_map (f : forall A : Type, list A -> list A) (s : Series)
  : Series :=
  match s with
  | Float64 l => Float64 (f _ l)
  | Object l => Object (f _ l)
  end.

Definition frame_map (f : forall A : Type, list A -> list A) (d : DataFrame)
  : DataFrame :=
  mkFrame (f _ (index d))
          (map (fun c => (fst c, series_map f (snd c))) (columns d)).

(** [d.head(n)], that is [d.iloc[:n]]. *)
Definition head (n : Z) (d : DataFrame) : DataFrame :=
  frame_map (fun A => @head_list A n) d.

(** ** What numpy's [argsort] promises *)

(** [l] paired with its positions. *)
Definition enum {A : Type} (l : list A) : list (nat * A) :=
  combine (seq 0 (length l)) l.

Definition present (f : float64) : Prop := isnan f = false.

(** [argsort] is numpy's, of the default kind ['quicksort'], which is
    what [sort_values] asks for when no [kind] is passed.  numpy
    documents of it that the result is the positions of the array,
    rearranged so that the array read through them is ascending, and
    lists the kind as not stable; which algorithm runs depends on the
    numpy build and the processor. *)
Record argsort_spec (argsort : list float64 -> list nat) : Prop := {
  argsort_perm : forall l, Permutation (argsort l) (seq 0 (length l));
  argsort_sorted :
    forall l l', Forall present l -> take (argsort l) l = OK l' ->
                 StronglySorted asc l'
}.

(** A stable [argsort] (numpy's kinds ['stable'] and ['mergesort'])
    moreover leaves equal keys in the order of their positions. *)
Definition argsort_stable (argsort : list float64 -> list nat) : Prop :=
  forall l ps, Forall present l -> take (argsort l) (enum l) = OK ps ->
    StronglySorted (fun p q => flt (snd p) (snd q) = false -> fst p < fst q) ps.

(** ** Ties *)

(** Two labelled keys in dataset order when tied: the earlier label
    first.  A frame read by [read_csv] has its rows labelled by their
    position in the file, so the label is the place in the dataset. *)
Definition tie_order (p q : nat * float64) : Prop :=
  tie (snd p) (snd q) = true -> fst p < fst q.

Definition ties_in_dataset_order (r : DataFrame) (by_ : string) : Prop :=
  exists keys : list float64,
    getitem r by_ = OK (Float64 keys)
    /\ StronglySorted tie_order (combine (index r) keys).

(** ** The script *)

(** The sidebar's metric choices and the column each one names. *)
Inductive Metric : Type := Sales | Profits | Assets | MarketValue.

Definition metric_label (m : Metric) : string :=
  match m with
  | Sales => "Sales ($billion)"
  | Profits => "Profits ($billion)"
  | Assets => "Assets ($billion)"
  | MarketValue => "Market Value ($billion)"
  end.

(** A Python number: a float, or an [int] such as the literal [0]. *)
Inductive pynum : Type :=
| PyFloat (f : float64)
| PyInt (z : Z).

(** The module-level names the modelled lines assign or read; a name
    not yet assigned holds [None]. *)
Record Globals : Type := mkGlobals {
  df : DataFrame;
  filtered_df : option DataFrame;
  filtered_sorted : option DataFrame;
  col_stats : option (list (string * pynum))
}.

(** A statement runs on the globals and leaves globals behind, whether
    it returns or raises. *)
Definition M (A : Type) : Type := Globals -> Exc A * Globals.

Definition ret {A : Type} (a : A) : M A := fun g => (OK a, g).

Definition bindM {A B : Type} (m : M A) (k : A -> M B) : M B :=
  fun g =>
    match m g with
    | (OK a, g') => k a g'
    | (Raise e, g') => (Raise e, g')
    end.

Definition liftE {A : Type} (m : Exc A) : M A := fun g => (m, g).

Definition read_globals : M Globals := fun g => (OK g, g).

Definition assign_filtered_df (f : DataFrame) : M unit :=
  fun g => (OK tt, mkGlobals (df g) (Some f) (filtered_sorted g) (col_stats g)).

Definition assign_filtered_sorted (f : DataFrame) : M unit :=
  fun g => (OK tt, mkGlobals (df g) (filtered_df g) (Some f) (col_stats g)).

Definition assign_col_stats (s : list (string * pynum)) : M unit :=
  fun g =>
    (OK tt, mkGlobals (df g) (filtered_df g) (filtered_sorted g) (Some s)).

(** Reading a module-level name that was never assigned. *)
Definition read_name {A : Type} (v : option A) : Exc A :=
  match v with
  | Some a => OK a
  | None => Raise NameError
  end.

Declare Scope stmt_scope.
Delimit Scope stmt_scope with stmt.
Notation "x <~ m ;; k" := (bindM m (fun x => k))
  (at level 61, m at next level, right associativity) : stmt_scope.
Notation "m ;;; k" := (bindM m (fun _ => k))
  (at level 61, right associativity) : stmt_scope.

(** [try: body except KeyError: handler] *)
Definition try_except_KeyError {A : Type} (body handler : Exc A) : Exc A :=
  match body with
  | Raise KeyError => handler
  | r => r
  end.

Definition is_str (c : cell) : bool :=
  match c with
  | CStr _ => true
  | CFloat _ => false
  end.

Definition cell_floats (l : list cell) : list float64 :=
  flat_map (fun c => match c with CFloat f => [f] | CStr _ => [] end) l.

(** What the three query operations hand to the page. *)
Inductive output : Type :=
| Ranked (r : DataFrame)
| Sentence (s : string)
| Means (l : list pynum).

(** A call into the query layer. *)
Inductive call : Type :=
| CallRank (continent : string) (metric : Metric) (top_n : Z)
| CallCorr (x y : string)
| CallMeans (cols : list string).

Section Script.

(** The library routines the script reaches, beyond the frame
    bookkeeping above. *)

(** numpy's [argsort] on a float array without NaN. *)
Variable argsort : list float64 -> list nat.

(** pandas' [nargsort] on an object column, descending, NaN last. *)
Variable nargsort_object : list cell -> Exc (list nat).

(** The mean of a float array, NaN skipped. *)
Variable nanmean : list float64 -> float64.

(** [Series.corr], Pearson's coefficient computed in floating point. *)
Variable Series_corr : Series -> Series -> Exc float64.

(** The format specification [:.2f]. *)
Variable format_2f : float64 -> string.

(** pandas' [nargsort(items, ascending=False, na_position='last')] on
    a float column: the present keys and their positions are both
    reversed, sorted ascending, mapped back to positions, reversed
    again; the positions of the missing keys follow. *)
Definition nargsort (items : list float64) : Exc (list nat) :=
  let mask := map isnan items in
  let idx := seq 0 (length items) in
  let non_nans := rev (compress (map negb mask) items) in
  let non_nan_idx := rev (compress (map negb mask) idx) in
  let nan_idx := nonzero mask in
  indexer <- take (argsort non_nans) non_nan_idx ;;
  OK (rev indexer ++ nan_idx).

(** [d.sort_values(by=by_, ascending=False)] *)
Definition sort_values (d : DataFrame) (by_ : string) : Exc DataFrame :=
  k <- getitem d by_ ;;
  indexer <- match k with
             | Float64 items => nargsort items
             | Object items => nargsort_object items
             end ;;
  frame_take indexer d.

(** [s.mean()]: text does not average. *)
Definition series_mean (s : Series) : Exc float64 :=
  match s with
  | Float64 l => OK (nanmean l)
  | Object l =>
      if existsb is_str l then Raise TypeError
      else OK (nanmean (cell_floats l))
  end.

(** *** Lines 40-41 as a function of the frame *)

(** [d[d['Continent'] == continent]] *)
Definition filter_continent (d : DataFrame) (continent : string)
  : Exc DataFrame :=
  s <- getitem d "Continent" ;;
  getitem_bool d (series_eq s continent).

Definition rankByMetric (d : DataFrame) (continent : string)
           (metric : Metric) (top_n : Z) : Exc DataFrame :=
  f <- filter_continent d continent ;;
  s <- sort_values f (metric_label metric) ;;
  OK (head top_n s).

(** *** The statements, on the globals *)

Local Open Scope stmt_scope.

(** Line 40: [filtered_df = df[df['Continent'] == continent]] *)
Definition line_40 (continent : string) : M unit :=
  g <~ read_globals ;;
  f <~ liftE (filter_continent (df g) continent) ;;
  assign_filtered_df f.

(** Line 41: [filtered_sorted =
    filtered_df.sort_values(by=metric, ascending=False).head(top_n)] *)
Definition line_41 (metric : Metric) (top_n : Z) : M unit :=
  g <~ read_globals ;;
  f <~ liftE (read_name (filtered_df g)) ;;
  s <~ liftE (sort_values f (metric_label metric)) ;;
  assign_filtered_sorted (head top_n s).

(** Lines 40-41, then the value of [filtered_sorted]. *)
Definition run_rank (continent : string) (metric : Metric) (top_n : Z)
  : M DataFrame :=
  line_40 continent ;;;
  line_41 metric top_n ;;;
  g <~ read_globals ;;
  liftE (read_name (filtered_sorted g)).

(** Lines 99-102. *)
Definition describe_relationship (x y : string) : M string :=
  g <~ read_globals ;;
  sx <~ liftE (getitem (df g) x) ;;
  sy <~ liftE (getitem (df g) y) ;;
  corr <~ liftE (Series_corr sx sy) ;;
  ret ("Correlation between " ++ x ++ " and " ++ y ++ ": "
       ++ format_2f corr)%string.

(** Lines 111-115. *)
Definition column_mean (d : DataFrame) (col : string) : Exc pynum :=
  s <- getitem d col ;;
  m <- series_mean s ;;
  OK (PyFloat m).

Definition safeColumnMeans (d : DataFrame) (cols : list string)
  : Exc (list pynum) :=
  try_except_KeyError
    (mapM (column_mean d) cols)
    (OK (map (fun _ => PyInt 0) cols)).

Definition safe_get_columns (cols : list string) : M (list pynum) :=
  g <~ read_globals ;;
  liftE (safeColumnMeans (df g) cols).

(** Line 117: [col_stats = dict(zip(['Sales', 'Profit'],
    safe_get_columns(['Sales ($billion)', 'Profits ($billion)'])))] *)
Definition line_117 : M unit :=
  l <~ safe_get_columns ["Sales ($billion)"; "Profits ($billion)"] ;;
  assign_col_stats (combine ["Sales"; "Profit"] l).

(** One call into the query layer. *)
Definition run_call (c : call) : M output :=
  match c with
  | CallRank continent metric top_n =>
      r <~ run_rank continent metric top_n ;; ret (Ranked r)
  | CallCorr x y =>
      s <~ describe_relationship x y ;; ret (Sentence s)
  | CallMeans cols =>
      l <~ safe_get_columns cols ;; ret (Means l)
  end.

(** Calls one after the other on the same globals.  A call that
    raises leaves the globals as they stood at the raise, and the next
    call runs on them.  Returns what each call gave. *)
Fixpoint run_calls (cs : list call) (g : Globals)
  : list (Exc output) * Globals :=
  match cs with
  | [] => ([], g)
  | c :: cs' =>
      let (r, g') := run_call c g in
      let (rs, g'') := run_calls cs' g' in
      (r :: rs, g'')
  end.

End Script.

(** ** A sorting routine that meets numpy's promise *)

(** Insertion of position [i] into positions already sorted by key:
    [i] goes in front of the first position [j] for which
    [before (key i) (key j)]. *)
Fixpoint insert_idx (before : float64 -> float64 -> bool)
         (key : nat -> float64) (i : nat) (idx : list nat) : list nat :=
  match idx with
  | [] => [i]
  | j :: idx' =>
      if before (key i) (key j) then i :: j :: idx'
      else j :: insert_idx before key i idx'
  end.

Definition insertion_argsort (before : float64 -> float64 -> bool)
           (l : list float64) : list nat :=
  fold_left (fun idx i => insert_idx before (fun k => nth k l S754_nan) i idx)
            (seq 0 (length l)) [].

(** Insertion sort in which a key moves left past the strictly larger
    ones only, so equal keys keep their order. *)
Definition stable_argsort : list float64 -> list nat :=
  insertion_argsort flt.

(** ** numpy's quicksort *)

(** [sort_values] is called without [kind], so [nargsort] calls
    [argsort(kind='quicksort')].  For a float64 array that is
    [aquicksort_<npy::double_tag>] of numpy's
    [_core/src/npysort/quicksort.cpp], transcribed below: quicksort on
    an array of positions with a median of three as pivot, an insertion
    sort for ranges of at most 17 entries, and a heap sort for a range
    whose depth allowance is used up.  This is the portable routine; on
    x86 processors with AVX-512 or AVX2 recent numpy builds hand the
    array to a vectorised kernel of x86-simd-sort first, which is not
    transcribed here.

    Pointers into [tosort] are offsets, of type [Z] as [npy_intp]; the
    loops run on fuel that the length of the array covers. *)
Module Npysort.

Local Open Scope Z_scope.

(** [npy::double_tag::less]: NaN sorts to the end. *)
Definition less (a b : float64) : bool :=
  flt a b || (isnan b && negb (isnan a)).

(** [*p] and [*p = x] *)
Definition get (a : list nat) (p : Z) : nat := nth (Z.to_nat p) a 0%nat.

Fixpoint set_nth (a : list nat) (k : nat) (x : nat) : list nat :=
  match a, k with
  | [], _ => []
  | _ :: a', O => x :: a'
  | y :: a', S k' => y :: set_nth a' k' x
  end.

Definition put (a : list nat) (p : Z) (x : nat) : list nat :=
  set_nth a (Z.to_nat p) x.

(** [INTP_SWAP] of [*p] and [*q] *)
Definition swap (a : list nat) (p q : Z) : list nat :=
  put (put a p (get a q)) q (get a p).

Definition SMALL_QUICKSORT : Z := 16.

(** [npy_get_msb]: how often the number can be halved before it is 0,
    less one. *)
Definition npy_get_msb (n : Z) : Z := Z.log2 n.

(** A range pushed on the stack, with the depth allowance stored for
    it. *)
Record range : Type := mkRange { lo : Z; hi : Z; depth : Z }.

Section Sort.

(** The array of keys, [v]. *)
Variable v : list float64.

Definition val (i : nat) : float64 := nth i v S754_nan.

(** [do { ++pi; } while (less(v[*pi], vp));] *)
Fixpoint scan_up (fuel : nat) (a : list nat) (vp : float64) (pi : Z) : Z :=
  match fuel with
  | O => pi
  | S fuel' =>
      let pi := pi + 1 in
      if less (val (get a pi)) vp then scan_up fuel' a vp pi else pi
  end.

(** [do { --pj; } while (less(vp, v[*pj]));] *)
Fixpoint scan_down (fuel : nat) (a : list nat) (vp : float64) (pj : Z) : Z :=
  match fuel with
  | O => pj
  | S fuel' =>
      let pj := pj - 1 in
      if less vp (val (get a pj)) then scan_down fuel' a vp pj else pj
  end.

(** [for (;;)]: scan up, scan down, leave when [pi >= pj], else
    [INTP_SWAP] of [*pi] and [*pj]. *)
Fixpoint exchange (fuel : nat) (a : list nat) (vp : float64) (pi pj : Z)
  : list nat * Z :=
  match fuel with
  | O => (a, pi)
  | S fuel' =>
      let pi := scan_up (length a) a vp pi in
      let pj := scan_down (length a) a vp pj in
      if pi >=? pj then (a, pi)
      else exchange fuel' (swap a pi pj) vp pi pj
  end.

(** The body of [while ((pr - pl) > SMALL_QUICKSORT)] up to the push:
    the median of [*pl], [*pm], [*pr] goes to [pr - 1] as pivot, the
    rest is exchanged around it, and the pivot is put in its place
    [pi], which is returned. *)
Definition split (a : list nat) (pl pr : Z) : list nat * Z :=
  let pm := pl + Z.shiftr (pr - pl) 1 in
  let a := if less (val (get a pm)) (val (get a pl)) then swap a pm pl else a in
  let a := if less (val (get a pr)) (val (get a pm)) then swap a pr pm else a in
  let a := if less (val (get a pm)) (val (get a pl)) then swap a pm pl else a in
  let vp := val (get a pm) in
  let pj := pr - 1 in
  let a := swap a pm pj in
  let (a, pi) := exchange (length a) a vp pl pj in
  (swap a pi (pr - 1), pi).

(** [while (pj > pl && less(vp, v[*pk])) { *pj-- = *pk--; }] *)
Fixpoint shift (fuel : nat) (a : list nat) (pl : Z) (vp : float64) (pj : Z)
  : list nat * Z :=
  match fuel with
  | O => (a, pj)
  | S fuel' =>
      let pk := pj - 1 in
      if (pj >? pl) && less vp (val (get a pk))
      then shift fuel' (put a pj (get a pk)) pl vp pk
      else (a, pj)
  end.

(** [for (pi = pl + 1; pi <= pr; ++pi)]: the insertion sort of the
    range. *)
Fixpoint insert_from (fuel : nat) (a : list nat) (pl pr pi : Z) : list nat :=
  match fuel with
  | O => a
  | S fuel' =>
      if pi <=? pr then
        let vi := get a pi in
        let (a, pj) := shift (length a) a pl (val vi) pi in
        insert_from fuel' (put a pj vi) pl pr (pi + 1)
      else a
  end.

Definition insertion (a : list nat) (pl pr : Z) : list nat :=
  insert_from (length a) a pl pr (pl + 1).

(** [aheapsort_]: the inner loop that lets [tmp] sink from [i].  The
    range is read one-based through [base = start - 1]. *)
Fixpoint sink (fuel : nat) (a : list nat) (base n : Z) (tmp : nat) (i j : Z)
  : list nat * Z :=
  match fuel with
  | O => (a, i)
  | S fuel' =>
      if j <=? n then
        let j := if (j <? n)
                    && less (val (get a (base + j)))
                            (val (get a (base + j + 1)))
                 then j + 1 else j in
        if less (val tmp) (val (get a (base + j)))
        then sink fuel' (put a (base + i) (get a (base + j)))
                  base n tmp j (j + j)
        else (a, i)
      else (a, i)
  end.

(** [for (l = n >> 1; l > 0; --l)] *)
Fixpoint heapify (fuel : nat) (a : list nat) (base n l : Z) : list nat :=
  match fuel with
  | O => a
  | S fuel' =>
      if l >? 0 then
        let tmp := get a (base + l) in
        let (a, i) := sink (length a) a base n tmp l (Z.shiftl l 1) in
        heapify fuel' (put a (base + i) tmp) base n (l - 1)
      else a
  end.

(** [for (; n > 1;)] *)
Fixpoint unheap (fuel : nat) (a : list nat) (base n : Z) : list nat :=
  match fuel with
  | O => a
  | S fuel' =>
      if n >? 1 then
        let tmp := get a (base + n) in
        let a := put a (base + n) (get a (base + 1)) in
        let n := n - 1 in
        let (a, i) := sink (length a) a base n tmp 1 2 in
        unheap fuel' (put a (base + i) tmp) base n
      else a
  end.

Definition aheapsort (a : list nat) (start n : Z) : list nat :=
  let base := start - 1 in
  unheap (length a) (heapify (length a) a base n (Z.shiftr n 1)) base n.

(** [while ((pr - pl) > SMALL_QUICKSORT)]: split, push the larger
    part with the lowered depth allowance, go on with the smaller. *)
Fixpoint narrow (fuel : nat) (a : list nat) (pl pr cdepth : Z)
         (stack : list range) : list nat * Z * Z * list range :=
  match fuel with
  | O => (a, pl, pr, stack)
  | S fuel' =>
      if pr - pl >? SMALL_QUICKSORT then
        let (a, pi) := split a pl pr in
        let cdepth := cdepth - 1 in
        if pi - pl <? pr - pi
        then narrow fuel' a pl (pi - 1) cdepth
                    (mkRange (pi + 1) pr cdepth :: stack)
        else narrow fuel' a (pi + 1) pr cdepth
                    (mkRange pl (pi - 1) cdepth :: stack)
      else (a, pl, pr, stack)
  end.

(** [while (1)]: heap sort when the allowance is used up, else narrow
    the range and sort what is left by insertion; then pop. *)
Fixpoint sort_ranges (fuel : nat) (a : list nat) (pl pr cdepth : Z)
         (stack : list range) : list nat :=
  match fuel with
  | O => a
  | S fuel' =>
      let '(a, stack) :=
        if cdepth <? 0 then (aheapsort a pl (pr - pl + 1), stack)
        else
          let '(a, pl, pr, stack) := narrow (length a) a pl pr cdepth stack in
          (insertion a pl pr, stack) in
      match stack with
      | [] => a
      | top :: stack =>
          sort_ranges fuel' a (lo top) (hi top) (depth top) stack
      end
  end.

(** [aquicksort_(v, tosort, num)] on [tosort = 0, 1, ..., num - 1], as
    [argsort] sets it up. *)
Definition aquicksort : list nat :=
  let num := Z.of_nat (length v) in
  sort_ranges (S (length v)) (seq 0 (length v)) 0 (num - 1)
              (npy_get_msb num * 2) [].

End Sort.

End Npysort.

(** ** Sample data *)

(** The float a small whole number in the CSV text parses to: the
    number itself, its mantissa shifted up to 53 bits. *)
Definition float_of_pos (p : positive) : float64 :=
  let s := (53 - Z.pos (Pos.size p))%Z in
  S754_finite false (Pos.shiftl p (Z.to_N s)) (- s).

(** A frame with the file's header, one metric value per row standing
    in every metric column, and no coordinates. *)
Definition frame_of (company continent country : list string)
           (value : list positive) : DataFrame :=
  let v := Float64 (map float_of_pos value) in
  let missing := Float64 (map (fun _ => S754_nan) company) in
  mkFrame (seq 0 (length company))
    [("Company", Object (map CStr company));
     ("Continent", Object (map CStr continent));
     ("Country", Object (map CStr country));
     ("Sales ($billion)", v);
     ("Profits ($billion)", v);
     ("Assets ($billion)", v);
     ("Market Value ($billion)", v);
     ("Latitude_final", missing);
     ("Longitude_final", missing)].

(** Rows (A, Asia, 10), (B, Asia, 30), (C, Europe, 20). *)
Definition three_rows : DataFrame :=
  frame_of ["A"; "B"; "C"] ["Asia"; "Asia"; "Europe"]
           ["Japan"; "China"; "France"] [10; 30; 20]%positive.

(** Three Asian companies, the first two with the same numbers. *)
Definition tied_rows : DataFrame :=
  frame_of ["A"; "B"; "C"] ["Asia"; "Asia"; "Asia"]
           ["Japan"; "China"; "India"] [10; 10; 30]%positive.

(** Eighteen Asian companies, A to R, with numbers of 10, 20 and 30:
    six of them, A, C, E, G, K and Q, have 30. *)
Definition eighteen_rows : DataFrame :=
  frame_of ["A"; "B"; "C"; "D"; "E"; "F"; "G"; "H"; "I";
            "J"; "K"; "L"; "M"; "N"; "O"; "P"; "Q"; "R"]
           (repeat "Asia" 18) (repeat "Japan" 18)
           [30; 20; 30; 10; 30; 10; 30; 10; 20;
            20; 30; 10; 10; 10; 20; 10; 30; 20]%positive.

(** The same file without its profits column. *)
Definition no_profits : DataFrame :=
  mkFrame (index three_rows)
          (filter (fun c => negb (String.eqb (fst c) "Profits ($billion)"))
                  (columns three_rows)).

(** The globals after line 31, [df = load_data()], on a file read
    as [d]. *)
Definition loaded (d : DataFrame) : Globals := mkGlobals d None None None.

(** ** A mean to run the examples with *)

(** The mean of the present entries, summed left to right in binary64
    arithmetic; of no entry at all it is 0/0, NaN. *)
Definition float_of_nat (n : nat) : float64 :=
  binary_normalize 53 1024 (Z.of_nat n) 0 false.

Definition sequential_nanmean (l : list float64) : float64 :=
  let xs := filter (fun x => negb (isnan x)) l in
  SFdiv 53 1024
        (fold_left (SFadd 53 1024) xs (S754_zero false))
        (float_of_nat (length xs)).

(** An object column cannot be a sort key in these examples. *)
Definition no_object_sort (l : list cell) : Exc (list nat) := Raise TypeError.

(** ** [Series.corr] *)

(** Line 101 calls [df[x].corr(df[y])] with the defaults
    [method='pearson'] and [min_periods=None].  pandas keeps the rows
    in which both columns have a value and hands the two arrays to
    [numpy.corrcoef], which computes in binary64, rounding each
    operation to nearest-even. *)
Definition fadd : float64 -> float64 -> float64 := SFadd 53 1024.
Definition fsub : float64 -> float64 -> float64 := SFsub 53 1024.
Definition fmul : float64 -> float64 -> float64 := SFmul 53 1024.
Definition fdiv : float64 -> float64 -> float64 := SFdiv 53 1024.
Definition fsqrt : float64 -> float64 := SFsqrt 53 1024.

Definition one : float64 := float_of_nat 1.
Definition minus_one : float64 := SFopp one.

(** [res += a[i]] over the entries of [l] *)
Definition sum_onto (res : float64) (l : list float64) : float64 :=
  fold_left fadd l res.

(** [r[0] += a[i + 0]; ...; r[7] += a[i + 7]] *)
Fixpoint add_lanes (r l : list float64) : list float64 :=
  match r, l with
  | x :: r', y :: l' => fadd x y :: add_lanes r' l'
  | _, _ => r
  end.

(** [for (i = 8; i < n - (n % 8); i += 8)]: the accumulators and what
    is left of the array after that many rounds. *)
Fixpoint unrolled (rounds : nat) (r l : list float64)
  : list float64 * list float64 :=
  match rounds with
  | O => (r, l)
  | S rounds' => unrolled rounds' (add_lanes r (firstn 8 l)) (skipn 8 l)
  end.

Definition lane (r : list float64) (i : nat) : float64 :=
  nth i r (S754_zero false).

(** numpy's [DOUBLE_pairwise_sum] ([_core/src/umath/loops_utils.h.src]):
    fewer than 8 entries are added one after the other onto -0.0; up
    to 128 go through eight accumulators that are added in pairs, the
    entries beyond a multiple of 8 last; a longer array is halved, at a
    multiple of 8. *)
Fixpoint pairwise_sum (fuel : nat) (a : list float64) : float64 :=
  let n := length a in
  if (n <? 8)%nat then sum_onto (S754_zero true) a
  else if (n <=? 128)%nat then
    let (r, rest) := unrolled (n / 8 - 1) (firstn 8 a) (skipn 8 a) in
    sum_onto
      (fadd (fadd (fadd (lane r 0) (lane r 1)) (fadd (lane r 2) (lane r 3)))
            (fadd (fadd (lane r 4) (lane r 5)) (fadd (lane r 6) (lane r 7))))
      rest
  else
    match fuel with
    | O => S754_nan
    | S fuel' =>
        let n2 := (n / 2 - (n / 2) mod 8)%nat in
        fadd (pairwise_sum fuel' (firstn n2 a))
             (pairwise_sum fuel' (skipn n2 a))
    end.

(** [numpy.add.reduce] along a contiguous row: the pairwise sum, added
    onto the identity. *)
Definition add_reduce (a : list float64) : float64 :=
  fadd (S754_zero true) (pairwise_sum (length a) a).

(** [a.mean()] of numpy's [_methods._mean]: the sum divided by the
    count. *)
Definition np_mean (a : list float64) : float64 :=
  fdiv (add_reduce a) (float_of_nat (length a)).

(** One entry of [dot(X, X.T)]: the products added in order.  (A
    linked BLAS may add them in another order.) *)
Definition dot (x y : list float64) : float64 :=
  fold_left (fun acc p => fadd acc (fmul (fst p) (snd p)))
            (combine x y) (S754_zero false).

(** [X -= avg[:, None]] on one row *)
Definition centred (x : list float64) : list float64 :=
  map (fun a => fsub a (np_mean x)) x.

(** [numpy.cov] with its defaults: [fact = n - ddof] with [ddof = 1],
    set to 0.0 when it is not positive, and [c *= true_divide(1, fact)].
    One entry of the matrix. *)
Definition cov_entry (x y : list float64) : float64 :=
  let fact := float_of_nat (length x - 1) in
  fmul (dot (centred x) (centred y)) (fdiv one fact).

(** numpy's [maximum], [minimum] and [clip] on one entry: a NaN
    stays. *)
Definition fmax (a b : float64) : float64 :=
  if isnan a || flt b a then a else b.

Definition fmin (a b : float64) : float64 :=
  if isnan a || flt a b then a else b.

Definition clip (x lo hi : float64) : float64 := fmin (fmax x lo) hi.

(** [numpy.corrcoef(x, y)[0, 1]]: [c = cov(x, y)],
    [stddev = sqrt(diag(c))], [c /= stddev[:, None]],
    [c /= stddev[None, :]], and the clip to [-1, 1]. *)
Definition corrcoef (x y : list float64) : float64 :=
  let stddev_x := fsqrt (cov_entry x x) in
  let stddev_y := fsqrt (cov_entry y y) in
  clip (fdiv (fdiv (cov_entry x y) stddev_x) stddev_y) minus_one one.

Definition notna (x : float64) : bool := negb (isnan x).

(** The rows in which both columns have a value:
    [valid = notna(a) & notna(b)]. *)
Definition valid_pairs (a b : list float64) : list (float64 * float64) :=
  filter (fun p => notna (fst p) && notna (snd p)) (combine a b).

(** pandas' [nanops.nancorr] with [min_periods = 1]. *)
Definition nancorr (a b : list float64) : float64 :=
  let ps := valid_pairs a b in
  if (length ps <? 1)%nat then S754_nan
  else corrcoef (map fst ps) (map snd ps).

(** [s.to_numpy(dtype=float, na_value=np.nan)]: text does not
    convert. *)
Definition to_float (s : Series) : Exc (list float64) :=
  match s with
  | Float64 l => OK l
  | Object l =>
      if existsb is_str l then Raise ValueError else OK (cell_floats l)
  end.

(** [s.corr(other)] for two columns of one frame, which share their
    index: an empty column gives NaN at once. *)
Definition corr (s other : Series) : Exc float64 :=
  if (series_len s =? 0)%nat then OK S754_nan
  else
    a <- to_float s ;;
    b <- to_float other ;;
    OK (nancorr a b).

(** Line 101, as a function of the frame. *)
Definition correlation (d : DataFrame) (x y : string) : Exc float64 :=
  sx <- getitem d x ;;
  sy <- getitem d y ;;
  corr sx sy.

(** The sample variance of a column with itself, as [corrcoef] reads it
    off the diagonal; and what becomes of it when the column is
    correlated with itself. *)
Definition variance (x : list float64) : float64 := cov_entry x x.

Definition self_quotient (v : float64) : float64 :=
  clip (fdiv (fdiv v (fsqrt v)) (fsqrt v)) minus_one one.

(** A column whose entries are all one value, and whose mean comes out
    as that value. *)
Definition level (l : list float64) : Prop :=
  exists c : float64, Forall (fun a => a = c) l /\ np_mean l = c.

(** *** Sample columns *)

(** 0.1 as [read_csv] parses it: the float nearest to one tenth, which
    is what the rounded quotient 1/10 is. *)
Definition tenth : float64 := fdiv one (float_of_nat 10).

(** A frame with other sales and profits. *)
Definition with_metrics (d : DataFrame) (sales profits : list float64)
  : DataFrame :=
  mkFrame (index d)
    (map (fun c =>
            if String.eqb (fst c) "Sales ($billion)"
            then (fst c, Float64 sales)
            else if String.eqb (fst c) "Profits ($billion)"
                 then (fst c, Float64 profits)
                 else c)
         (columns d)).

(** Three companies with sales and profits of 0.1 each; and of 5.0
    each. *)
Definition tenths : DataFrame :=
  with_metrics three_rows [tenth; tenth; tenth] [tenth; tenth; tenth].

Definition fives : DataFrame :=
  with_metrics three_rows (map float_of_nat [5; 5; 5])
               (map float_of_nat [5; 5; 5]).

(** Two companies with sales 0 and 2; and with sales 0 and 2^600,
    which is 4.149515568880993e+180. *)
Definition two_rows : DataFrame :=
  frame_of ["A"; "B"] ["Asia"; "Asia"] ["Japan"; "China"] [1; 1]%positive.

Definition zero_two : DataFrame :=
  with_metrics two_rows (map float_of_nat [0; 2]) (map float_of_nat [0; 2]).

Definition huge : float64 := S754_finite false (2 ^ 52) 548.

Definition zero_huge : DataFrame :=
  with_metrics two_rows [float_of_nat 0; huge] [float_of_nat 0; huge].

(** The float just below 1.0, 0.9999999999999999. *)
Definition below_one : float64 :=
  S754_finite false (2 ^ 53 - 1) (-53).

(** ** The rest of the script *)

(** *** Line 35: the continents the sidebar offers *)

(** Two entries the hash table behind [unique] holds for one: equal
    texts, equal floats, or two missing values. *)
Definition cell_same (x y : cell) : bool :=
  match x, y with
  | CStr s, CStr t => String.eqb s t
  | CFloat a, CFloat b => SFeqb a b || (isnan a && isnan b)
  | _, _ => false
  end.

(** The entries of [l] not met before, in the order they are met. *)
Fixpoint uniques (seen : list cell) (l : list cell) : list cell :=
  match l with
  | [] => []
  | x :: l' =>
      if existsb (cell_same x) seen then uniques seen l'
      else x :: uniques (x :: seen) l'
  end.

(** [s.unique()] *)
Definition Series_unique (s : Series) : list cell :=
  uniques [] (series_cells s).

(** [df['Continent'].unique()], the options of the select box. *)
Definition continent_options (d : DataFrame) : Exc (list cell) :=
  s <- getitem d "Continent" ;;
  OK (Series_unique s).

(** [x == y] between two entries, as Python compares them: a missing
    value equals nothing, itself included. *)
Definition cell_eq (x y : cell) : bool :=
  match x, y with
  | CStr s, CStr t => String.eqb s t
  | CFloat a, CFloat b => SFeqb a b
  | _, _ => false
  end.

(** [s == choice], for whatever the select box returned. *)
Definition series_eq_cell (s : Series) (choice : cell) : list bool :=
  map (fun x => cell_eq x choice) (series_cells s).

(** Lines 40-41 on the select box's value itself, which is an entry of
    the column: a text, or NaN when the column has a gap. *)
Definition rank_choice (argsort : list float64 -> list nat)
           (nargsort_object : list cell -> Exc (list nat))
           (d : DataFrame) (choice : cell) (metric : Metric) (top_n : Z)
  : Exc DataFrame :=
  c <- getitem d "Continent" ;;
  f <- getitem_bool d (series_eq_cell c choice) ;;
  s <- sort_values argsort nargsort_object f (metric_label metric) ;;
  OK (head top_n s).

(** *** Line 46: the bars *)

(** The two arguments of [ax.barh]: the [Company] column and the metric
    column of the ranked frame. *)
Definition bars (r : DataFrame) (metric : Metric) : Exc (Series * Series) :=
  y <- getitem r "Company" ;;
  width <- getitem r (metric_label metric) ;;
  OK (y, width).

(** *** Line 64: the frame behind the map *)

(** [d[cols]] for a list of names: those columns, in the order asked. *)
Definition getitem_list (d : DataFrame) (cols : list string) : Exc DataFrame :=
  cs <- mapM (fun c => s <- getitem d c ;; OK (c, s)) cols ;;
  OK (mkFrame (index d) cs).

Definition cell_isna (c : cell) : bool :=
  match c with
  | CStr _ => false
  | CFloat f => isnan f
  end.

(** [s.notna()] *)
Definition series_notna (s : Series) : list bool :=
  map (fun c => negb (cell_isna c)) (series_cells s).

Definition and_masks (a b : list bool) : list bool :=
  map (fun p => fst p && snd p) (combine a b).

(** [d.notna().all(axis=1)]: the rows with no missing entry. *)
Definition complete_rows (d : DataFrame) : list bool :=
  fold_right (fun c acc => and_masks (series_notna (snd c)) acc)
             (repeat true (nrows d)) (columns d).

(** [d.dropna()]: the complete rows, in a new frame. *)
Definition dropna (d : DataFrame) : Exc DataFrame :=
  frame_take (nonzero (complete_rows d)) d.

Definition map_columns : list string :=
  ["Company"; "Latitude_final"; "Longitude_final"; "Market Value ($billion)"].

(** Line 64: [map_df = df[['Company', 'Latitude_final', 'Longitude_final',
    'Market Value ($billion)']].dropna()] *)
Definition map_df (d : DataFrame) : Exc DataFrame :=
  sub <- getitem_list d map_columns ;;
  dropna sub.

(** Has every entry of the frame a value? *)
Definition no_gap (d : DataFrame) : Prop :=
  Forall (fun c => Forall (fun x => cell_isna x = false) (series_cells (snd c)))
         (columns d).

(** The dtype of a column. *)
Definition is_float64 (s : Series) : bool :=
  match s with
  | Float64 _ => true
  | Object _ => false
  end.

Definition schema (d : DataFrame) : list (string * bool) :=
  map (fun c => (fst c, is_float64 (snd c))) (columns d).

(** *** More sample data *)

(** Four companies; B has no coordinates and D no continent. *)
Definition with_gaps : DataFrame :=
  let v := Float64 (map float_of_pos [10; 30; 20; 40]%positive) in
  let lat := Float64 [float_of_pos 35; S754_nan; float_of_pos 48;
                      float_of_pos 19] in
  let lon := Float64 [float_of_pos 139; S754_nan; float_of_pos 2;
                      float_of_pos 72] in
  mkFrame [0; 1; 2; 3]
    [("Company", Object [CStr "A"; CStr "B"; CStr "C"; CStr "D"]);
     ("Continent", Object [CStr "Asia"; CStr "Asia"; CStr "Europe";
                           CFloat S754_nan]);
     ("Country", Object [CStr "Japan"; CStr "China"; CStr "France";
                         CStr "India"]);
     ("Sales ($billion)", v);
     ("Profits ($billion)", v);
     ("Assets ($billion)", v);
     ("Market Value ($billion)", v);
     ("Latitude_final", lat);
     ("Longitude_final", lon)].

(** ** The objects behind the names *)

(** So far a frame is handed around as a value.  In the running script
    it is an object: [df], [filtered_df] and [filtered_sorted] are
    names bound to objects, two names may be bound to one object, and
    a pandas method either returns a new object or changes the one it
    is called on.  In this part the objects live in a heap, a name
    holds an address, and each pandas call of the modelled lines says
    which of the two it does. *)
Module Store.

Definition addr : Type := nat.

(** The module-level names and what they are bound to. *)
Record Names : Type := mkNames {
  df : addr;
  filtered_df : option addr;
  filtered_sorted : option addr;
  col_stats : option (list (string * pynum))
}.

(** The frames built so far, each at its address, and the names. *)
Record State : Type := mkState {
  heap : list DataFrame;
  names : Names
}.

Definition P (A : Type) : Type := State -> Exc A * State.

Definition ret {A : Type} (a : A) : P A := fun s => (OK a, s).

Definition bind {A B : Type} (m : P A) (k : A -> P B) : P B :=
  fun s =>
    match m s with
    | (OK a, s') => k a s'
    | (Raise e, s') => (Raise e, s')
    end.

Definition lift {A : Type} (m : Exc A) : P A := fun s => (m, s).

Definition read_names : P Names := fun s => (OK (names s), s).

Declare Scope store_scope.
Delimit Scope store_scope with store.
Notation "x <~ m ;; k" := (bind m (fun x => k))
  (at level 61, m at next level, right associativity) : store_scope.
Notation "m ;;; k" := (bind m (fun _ => k))
  (at level 61, right associativity) : store_scope.
Local Open Scope store_scope.

(** A new object, at the next free address. *)
Definition new (f : DataFrame) : P addr :=
  fun s => (OK (length (heap s)), mkState (heap s ++ [f]) (names s)).

(** The object at an address.  An address comes from [new] or from a
    name, so it points at an object in every state Python can reach;
    elsewhere the read is given [NameError]. *)
Definition deref (a : addr) : P DataFrame :=
  fun s =>
    (match nth_error (heap s) a with
     | Some f => OK f
     | None => Raise NameError
     end, s).

Fixpoint replace_nth (h : list DataFrame) (a : addr) (f : DataFrame)
  : list DataFrame :=
  match h, a with
  | [], _ => []
  | _ :: h', O => f :: h'
  | g :: h', S a' => g :: replace_nth h' a' f
  end.

(** The object at an address changed into [f]: what a method does that
    works in place. *)
Definition overwrite (a : addr) (f : DataFrame) : P unit :=
  fun s => (OK tt, mkState (replace_nth (heap s) a f) (names s)).

Definition assign_filtered_df (a : addr) : P unit :=
  fun s =>
    let n := names s in
    (OK tt, mkState (heap s)
                    (mkNames (df n) (Some a) (filtered_sorted n)
                             (col_stats n))).

Definition assign_filtered_sorted (a : addr) : P unit :=
  fun s =>
    let n := names s in
    (OK tt, mkState (heap s)
                    (mkNames (df n) (filtered_df n) (Some a) (col_stats n))).

Definition assign_col_stats (c : list (string * pynum)) : P unit :=
  fun s =>
    let n := names s in
    (OK tt, mkState (heap s)
                    (mkNames (df n) (filtered_df n) (filtered_sorted n)
                             (Some c))).

(** [[f(x) for x in l]] *)
Fixpoint comprehension {A B : Type} (f : A -> P B) (l : list A)
  : P (list B) :=
  match l with
  | [] => ret []
  | x :: l' =>
      y <~ f x ;;
      ys <~ comprehension f l' ;;
      ret (y :: ys)
  end.

(** [try: body except KeyError: handler] *)
Definition try_except_KeyError {A : Type} (body handler : P A) : P A :=
  fun s =>
    match body s with
    | (Raise KeyError, s') => handler s'
    | r => r
    end.

Section Script.

Variable argsort : list float64 -> list nat.
Variable nargsort_object : list cell -> Exc (list nat).
Variable nanmean : list float64 -> float64.
Variable Series_corr : Series -> Series -> Exc float64.
Variable format_2f : float64 -> string.

(** [d[c]], with a column label: the column of the object, read. *)
Definition getitem (a : addr) (c : string) : P Series :=
  d <~ deref a ;;
  lift (getitem d c).

(** [d[mask]], with a boolean column: the rows go into a new frame. *)
Definition getitem_bool (a : addr) (mask : list bool) : P addr :=
  d <~ deref a ;;
  f <~ lift (getitem_bool d mask) ;;
  new f.

(** [d.sort_values(by=by_, ascending=False, inplace=inplace)]: with
    [inplace=False], the default, the sorted rows go into a new frame,
    which is returned; with [inplace=True] the object itself is
    changed and [None] is returned. *)
Definition sort_values (a : addr) (by_ : string) (inplace : bool)
  : P (option addr) :=
  d <~ deref a ;;
  s <~ lift (sort_values argsort nargsort_object d by_) ;;
  if inplace then overwrite a s ;;; ret None
  else r <~ new s ;; ret (Some r).

(** [d.head(n)]: a new frame object on the first rows. *)
Definition head (a : addr) (n : Z) : P addr :=
  d <~ deref a ;;
  new (head n d).

(** A method called on what the call before returned. *)
Definition receiver (r : option addr) : P addr :=
  match r with
  | Some a => ret a
  | None => lift (Raise AttributeError)
  end.

(** Line 40: [filtered_df = df[df['Continent'] == continent]] *)
Definition line_40 (continent : string) : P unit :=
  n <~ read_names ;;
  c <~ getitem (df n) "Continent" ;;
  f <~ getitem_bool (df n) (series_eq c continent) ;;
  assign_filtered_df f.

(** Line 41: [filtered_sorted =
    filtered_df.sort_values(by=metric, ascending=False).head(top_n)] *)
Definition line_41 (metric : Metric) (top_n : Z) : P unit :=
  n <~ read_names ;;
  f <~ lift (read_name (filtered_df n)) ;;
  s <~ sort_values f (metric_label metric) false ;;
  s <~ receiver s ;;
  h <~ head s top_n ;;
  assign_filtered_sorted h.

(** Lines 40-41, then the frame [filtered_sorted] is bound to. *)
Definition run_rank (continent : string) (metric : Metric) (top_n : Z)
  : P DataFrame :=
  line_40 continent ;;;
  line_41 metric top_n ;;;
  n <~ read_names ;;
  r <~ lift (read_name (filtered_sorted n)) ;;
  deref r.

(** Lines 99-102. *)
Definition describe_relationship (x y : string) : P string :=
  n <~ read_names ;;
  sx <~ getitem (df n) x ;;
  n <~ read_names ;;
  sy <~ getitem (df n) y ;;
  corr <~ lift (Series_corr sx sy) ;;
  ret ("Correlation between " ++ x ++ " and " ++ y ++ ": "
       ++ format_2f corr)%string.

(** Lines 111-115. *)
Definition column_mean (col : string) : P pynum :=
  n <~ read_names ;;
  s <~ getitem (df n) col ;;
  m <~ lift (series_mean nanmean s) ;;
  ret (PyFloat m).

Definition safe_get_columns (cols : list string) : P (list pynum) :=
  try_except_KeyError
    (comprehension column_mean cols)
    (ret (map (fun _ => PyInt 0) cols)).

(** Line 117. *)
Definition line_117 : P unit :=
  l <~ safe_get_columns ["Sales ($billion)"; "Profits ($billion)"] ;;
  assign_col_stats (combine ["Sales"; "Profit"] l).

(** One call into the query layer, and calls one after the other. *)
Definition run_call (c : call) : P output :=
  match c with
  | CallRank continent metric top_n =>
      r <~ run_rank continent metric top_n ;; ret (Ranked r)
  | CallCorr x y =>
      s <~ describe_relationship x y ;; ret (Sentence s)
  | CallMeans cols =>
      l <~ safe_get_columns cols ;; ret (Means l)
  end.

Fixpoint run_calls (cs : list call) (s : State)
  : list (Exc output) * State :=
  match cs with
  | [] => ([], s)
  | c :: cs' =>
      let (r, s') := run_call c s in
      let (rs, s'') := run_calls cs' s' in
      (r :: rs, s'')
  end.

End Script.

(** The state after line 31, [df = load_data()], on a file read as
    [d]: one object, and [df] bound to it. *)
Definition loaded (d : DataFrame) : State :=
  mkState [d] (mkNames 0 None None None).

(** From [s] to [s'], [df] is bound to the same object and no object
    was changed: [s'] has the objects of [s], and may have more. *)
Definition grown (s s' : State) : Prop :=
  df (names s') = df (names s)
  /\ exists more : list DataFrame, heap s' = heap s ++ more.

(** A computation that does no more than that. *)
Definition keeps {A : Type} (m : P A) : Prop :=
  forall s : State, grown s (snd (m s)).

End Store.

(** ** Vocabulary of the proofs *)

(** Every position of [idx] falls inside [l]. *)
Definition in_range {A : Type} (l : list A) (idx : list nat) : Prop :=
  Forall (fun i => i < length l) idx.

(** A positional operation whose output length depends on the input
    length only keeps a frame rectangular. *)
Definition uniform (f : forall A : Type, list A -> list A) : Prop :=
  forall (A B : Type) (l : list A) (l' : list B),
    length l = length l' -> length (f A l) = length (f B l').

(** The present keys of a column, reversed, as [nargsort] hands them to
    [argsort]; and the same selection made on any column alongside. *)
Definition present_mask (items : list float64) : list bool :=
  map negb (map isnan items).

Definition non_nans {A : Type} (items : list float64) (l : list A) : list A :=
  rev (compress (present_mask items) l).

(** The positions [nargsort] returns. *)
Definition indexer_of (argsort : list float64 -> list nat)
           (items : list float64) : list nat :=
  rev (picks (argsort (non_nans items items))
             (non_nans items (seq 0 (length items))))
  ++ nonzero (map isnan items).

(** The rows whose continent is the chosen one, as a mask; the keys of
    those rows; and the positions [sort_values] arranges them in. *)
Definition chosen (cont : Series) (continent : string) : list bool :=
  series_eq cont continent.

Definition chosen_keys (cont : Series) (keys : list float64)
           (continent : string) : list float64 :=
  compress (chosen cont continent) keys.

Definition order (argsort : list float64 -> list nat) (cont : Series)
           (keys : list float64) (continent : string) : list nat :=
  indexer_of argsort (chosen_keys cont keys continent).

(** What line 40 does to one column, what [sort_values] then does,
    and what lines 40-41 do in all. *)
Definition masked (cont : Series) (continent : string)
           (A : Type) (l : list A) : list A :=
  compress (chosen cont continent) l.

Definition sorted (argsort : list float64 -> list nat) (cont : Series)
           (keys : list float64) (continent : string)
           (A : Type) (l : list A) : list A :=
  picks (order argsort cont keys continent) (masked cont continent l).

Definition ranked (argsort : list float64 -> list nat) (cont : Series)
           (keys : list float64) (continent : string) (top_n : Z)
           (A : Type) (l : list A) : list A :=
  head_list top_n (sorted argsort cont keys continent l).

(** The key at a position, for the insertion sort; positions sorted
    by key; the step of the insertion loop; positions sorted by key,
    and by position among equal keys. *)
Definition key (l : list float64) (i : nat) : float64 := nth i l S754_nan.

Definition by_key (l : list float64) (i j : nat) : Prop :=
  asc (key l i) (key l j).

Definition step (before : float64 -> float64 -> bool) (l : list float64)
           (idx : list nat) (i : nat) : list nat :=
  insert_idx before (key l) i idx.

Definition by_key_then_position (l : list float64) (i j : nat) : Prop :=
  asc (key l i) (key l j) /\ (flt (key l i) (key l j) = false -> i < j).

(** For the ties: the present keys as [argsort] receives them, the key
    at a position among them, and the same with the row labels
    alongside. *)
Definition nn (items : list float64) : list float64 := non_nans items items.

Definition K (items : list float64) (i : nat) : float64 :=
  nth i (nn items) S754_nan.

Definition pairs (items : list float64) (labels : list nat)
  : list (nat * float64) :=
  non_nans items (combine labels items).

Definition pair_at (items : list float64) (labels : list nat) (i : nat)
  : nat * float64 :=
  nth i (pairs items labels) (0, S754_nan).

(** [three_rows] with other names and countries in it. *)
Definition three_rows_renamed : DataFrame :=
  frame_of ["X"; "Y"; "Z"] ["Asia"; "Asia"; "Europe"]
           ["Korea"; "India"; "Spain"] [10; 30; 20]%positive.

(** [three_rows] without its coordinates. *)
Definition no_coordinates : DataFrame :=
  mkFrame (index three_rows)
          (filter (fun c => negb (String.eqb (fst c) "Latitude_final")
                            && negb (String.eqb (fst c) "Longitude_final"))
                  (columns three_rows)).

(** The positions, in the frame, of the rows lines 40-41 show, in the
    order shown. *)
Definition shown (argsort : list float64 -> list nat) (cont : Series)
           (keys : list float64) (continent : string) (top_n : Z)
  : list nat :=
  head_list top_n (picks (order argsort cont keys continent)
                         (nonzero (chosen cont continent))).

(** The float column of that name, empty when there is none. *)
Definition float_column (d : DataFrame) (c : string) : list float64 :=
  match lookup c (columns d) with
  | Some (Float64 l) => l
  | _ => []
  end.

(** Floats that are a zero or NaN, and floats that are an infinity or
    NaN: what the covariance entries are made of when a column does not
    vary, and when there is one row only. *)
Definition zero_or_nan (x : float64) : bool :=
  match x with
  | S754_zero _ | S754_nan => true
  | _ => false
  end.

Definition inf_or_nan (x : float64) : bool :=
  match x with
  | S754_infinity _ | S754_nan => true
  | _ => false
  end.

(** * Facts *)

(** ** The order on present floats *)

Module FloatOrder.

Lemma flt_spec (a b : float64) :
  isnan a = false -> isnan b = false ->
  (flt a b = true <-> lexlt (float_rank a) (float_rank b)).
Proof.
  intros Ha Hb. unfold flt, SFltb.
  destruct a as [sa | sa | | sa ma ea], b as [sb | sb | | sb mb eb];
    try discriminate; simpl;
    repeat match goal with s : bool |- _ => destruct s end; simpl;
    try (split; [discriminate | lia]);
    try (split; [lia | reflexivity]);
    change (Pos.compare_cont Eq ?x ?y) with (Pos.compare x y);
    destruct (Z.compare_spec ea eb); simpl;
    try destruct (Pos.compare_spec ma mb); simpl;
    split; intros; try discriminate; try reflexivity; try lia.
Qed.

Lemma flt_irrefl (a : float64) : flt a a = false.
Proof.
  destruct (isnan a) eqn:Ha.
  - destruct a; try discriminate; reflexivity.
  - destruct (flt a a) eqn:E; [ | reflexivity].
    apply (flt_spec a a Ha Ha) in E.
    destruct (float_rank a) as [[x1 x2] x3]; simpl in E; lia.
Qed.

Lemma flt_asym (a b : float64) : flt a b = true -> flt b a = false.
Proof.
  intros H.
  destruct (isnan a) eqn:Ha; [destruct a; discriminate | ].
  destruct (isnan b) eqn:Hb;
    [destruct a, b; try discriminate; reflexivity | ].
  destruct (flt b a) eqn:E; [ | reflexivity].
  apply (flt_spec a b Ha Hb) in H. apply (flt_spec b a Hb Ha) in E.
  destruct (float_rank a) as [[x1 x2] x3], (float_rank b) as [[y1 y2] y3];
    simpl in *; lia.
Qed.

(** Negative transitivity: "not below" composes through a present
    middle value. *)
Lemma asc_trans (a b c : float64) :
  isnan a = false -> isnan b = false -> isnan c = false ->
  asc a b -> asc b c -> asc a c.
Proof.
  unfold asc. intros Ha Hb Hc H1 H2.
  destruct (flt c a) eqn:E; [ | reflexivity].
  apply (flt_spec c a Hc Ha) in E.
  assert (N1 : ~ lexlt (float_rank b) (float_rank a))
    by (intros X; apply (flt_spec b a Hb Ha) in X; congruence).
  assert (N2 : ~ lexlt (float_rank c) (float_rank b))
    by (intros X; apply (flt_spec c b Hc Hb) in X; congruence).
  destruct (float_rank a) as [[x1 x2] x3], (float_rank b) as [[y1 y2] y3],
    (float_rank c) as [[z1 z2] z3]; simpl in *; lia.
Qed.

Lemma flt_asc_trans (a b c : float64) :
  isnan a = false -> isnan b = false -> isnan c = false ->
  flt a b = true -> asc b c -> flt a c = true.
Proof.
  unfold asc. intros Ha Hb Hc H1 H2.
  apply (flt_spec a c Ha Hc). apply (flt_spec a b Ha Hb) in H1.
  assert (N : ~ lexlt (float_rank c) (float_rank b))
    by (intros X; apply (flt_spec c b Hc Hb) in X; congruence).
  destruct (float_rank a) as [[x1 x2] x3], (float_rank b) as [[y1 y2] y3],
    (float_rank c) as [[z1 z2] z3]; simpl in *; lia.
Qed.

Lemma asc_total (a b : float64) : asc a b \/ asc b a.
Proof.
  unfold asc. destruct (flt b a) eqn:E; [ | now left].
  right. now apply flt_asym.
Qed.

End FloatOrder.


(** ** Positional selection *)

Lemma mapM_length {A B : Type} (f : A -> Exc B) (l : list A) (l' : list B) :
  mapM f l = OK l' -> length l' = length l.
Proof.
  revert l'. induction l as [ | x l IH]; simpl; intros l' H.
  - now inversion H.
  - destruct (f x) as [y | e]; simpl in H; [ | discriminate].
    destruct (mapM f l) as [ys | e]; simpl in H; [ | discriminate].
    inversion H; subst. simpl. now rewrite (IH ys).
Qed.

Lemma take_picks {A : Type} (idx : list nat) (l : list A) :
  in_range l idx -> take idx l = OK (picks idx l).
Proof.
  unfold take, in_range. induction 1 as [ | i idx Hi _ IH]; simpl.
  - reflexivity.
  - unfold item at 1. apply nth_error_Some in Hi.
    destruct (nth_error l i) as [x | ]; [ | congruence].
    simpl. now rewrite IH.
Qed.

Lemma take_inv {A : Type} (idx : list nat) (l l' : list A) :
  take idx l = OK l' -> in_range l idx /\ l' = picks idx l.
Proof.
  unfold take, in_range. revert l'.
  induction idx as [ | i idx IH]; simpl; intros l' H.
  - inversion H. split; [constructor | reflexivity].
  - unfold item at 1 in H.
    destruct (nth_error l i) as [x | ] eqn:E; simpl in H; [ | discriminate].
    destruct (mapM (item l) idx) as [xs | e]; simpl in H; [ | discriminate].
    inversion H; subst. destruct (IH xs eq_refl) as [R ->].
    split; [ | reflexivity].
    constructor; [ | exact R]. apply nth_error_Some. congruence.
Qed.

Lemma picks_app {A : Type} (i1 i2 : list nat) (l : list A) :
  picks (i1 ++ i2) l = picks i1 l ++ picks i2 l.
Proof. unfold picks. apply flat_map_app. Qed.

Lemma picks_cons_in {A : Type} (i : nat) (idx : list nat) (l : list A) (x : A) :
  nth_error l i = Some x -> picks (i :: idx) l = x :: picks idx l.
Proof. intros H. unfold picks. simpl. now rewrite H. Qed.

Lemma picks_cons {A : Type} (i : nat) (idx : list nat) (l : list A) :
  picks (i :: idx) l = picks [i] l ++ picks idx l.
Proof. apply (picks_app [i] idx l). Qed.

Lemma picks_one {A : Type} (i : nat) (l : list A) :
  picks [i] l = match nth_error l i with
                | Some x => [x]
                | None => []
                end.
Proof. unfold picks. simpl. apply app_nil_r. Qed.

Lemma picks_rev {A : Type} (idx : list nat) (l : list A) :
  picks (rev idx) l = rev (picks idx l).
Proof.
  induction idx as [ | i idx IH]; [reflexivity | ].
  change (rev (i :: idx)) with (rev idx ++ [i]).
  rewrite picks_app, IH, (picks_cons i idx l).
  rewrite rev_app_distr. f_equal.
  rewrite picks_one. now destruct (nth_error l i).
Qed.

Lemma picks_length {A : Type} (idx : list nat) (l : list A) :
  in_range l idx -> length (picks idx l) = length idx.
Proof.
  intros H. apply take_picks in H. now apply mapM_length in H.
Qed.

Lemma picks_incl {A : Type} (idx : list nat) (l : list A) :
  incl (picks idx l) l.
Proof.
  intros x H. unfold picks in H. apply in_flat_map in H.
  destruct H as (i & _ & H).
  destruct (nth_error l i) as [y | ] eqn:E; [ | contradiction].
  destruct H as [-> | []]. now apply nth_error_In with i.
Qed.

Lemma picks_nil {A : Type} (idx : list nat) : picks idx (@nil A) = [].
Proof.
  destruct (picks idx (@nil A)) as [ | x l] eqn:E; [reflexivity | ].
  destruct (@picks_incl A idx [] x). rewrite E. now left.
Qed.

Lemma picks_map {A B : Type} (f : A -> B) (idx : list nat) (l : list A) :
  picks idx (map f l) = map f (picks idx l).
Proof.
  induction idx as [ | i idx IH]; [reflexivity | ].
  rewrite (picks_cons i idx (map f l)), (picks_cons i idx l).
  rewrite map_app, IH. f_equal.
  rewrite !picks_one, nth_error_map.
  now destruct (nth_error l i).
Qed.

Lemma nth_error_picks {A : Type} (idx : list nat) (l : list A) (k : nat) :
  in_range l idx ->
  nth_error (picks idx l) k =
  match nth_error idx k with
  | Some j => nth_error l j
  | None => None
  end.
Proof.
  intros H. revert k. induction H as [ | i idx Hi _ IH]; intros k.
  - now destruct k.
  - apply nth_error_Some in Hi.
    destruct (nth_error l i) as [x | ] eqn:E; [ | congruence].
    rewrite (@picks_cons_in _ i idx l x E).
    destruct k; simpl; [now rewrite E | apply IH].
Qed.

Lemma picks_picks {A : Type} (i1 i2 : list nat) (l : list A) :
  in_range l i1 -> picks i2 (picks i1 l) = picks (picks i2 i1) l.
Proof.
  intros H. induction i2 as [ | k i2 IH]; [reflexivity | ].
  rewrite (picks_cons k i2 (picks i1 l)), (picks_cons k i2 i1).
  rewrite picks_app, IH. f_equal.
  rewrite (picks_one k (picks i1 l)), (picks_one k i1).
  rewrite (nth_error_picks k H).
  destruct (nth_error i1 k) as [j | ]; [ | reflexivity].
  now rewrite picks_one.
Qed.

Lemma picks_seq (idx : list nat) (n : nat) :
  Forall (fun i => i < n) idx -> picks idx (seq 0 n) = idx.
Proof.
  induction 1 as [ | i idx Hi _ IH]; [reflexivity | ].
  rewrite (@picks_cons_in _ i idx (seq 0 n) i), IH; [reflexivity | ].
  rewrite nth_error_seq.
  destruct (Nat.ltb_spec i n); [reflexivity | lia].
Qed.

Lemma picks_all_from {A : Type} (l pre : list A) :
  picks (seq (length pre) (length l)) (pre ++ l) = l.
Proof.
  revert pre. induction l as [ | x l IH]; intros pre; [reflexivity | ].
  simpl length. simpl seq.
  rewrite (@picks_cons_in _ _ _ (pre ++ x :: l) x).
  - f_equal. specialize (IH (pre ++ [x])).
    rewrite <- app_assoc, length_app, Nat.add_comm in IH. exact IH.
  - rewrite nth_error_app2, Nat.sub_diag by lia. reflexivity.
Qed.

Lemma picks_all {A : Type} (l : list A) : picks (seq 0 (length l)) l = l.
Proof. apply (picks_all_from l []). Qed.

Lemma picks_perm {A : Type} (idx : list nat) (l : list A) :
  Permutation idx (seq 0 (length l)) -> Permutation (picks idx l) l.
Proof.
  intros H. rewrite <- (picks_all l) at 2.
  unfold picks. now apply Permutation_flat_map.
Qed.

Lemma perm_in_range {A : Type} (idx : list nat) (l : list A) :
  Permutation idx (seq 0 (length l)) -> in_range l idx.
Proof.
  intros H. unfold in_range. apply Forall_forall. intros i Hi.
  apply (Permutation_in _ H) in Hi. apply in_seq in Hi. lia.
Qed.

Lemma picks_nth {A : Type} (d : A) (idx : list nat) (l : list A) :
  in_range l idx -> picks idx l = map (fun i => nth i l d) idx.
Proof.
  induction 1 as [ | i idx Hi _ IH]; [reflexivity | ].
  rewrite (@picks_cons_in _ i idx l (nth i l d)), IH; [reflexivity | ].
  now apply nth_error_nth'.
Qed.

Lemma nth_error_combine {A B : Type} (i : nat) (l : list A) (l' : list B)
      (x : A) (y : B) :
  nth_error l i = Some x -> nth_error l' i = Some y ->
  nth_error (combine l l') i = Some (x, y).
Proof.
  revert l l'. induction i; intros [ | a l] [ | b l']; simpl;
    try discriminate; intros.
  - congruence.
  - now apply IHi.
Qed.

Lemma picks_combine {A B : Type} (idx : list nat) (l : list A) (l' : list B) :
  length l = length l' ->
  picks idx (combine l l') = combine (picks idx l) (picks idx l').
Proof.
  intros E. induction idx as [ | i idx IH]; [reflexivity | ].
  rewrite (picks_cons i idx (combine l l')), (picks_cons i idx l),
    (picks_cons i idx l'), IH, !picks_one.
  destruct (nth_error l i) as [x | ] eqn:E1, (nth_error l' i) as [y | ] eqn:E2.
  - now rewrite (nth_error_combine i l l' E1 E2).
  - apply nth_error_None in E2.
    assert (X : nth_error l i <> None) by congruence.
    apply nth_error_Some in X. lia.
  - apply nth_error_None in E1.
    assert (X : nth_error l' i <> None) by congruence.
    apply nth_error_Some in X. lia.
  - assert (H : nth_error (combine l l') i = None).
    { apply nth_error_None. rewrite length_combine.
      apply nth_error_None in E1. lia. }
    now rewrite H.
Qed.

(** ** Masks *)

Lemma nonzero_from_bounds (k : nat) (mask : list bool) :
  Forall (fun i => k <= i < k + length mask) (nonzero_from k mask).
Proof.
  revert k. induction mask as [ | b mask IH]; intros k; simpl; [constructor | ].
  assert (H : Forall (fun i => k <= i < k + S (length mask))
                     (nonzero_from (S k) mask)).
  { eapply Forall_impl; [ | apply IH]. simpl. intros; lia. }
  destruct b; [constructor; [lia | exact H] | exact H].
Qed.

Lemma nonzero_in_range {A : Type} (mask : list bool) (l : list A) :
  length mask = length l -> in_range l (nonzero mask).
Proof.
  intros E. unfold in_range, nonzero.
  eapply Forall_impl; [ | apply nonzero_from_bounds].
  simpl. intros; lia.
Qed.

Lemma picks_nonzero_from {A : Type} (mask : list bool) (l pre : list A) :
  length mask = length l ->
  picks (nonzero_from (length pre) mask) (pre ++ l) = compress mask l.
Proof.
  revert l pre. induction mask as [ | b mask IH]; intros [ | x l] pre E;
    try discriminate; [reflexivity | ].
  simpl in E. injection E as E.
  assert (IH' := IH l (pre ++ [x]) E).
  rewrite <- app_assoc, length_app, Nat.add_comm in IH'. simpl in IH'.
  simpl. destruct b; [ | exact IH'].
  rewrite (@picks_cons_in _ _ _ (pre ++ x :: l) x), IH'; [reflexivity | ].
  rewrite nth_error_app2, Nat.sub_diag by lia. reflexivity.
Qed.

Lemma picks_nonzero {A : Type} (mask : list bool) (l : list A) :
  length mask = length l -> picks (nonzero mask) l = compress mask l.
Proof. intros E. apply (picks_nonzero_from mask l [] E). Qed.

Lemma compress_seq (mask : list bool) :
  compress mask (seq 0 (length mask)) = nonzero mask.
Proof.
  rewrite <- picks_nonzero by now rewrite length_seq.
  apply picks_seq. eapply Forall_impl; [ | apply nonzero_from_bounds].
  simpl. intros; lia.
Qed.

Lemma compress_filter {A : Type} (p : A -> bool) (l : list A) :
  compress (map p l) l = filter p l.
Proof.
  induction l as [ | x l IH]; [reflexivity | ].
  simpl. now rewrite IH.
Qed.

Lemma compress_length {A : Type} (mask : list bool) (l : list A) :
  length mask = length l -> length (compress mask l) = length (nonzero mask).
Proof.
  intros E. rewrite <- picks_nonzero by exact E.
  apply picks_length. now apply nonzero_in_range.
Qed.

Lemma compress_all_false {A : Type} (mask : list bool) (l : list A) :
  Forall (fun b => b = false) mask -> compress mask l = [].
Proof.
  intros H. revert l. induction H as [ | b mask -> _ IH]; intros [ | x l];
    try reflexivity. simpl. apply IH.
Qed.

(** ** Sorted lists *)

Lemma StronglySorted_map {A B : Type} (R : B -> B -> Prop) (f : A -> B)
      (l : list A) :
  StronglySorted (fun x y => R (f x) (f y)) l -> StronglySorted R (map f l).
Proof.
  induction 1 as [ | x l _ IH H]; simpl; constructor; [exact IH | ].
  rewrite Forall_map. exact H.
Qed.

Lemma StronglySorted_unmap {A B : Type} (R : B -> B -> Prop) (f : A -> B)
      (l : list A) :
  StronglySorted R (map f l) -> StronglySorted (fun x y => R (f x) (f y)) l.
Proof.
  induction l as [ | x l IH]; simpl; intros H; [constructor | ].
  inversion H; subst. constructor; [now apply IH | ].
  now rewrite <- Forall_map.
Qed.

Lemma StronglySorted_weaken {A : Type} (R R' : A -> A -> Prop) (l : list A) :
  (forall x y, In x l -> In y l -> R x y -> R' x y) ->
  StronglySorted R l -> StronglySorted R' l.
Proof.
  intros W H. induction H as [ | x l _ IH F]; constructor.
  - apply IH. intros; apply W; simpl; auto.
  - rewrite Forall_forall in *. intros y Hy.
    apply W; simpl; auto.
Qed.

Lemma StronglySorted_both {A : Type} (R R' : A -> A -> Prop) (l : list A) :
  StronglySorted R l -> StronglySorted R' l ->
  StronglySorted (fun x y => R x y /\ R' x y) l.
Proof.
  induction 1 as [ | x l _ IH F]; intros H'; constructor; inversion H'; subst.
  - now apply IH.
  - rewrite Forall_forall in *. intros y Hy. split; auto.
Qed.

Lemma StronglySorted_app {A : Type} (R : A -> A -> Prop) (l1 l2 : list A) :
  StronglySorted R l1 -> StronglySorted R l2 ->
  (forall x y, In x l1 -> In y l2 -> R x y) ->
  StronglySorted R (l1 ++ l2).
Proof.
  induction 1 as [ | x l1 _ IH F]; intros H2 X; simpl; [exact H2 | ].
  constructor.
  - apply IH; [exact H2 | ]. intros; apply X; simpl; auto.
  - apply Forall_app. split; [exact F | ].
    apply Forall_forall. intros y Hy. apply X; simpl; auto.
Qed.

Lemma StronglySorted_rev {A : Type} (R : A -> A -> Prop) (l : list A) :
  StronglySorted R l -> StronglySorted (fun x y => R y x) (rev l).
Proof.
  induction 1 as [ | x l _ IH F]; simpl; [constructor | ].
  apply StronglySorted_app; [exact IH | repeat constructor | ].
  intros a b Ha [<- | []]. apply in_rev in Ha.
  rewrite Forall_forall in F. now apply F.
Qed.

Lemma firstn_In {A : Type} (n : nat) (l : list A) (x : A) :
  In x (firstn n l) -> In x l.
Proof.
  revert l. induction n as [ | n IH]; intros [ | y l]; simpl; try contradiction.
  intros [-> | H]; [now left | right; now apply IH].
Qed.

Lemma StronglySorted_firstn {A : Type} (R : A -> A -> Prop) (n : nat)
      (l : list A) :
  StronglySorted R l -> StronglySorted R (firstn n l).
Proof.
  intros H. revert n. induction H as [ | x l _ IH F]; intros [ | n]; simpl;
    try constructor; [apply IH | ].
  rewrite Forall_forall in *. intros y Hy. apply F.
  now apply firstn_In with n.
Qed.

Lemma StronglySorted_nth {A : Type} (R : A -> A -> Prop) (d : A) (l : list A) :
  StronglySorted R l ->
  forall i j, i < j < length l -> R (nth i l d) (nth j l d).
Proof.
  induction 1 as [ | x l _ IH F]; intros i j Hij; simpl in Hij; [lia | ].
  destruct j as [ | j]; [lia | ]. destruct i as [ | i]; simpl.
  - rewrite Forall_forall in F. apply F, nth_In. lia.
  - apply IH. lia.
Qed.

Lemma StronglySorted_compress {A : Type} (R : A -> A -> Prop)
      (mask : list bool) (l : list A) :
  StronglySorted R l -> StronglySorted R (compress mask l).
Proof.
  intros H. revert mask.
  induction H as [ | x l _ IH F]; intros [ | b mask]; simpl;
    try constructor.
  destruct b; [ | apply IH]. constructor; [apply IH | ].
  rewrite Forall_forall in *. intros y Hy. apply F.
  clear - Hy. revert mask Hy. induction l as [ | z l IHl]; intros [ | b mask];
    simpl; try contradiction.
  destruct b; simpl; intros H; [destruct H as [-> | H] | ]; eauto.
Qed.

Lemma nonzero_from_partition (k : nat) (mask : list bool) :
  Permutation (nonzero_from k (map negb mask) ++ nonzero_from k mask)
              (seq k (length mask)).
Proof.
  revert k. induction mask as [ | b mask IH]; intros k; simpl; [constructor | ].
  destruct b; simpl.
  - rewrite <- Permutation_middle. constructor. apply IH.
  - constructor. apply IH.
Qed.

(** ** Frames *)

Lemma mapM_map {A B : Type} (f : A -> Exc B) (g : A -> B) (l : list A) :
  Forall (fun x => f x = OK (g x)) l -> mapM f l = OK (map g l).
Proof.
  induction 1 as [ | x l Hx _ IH]; simpl; [reflexivity | ].
  now rewrite Hx, IH.
Qed.

Lemma series_take_picks (idx : list nat) (s : Series) :
  Forall (fun i => i < series_len s) idx ->
  series_take idx s = OK (series_map (fun A => @picks A idx) s).
Proof.
  intros H. destruct s as [l | l]; simpl in *;
    now rewrite (take_picks (l:=l) H).
Qed.

Lemma frame_take_picks (idx : list nat) (d : DataFrame) :
  wf d -> Forall (fun i => i < nrows d) idx ->
  frame_take idx d = OK (frame_map (fun A => @picks A idx) d).
Proof.
  intros W H. unfold frame_take, frame_map.
  rewrite (take_picks (l:=index d) H). simpl.
  rewrite (mapM_map _ (fun c => (fst c,
                                 series_map (fun A => @picks A idx) (snd c)))).
  - reflexivity.
  - eapply Forall_impl; [ | exact W]. intros [n s] E. simpl in *.
    rewrite series_take_picks; [reflexivity | now rewrite E].
Qed.

Lemma lookup_map (f : Series -> Series) (c : string)
      (cols : list (string * Series)) :
  lookup c (map (fun x => (fst x, f (snd x))) cols)
  = option_map f (lookup c cols).
Proof.
  induction cols as [ | [n s] cols IH]; [reflexivity | ].
  simpl. destruct (String.eqb c n); [reflexivity | exact IH].
Qed.

Lemma getitem_frame_map (f : forall A : Type, list A -> list A)
      (d : DataFrame) (c : string) (s : Series) :
  getitem d c = OK s -> getitem (frame_map f d) c = OK (series_map f s).
Proof.
  unfold getitem, frame_map. simpl. rewrite lookup_map.
  destruct (lookup c (columns d)); simpl; congruence.
Qed.

Lemma getitem_len (d : DataFrame) (c : string) (s : Series) :
  wf d -> getitem d c = OK s -> series_len s = nrows d.
Proof.
  unfold wf, getitem. intros W.
  induction W as [ | [n s'] cols E _ IH]; simpl; [discriminate | ].
  destruct (String.eqb c n); [ | exact IH].
  intros H. now inversion H; subst.
Qed.

Lemma frame_map_compose (f g : forall A : Type, list A -> list A)
      (d : DataFrame) :
  frame_map f (frame_map g d) = frame_map (fun A l => f A (g A l)) d.
Proof.
  unfold frame_map. simpl. f_equal. rewrite map_map.
  apply map_ext. intros [n [l | l]]; reflexivity.
Qed.

Lemma frame_map_ext (f g : forall A : Type, list A -> list A) (d : DataFrame) :
  wf d ->
  (forall (A : Type) (l : list A), length l = nrows d -> f A l = g A l) ->
  frame_map f d = frame_map g d.
Proof.
  intros W E. unfold frame_map. f_equal; [now apply E | ].
  apply map_ext_in. intros [n s] Hin.
  unfold wf in W. rewrite Forall_forall in W. specialize (W _ Hin).
  simpl in *. f_equal. destruct s as [l | l]; simpl in *; f_equal; now apply E.
Qed.

Lemma wf_frame_map (f : forall A : Type, list A -> list A) (d : DataFrame) :
  uniform f -> wf d -> wf (frame_map f d).
Proof.
  intros U W. unfold wf, frame_map, nrows in *. simpl.
  rewrite Forall_map. eapply Forall_impl; [ | exact W].
  intros [n [l | l]] E; simpl in *; now apply U.
Qed.

Lemma picks_uniform (idx : list nat) : uniform (fun A => @picks A idx).
Proof.
  intros A B l l' E. induction idx as [ | i idx IH]; [reflexivity | ].
  rewrite (picks_cons i idx l), (picks_cons i idx l'), !length_app, IH.
  f_equal. rewrite !picks_one.
  destruct (nth_error l i) eqn:E1, (nth_error l' i) eqn:E2; try reflexivity.
  - apply nth_error_None in E2.
    assert (X : nth_error l i <> None) by congruence.
    apply nth_error_Some in X. lia.
  - apply nth_error_None in E1.
    assert (X : nth_error l' i <> None) by congruence.
    apply nth_error_Some in X. lia.
Qed.

Lemma series_cells_map_len (s : Series) :
  length (series_cells s) = series_len s.
Proof. destruct s; simpl; [apply length_map | reflexivity]. Qed.

Lemma compress_map {A B : Type} (f : A -> B) (mask : list bool) (l : list A) :
  compress mask (map f l) = map f (compress mask l).
Proof.
  revert l. induction mask as [ | b mask IH]; intros [ | x l]; try reflexivity.
  simpl. rewrite IH. now destruct b.
Qed.

(** ** [nargsort] *)

Lemma present_mask_length (items : list float64) :
  length (present_mask items) = length items.
Proof. unfold present_mask. now rewrite !length_map. Qed.

Lemma non_nans_length {A : Type} (items : list float64) (l : list A) :
  length l = length items ->
  length (non_nans items l) = length (non_nans items items).
Proof.
  intros E. unfold non_nans.
  rewrite !length_rev, !compress_length; rewrite ?present_mask_length; auto.
Qed.

Lemma non_nans_present (items : list float64) :
  Forall present (non_nans items items).
Proof.
  unfold non_nans, present_mask. rewrite map_map, compress_filter.
  apply Forall_forall. intros x Hx. apply in_rev, filter_In in Hx.
  destruct Hx as [_ Hx]. unfold present. now destruct (isnan x).
Qed.

Lemma nans_missing (items : list float64) :
  Forall (fun x => isnan x = true) (compress (map isnan items) items).
Proof.
  rewrite compress_filter. apply Forall_forall. intros x Hx.
  now apply filter_In in Hx.
Qed.

Section Sorting.

Variable argsort : list float64 -> list nat.
Hypothesis argsort_ok : argsort_spec argsort.

Lemma argsort_in_range {A : Type} (items : list float64) (l : list A) :
  length l = length items ->
  in_range (non_nans items l) (argsort (non_nans items items)).
Proof.
  intros E. apply perm_in_range.
  rewrite (non_nans_length items l E). apply (argsort_perm argsort_ok).
Qed.

Lemma nargsort_eq (items : list float64) :
  nargsort argsort items = OK (indexer_of argsort items).
Proof.
  unfold nargsort, indexer_of.
  fold (present_mask items).
  fold (non_nans items items).
  fold (non_nans items (seq 0 (length items))).
  rewrite take_picks; [reflexivity | ].
  apply argsort_in_range. apply length_seq.
Qed.

Lemma non_nans_seq (items : list float64) :
  non_nans items (seq 0 (length items)) = rev (nonzero (present_mask items)).
Proof.
  unfold non_nans. f_equal.
  rewrite <- (present_mask_length items). apply compress_seq.
Qed.

Lemma indexer_perm (items : list float64) :
  Permutation (indexer_of argsort items) (seq 0 (length items)).
Proof.
  unfold indexer_of.
  rewrite <- Permutation_rev.
  rewrite picks_perm.
  2:{ rewrite (non_nans_length items (seq 0 (length items)));
      [apply (argsort_perm argsort_ok) | apply length_seq]. }
  rewrite non_nans_seq, <- Permutation_rev.
  rewrite <- (length_map isnan items).
  apply (nonzero_from_partition 0 (map isnan items)).
Qed.

Lemma indexer_in_range {A : Type} (items : list float64) (l : list A) :
  length l = length items -> in_range l (indexer_of argsort items).
Proof.
  intros E. apply perm_in_range. rewrite E. apply indexer_perm.
Qed.

(** Any column read through the indexer: its present part as
    [argsort] arranged it, reversed, then its missing part. *)
Lemma picks_indexer {A : Type} (items : list float64) (l : list A) :
  length l = length items ->
  picks (indexer_of argsort items) l
  = rev (picks (argsort (non_nans items items)) (non_nans items l))
    ++ compress (map isnan items) l.
Proof.
  intros E. unfold indexer_of.
  rewrite picks_app, picks_rev. f_equal.
  - f_equal. rewrite <- picks_picks.
    + f_equal. rewrite non_nans_seq, picks_rev. unfold non_nans. f_equal.
      apply picks_nonzero. now rewrite present_mask_length.
    + rewrite non_nans_seq. unfold in_range.
      apply Forall_forall. intros i Hi. apply in_rev in Hi.
      assert (R := @nonzero_in_range _ (present_mask items) l).
      rewrite present_mask_length in R. specialize (R (eq_sym E)).
      unfold in_range in R. rewrite Forall_forall in R. now apply R.
  - apply picks_nonzero. now rewrite length_map.
Qed.

Lemma sorted_present (items : list float64) :
  StronglySorted asc
    (picks (argsort (non_nans items items)) (non_nans items items)).
Proof.
  apply (argsort_sorted argsort_ok (l:=non_nans items items)).
  - apply non_nans_present.
  - apply take_picks. now apply argsort_in_range.
Qed.

(** The keys read through the indexer are in descending order,
    missing ones last. *)
Lemma nargsort_desc (items : list float64) :
  StronglySorted desc (picks (indexer_of argsort items) items).
Proof.
  rewrite picks_indexer by reflexivity.
  assert (P : Forall present (picks (argsort (non_nans items items))
                                    (non_nans items items))).
  { apply Forall_forall. intros x Hx. apply picks_incl in Hx.
    assert (Q := non_nans_present items). rewrite Forall_forall in Q. auto. }
  assert (N := nans_missing items).
  rewrite Forall_forall in P, N.
  apply StronglySorted_app.
  - apply StronglySorted_weaken
      with (R := fun x y => asc y x).
    + intros x y Hx Hy H. apply in_rev in Hx. apply in_rev in Hy.
      right. repeat split; [apply P, Hx | apply P, Hy | exact H].
    + apply StronglySorted_rev, sorted_present.
  - apply StronglySorted_weaken with (R := fun _ _ => True).
    + intros x y _ Hy _. left. now apply N.
    + clear. induction (compress (map isnan items) items); constructor;
        [assumption | now apply Forall_forall].
  - intros x y _ Hy. left. now apply N.
Qed.

End Sorting.

(** ** Slices *)

Lemma head_list_nonneg {A : Type} (n : Z) (l : list A) :
  (0 <= n)%Z -> head_list n l = firstn (Z.to_nat n) l.
Proof.
  intros H. unfold head_list, slice_stop.
  destruct (Z.ltb_spec n 0); [lia | ].
  destruct (Nat.le_ge_cases (Z.to_nat n) (length l)) as [L | L].
  - now rewrite Nat.min_l.
  - rewrite Nat.min_r by exact L. now rewrite !firstn_all2.
Qed.

Lemma head_list_length {A : Type} (n : Z) (l : list A) :
  (0 <= n)%Z -> length (head_list n l) = Nat.min (Z.to_nat n) (length l).
Proof. intros H. rewrite head_list_nonneg by exact H. apply length_firstn. Qed.

Lemma head_list_uniform (n : Z) : uniform (fun A => @head_list A n).
Proof.
  intros A B l l' E. unfold head_list. rewrite !length_firstn, E. reflexivity.
Qed.

Lemma head_list_all {A : Type} (n : Z) (l : list A) :
  (Z.of_nat (length l) <= n)%Z -> head_list n l = l.
Proof.
  intros H. rewrite head_list_nonneg by lia. apply firstn_all2. lia.
Qed.

Lemma compress_uniform (mask : list bool) : uniform (fun A => @compress A mask).
Proof.
  intros A B l. revert mask.
  induction l as [ | x l IH]; intros mask [ | y l'] E;
    try discriminate; destruct mask as [ | b mask]; try reflexivity.
  simpl in *. injection E as E. destruct b; simpl; auto.
Qed.

(** ** Lines 40-41 *)

Section Ranking.

Variable argsort : list float64 -> list nat.
Variable nargsort_object : list cell -> Exc (list nat).
Hypothesis argsort_ok : argsort_spec argsort.

Variable d : DataFrame.
Variable cont : Series.
Variable keys : list float64.
Variable continent : string.
Variable metric : Metric.
Hypothesis d_wf : wf d.
Hypothesis d_continent : getitem d "Continent" = OK cont.
Hypothesis d_metric : getitem d (metric_label metric) = OK (Float64 keys).

Lemma chosen_length : length (chosen cont continent) = nrows d.
Proof.
  unfold chosen, series_eq.
  rewrite length_map, series_cells_map_len.
  apply (@getitem_len d _ _ d_wf d_continent).
Qed.

Lemma keys_length : length keys = nrows d.
Proof. apply (@getitem_len d _ _ d_wf d_metric). Qed.

Lemma filter_continent_eq :
  filter_continent d continent = OK (frame_map (masked cont continent) d).
Proof.
  unfold filter_continent. rewrite d_continent. simpl.
  unfold getitem_bool. fold (chosen cont continent).
  rewrite frame_take_picks.
  - f_equal. apply frame_map_ext; [exact d_wf | ].
    intros A l E. apply picks_nonzero. now rewrite chosen_length.
  - exact d_wf.
  - eapply Forall_impl; [ | apply nonzero_from_bounds].
    simpl. rewrite chosen_length. intros; lia.
Qed.

Lemma masked_uniform : uniform (masked cont continent).
Proof. apply compress_uniform. Qed.

Lemma filtered_wf : wf (frame_map (masked cont continent) d).
Proof. apply wf_frame_map; [apply masked_uniform | exact d_wf]. Qed.

Lemma filtered_nrows {A : Type} (l : list A) :
  length l = nrows d ->
  length (masked cont continent l) = length (chosen_keys cont keys continent).
Proof.
  intros E. apply masked_uniform. now rewrite E, keys_length.
Qed.

Lemma sort_filtered_eq :
  sort_values argsort nargsort_object (frame_map (masked cont continent) d)
              (metric_label metric)
  = OK (frame_map (sorted argsort cont keys continent) d).
Proof.
  unfold sort_values.
  rewrite (@getitem_frame_map (masked cont continent) d _ _ d_metric).
  simpl. rewrite (nargsort_eq argsort_ok). simpl.
  rewrite frame_take_picks.
  - now rewrite frame_map_compose.
  - exact filtered_wf.
  - unfold nrows. simpl. apply (indexer_in_range argsort_ok).
    now apply filtered_nrows.
Qed.

(** Lines 40-41 in one step: every column of the result is the
    column of [d], masked, reordered and cut. *)
Lemma rankByMetric_eq (top_n : Z) :
  rankByMetric argsort nargsort_object d continent metric top_n
  = OK (frame_map (ranked argsort cont keys continent top_n) d).
Proof.
  unfold rankByMetric. rewrite filter_continent_eq. simpl.
  rewrite sort_filtered_eq. simpl. unfold head.
  now rewrite frame_map_compose.
Qed.

Lemma ranked_uniform (top_n : Z) :
  uniform (ranked argsort cont keys continent top_n).
Proof.
  intros A B l l' E. apply head_list_uniform, picks_uniform.
  now apply masked_uniform.
Qed.

Lemma sorted_length {A : Type} (l : list A) :
  length l = nrows d ->
  length (sorted argsort cont keys continent l)
  = length (chosen_keys cont keys continent).
Proof.
  intros E. unfold sorted. rewrite picks_length.
  - unfold order. rewrite (Permutation_length (indexer_perm argsort_ok _)).
    apply length_seq.
  - apply (indexer_in_range argsort_ok). now apply filtered_nrows.
Qed.

End Ranking.

(** ** The insertion sort meets numpy's promise *)

Module Insertion.

Section Insert.

Variable before : float64 -> float64 -> bool.
Variable l : list float64.
Hypothesis l_present : Forall present l.

(** [before] decides the order one way or the other. *)
Hypothesis before_true : forall a b, before a b = true -> asc a b.
Hypothesis before_false : forall a b, before a b = false -> asc b a.

Lemma key_present (i : nat) : i < length l -> present (key l i).
Proof.
  intros H. unfold key.
  apply (proj1 (Forall_forall present l) l_present), nth_In, H.
Qed.

Lemma insert_perm (i : nat) (idx : list nat) :
  Permutation (insert_idx before (key l) i idx) (i :: idx).
Proof.
  induction idx as [ | j idx IH]; simpl; [reflexivity | ].
  destruct (before (key l i) (key l j)); [reflexivity | ].
  rewrite IH. apply perm_swap.
Qed.

Lemma insert_sorted (i : nat) (idx : list nat) :
  i < length l -> Forall (fun j => j < length l) idx ->
  StronglySorted (by_key l) idx ->
  StronglySorted (by_key l) (insert_idx before (key l) i idx).
Proof.
  intros Hi R S. induction S as [ | j idx S IH F]; simpl.
  - repeat constructor.
  - inversion R as [ | ? ? Hj R']; subst.
    destruct (before (key l i) (key l j)) eqn:E.
    + constructor; [now constructor | ].
      apply before_true in E. constructor; [exact E | ].
      rewrite Forall_forall in F, R' |- *. intros x Hx.
      apply FloatOrder.asc_trans with (key l j);
        [apply key_present, Hi | apply key_present, Hj
        | apply key_present, R', Hx | exact E | now apply F].
    + constructor; [now apply IH | ].
      apply before_false in E.
      rewrite Forall_forall in F |- *. intros x Hx.
      apply (Permutation_in _ (insert_perm i idx)) in Hx.
      destruct Hx as [<- | Hx]; [exact E | now apply F].
Qed.

Lemma fold_perm (s acc : list nat) :
  Permutation (fold_left (step before l) s acc) (acc ++ s).
Proof.
  revert acc. induction s as [ | i s IH]; intros acc; simpl.
  - now rewrite app_nil_r.
  - rewrite IH. unfold step. rewrite insert_perm.
    now rewrite <- Permutation_middle.
Qed.

Lemma fold_sorted (s acc : list nat) :
  Forall (fun j => j < length l) s -> Forall (fun j => j < length l) acc ->
  StronglySorted (by_key l) acc ->
  StronglySorted (by_key l) (fold_left (step before l) s acc).
Proof.
  revert acc. induction s as [ | i s IH]; intros acc Rs Ra S; simpl;
    [exact S | ].
  inversion Rs; subst. apply IH; [assumption | | now apply insert_sorted].
  rewrite Forall_forall in Ra |- *. intros x Hx.
  apply (Permutation_in _ (insert_perm i acc)) in Hx.
  destruct Hx as [<- | Hx]; auto.
Qed.

Lemma seq_in_range : Forall (fun j => j < length l) (seq 0 (length l)).
Proof. apply Forall_forall. intros x Hx. apply in_seq in Hx. lia. Qed.

Lemma argsort_by_key : StronglySorted (by_key l) (insertion_argsort before l).
Proof.
  apply fold_sorted; [apply seq_in_range | constructor | constructor].
Qed.

End Insert.

Lemma insertion_perm (before : float64 -> float64 -> bool) (l : list float64) :
  Permutation (insertion_argsort before l) (seq 0 (length l)).
Proof. unfold insertion_argsort. apply (fold_perm before l _ []). Qed.

Lemma insertion_spec (before : float64 -> float64 -> bool) :
  (forall a b, before a b = true -> asc a b) ->
  (forall a b, before a b = false -> asc b a) ->
  argsort_spec (insertion_argsort before).
Proof.
  intros T F. constructor.
  - apply insertion_perm.
  - intros l l' P H. apply take_inv in H. destruct H as [R ->].
    rewrite (@picks_nth float64 S754_nan _ _ R).
    apply StronglySorted_map. exact (@argsort_by_key before l P T F).
Qed.

Lemma stable_argsort_spec : argsort_spec stable_argsort.
Proof.
  apply insertion_spec; unfold asc.
  - intros a b. apply FloatOrder.flt_asym.
  - auto.
Qed.

Section Stable.

Variable l : list float64.
Hypothesis l_present : Forall present l.

Lemma insert_stable (i : nat) (idx : list nat) :
  i < length l -> Forall (fun j => j < i) idx ->
  StronglySorted (by_key_then_position l) idx ->
  StronglySorted (by_key_then_position l) (insert_idx flt (key l) i idx).
Proof.
  intros Hi R S. induction S as [ | j idx S IH F]; simpl.
  - repeat constructor.
  - inversion R as [ | ? ? Hj R']; subst.
    assert (Pi := key_present l_present Hi).
    assert (Pj : present (key l j)) by (apply (key_present l_present); lia).
    rewrite Forall_forall in F, R'.
    destruct (flt (key l i) (key l j)) eqn:E.
    + constructor; [now constructor; [ | apply Forall_forall] | ].
      assert (B : forall x, In x (j :: idx) ->
                            flt (key l i) (key l x) = true).
      { intros x [<- | Hx]; [exact E | ].
        apply FloatOrder.flt_asc_trans with (key l j); auto.
        - apply (key_present l_present). specialize (R' x Hx). lia.
        - apply F, Hx. }
      apply Forall_forall. intros x Hx. specialize (B x Hx). split.
      * now apply FloatOrder.flt_asym.
      * congruence.
    + constructor; [now apply IH, Forall_forall | ].
      apply Forall_forall. intros x Hx.
      apply (Permutation_in _ (insert_perm flt l i idx)) in Hx.
      destruct Hx as [<- | Hx]; [ | now apply F].
      split; [exact E | intros _; exact Hj].
Qed.

Lemma fold_stable (n k : nat) (acc : list nat) :
  k + n <= length l -> Forall (fun j => j < k) acc ->
  StronglySorted (by_key_then_position l) acc ->
  StronglySorted (by_key_then_position l)
                 (fold_left (step flt l) (seq k n) acc).
Proof.
  revert k acc. induction n as [ | n IH]; intros k acc B R S; simpl;
    [exact S | ].
  apply IH; [lia | | apply insert_stable; auto; lia].
  rewrite Forall_forall in R |- *. intros x Hx.
  apply (Permutation_in _ (insert_perm flt l k acc)) in Hx.
  destruct Hx as [<- | Hx]; [lia | ]. specialize (R x Hx). lia.
Qed.

Lemma stable_by_key_then_position :
  StronglySorted (by_key_then_position l) (stable_argsort l).
Proof.
  apply fold_stable; [simpl; lia | constructor | constructor].
Qed.

End Stable.

Lemma nth_enum (l : list float64) (i : nat) :
  i < length l -> nth i (enum l) (0, S754_nan) = (i, key l i).
Proof.
  intros H. unfold enum, key.
  rewrite combine_nth by apply length_seq.
  now rewrite seq_nth.
Qed.

Lemma stable_argsort_stable : argsort_stable stable_argsort.
Proof.
  intros l ps P H. apply take_inv in H. destruct H as [R ->].
  rewrite (@picks_nth (nat * float64) (0, S754_nan) _ _ R).
  apply StronglySorted_map.
  assert (R' : in_range l (stable_argsort l)).
  { unfold in_range, enum in *. now rewrite length_combine, length_seq,
      Nat.min_id in R. }
  eapply StronglySorted_weaken; [ | apply (stable_by_key_then_position P)].
  unfold in_range in R'. rewrite Forall_forall in R'.
  intros x y Hx Hy [_ S]. rewrite !nth_enum by auto. exact S.
Qed.

End Insertion.

(** ** What the ranked frame holds *)

Lemma head_list_In {A : Type} (n : Z) (l : list A) (x : A) :
  In x (head_list n l) -> In x l.
Proof. unfold head_list. apply firstn_In. Qed.

Lemma head_list_map {A B : Type} (f : A -> B) (n : Z) (l : list A) :
  head_list n (map f l) = map f (head_list n l).
Proof. unfold head_list. now rewrite length_map, firstn_map. Qed.

Section Ranked.

Variable argsort : list float64 -> list nat.
Variable cont : Series.
Variable keys : list float64.
Variable continent : string.
Variable top_n : Z.

Lemma ranked_map {A B : Type} (f : A -> B) (l : list A) :
  ranked argsort cont keys continent top_n (map f l)
  = map f (ranked argsort cont keys continent top_n l).
Proof.
  unfold ranked, sorted, masked.
  now rewrite compress_map, picks_map, head_list_map.
Qed.

Lemma ranked_cells (s : Series) :
  series_cells (series_map (ranked argsort cont keys continent top_n) s)
  = ranked argsort cont keys continent top_n (series_cells s).
Proof. destruct s; simpl; [now rewrite ranked_map | reflexivity]. Qed.

Lemma ranked_continent :
  Forall (fun c => c = CStr continent)
         (series_cells
            (series_map (ranked argsort cont keys continent top_n) cont)).
Proof.
  rewrite ranked_cells. apply Forall_forall. intros c Hc.
  unfold ranked, sorted, masked in Hc. apply head_list_In, picks_incl in Hc.
  unfold chosen, series_eq in Hc. rewrite compress_filter in Hc.
  apply filter_In in Hc. destruct Hc as [_ Hc].
  destruct c as [s | f]; simpl in Hc; [ | discriminate].
  apply String.eqb_eq in Hc. now subst.
Qed.

Lemma matching_count {A : Type} (l : list A) :
  length l = series_len cont ->
  length (compress (chosen cont continent) l)
  = length (filter (cell_eq_str continent) (series_cells cont)).
Proof.
  intros E. rewrite <- compress_filter. apply compress_uniform.
  now rewrite series_cells_map_len.
Qed.

End Ranked.

(** ** Ties under a stable [argsort] *)

Lemma map_fst_combine {A B : Type} (l : list A) (l' : list B) :
  length l = length l' -> map fst (combine l l') = l.
Proof.
  revert l'. induction l as [ | x l IH]; intros [ | y l'] E; try discriminate;
    [reflexivity | ].
  simpl. f_equal. apply IH. now injection E.
Qed.

Lemma map_snd_combine {A B : Type} (l : list A) (l' : list B) :
  length l = length l' -> map snd (combine l l') = l'.
Proof.
  revert l'. induction l as [ | x l IH]; intros [ | y l'] E; try discriminate;
    [reflexivity | ].
  simpl. f_equal. apply IH. now injection E.
Qed.

Lemma compress_combine {A B : Type} (mask : list bool) (l : list A)
      (l' : list B) :
  compress mask (combine l l') = combine (compress mask l) (compress mask l').
Proof.
  revert l l'. induction mask as [ | b mask IH]; intros [ | x l] [ | y l'];
    try reflexivity; simpl.
  - destruct b; [reflexivity | ]. symmetry. apply combine_nil.
  - destruct b; [simpl | ]; now rewrite IH.
Qed.

Lemma non_nans_map {A B : Type} (f : A -> B) (items : list float64)
      (l : list A) :
  map f (non_nans items l) = non_nans items (map f l).
Proof. unfold non_nans. now rewrite map_rev, compress_map. Qed.

Section Stability.

Variable argsort : list float64 -> list nat.
Hypothesis argsort_ok : argsort_spec argsort.
Hypothesis argsort_keeps_ties : argsort_stable argsort.

Variable items : list float64.
Variable labels : list nat.
Hypothesis labels_length : length labels = length items.
Hypothesis labels_increasing : StronglySorted lt labels.

Lemma pairs_length : length (pairs items labels) = length (nn items).
Proof.
  apply non_nans_length. rewrite length_combine, labels_length.
  apply Nat.min_id.
Qed.

Lemma snd_pair_at (i : nat) : snd (pair_at items labels i) = K items i.
Proof.
  unfold pair_at, K.
  rewrite <- (map_nth snd (pairs items labels) (0, S754_nan) i).
  unfold pairs, nn.
  now rewrite non_nans_map, map_snd_combine.
Qed.

Lemma fst_pair_at (i : nat) :
  fst (pair_at items labels i) = nth i (non_nans items labels) 0.
Proof.
  unfold pair_at.
  rewrite <- (map_nth fst (pairs items labels) (0, S754_nan) i). unfold pairs.
  now rewrite non_nans_map, map_fst_combine.
Qed.

Lemma labels_decreasing (i j : nat) :
  i < j < length (nn items) ->
  fst (pair_at items labels j) < fst (pair_at items labels i).
Proof.
  intros H. rewrite !fst_pair_at.
  apply (@StronglySorted_nth nat (fun x y => y < x)).
  - unfold non_nans. now apply StronglySorted_rev, StronglySorted_compress.
  - unfold nn in H. now rewrite (non_nans_length items labels).
Qed.

Lemma K_present (i : nat) : i < length (nn items) -> present (K items i).
Proof.
  intros H. unfold K.
  apply (proj1 (Forall_forall present (nn items)) (non_nans_present items)).
  now apply nth_In.
Qed.

Lemma argsort_lt_nn (i : nat) :
  In i (argsort (nn items)) -> i < length (nn items).
Proof.
  revert i. apply Forall_forall.
  apply (@argsort_in_range argsort argsort_ok float64 items items eq_refl).
Qed.

Lemma argsort_by_K :
  StronglySorted (fun i j => asc (K items i) (K items j)) (argsort (nn items)).
Proof.
  apply StronglySorted_unmap.
  assert (S := sorted_present argsort_ok items).
  now rewrite (@picks_nth float64 S754_nan) in S
    by now apply (argsort_in_range argsort_ok).
Qed.

Lemma argsort_by_position :
  StronglySorted (fun i j => flt (K items i) (K items j) = false -> i < j)
                 (argsort (nn items)).
Proof.
  assert (R : in_range (enum (nn items)) (argsort (nn items))).
  { unfold in_range, enum. rewrite length_combine, length_seq, Nat.min_id.
    apply Forall_forall. exact argsort_lt_nn. }
  assert (S := argsort_keeps_ties (non_nans_present items) (take_picks R)).
  rewrite (@picks_nth (nat * float64) (0, S754_nan) _ _ R) in S.
  apply StronglySorted_unmap in S.
  eapply StronglySorted_weaken; [ | exact S].
  intros x y Hx Hy. simpl.
  rewrite !Insertion.nth_enum by now apply argsort_lt_nn.
  auto.
Qed.

(** The present part, as [argsort] arranged it: ascending, so the
    reverse of the order wanted. *)
Lemma present_part_ties :
  StronglySorted (fun p q => tie_order q p)
                 (picks (argsort (nn items)) (pairs items labels)).
Proof.
  rewrite (@picks_nth (nat * float64) (0, S754_nan)).
  2:{ unfold in_range. rewrite pairs_length.
      apply Forall_forall. exact argsort_lt_nn. }
  apply StronglySorted_map. fold (pair_at items labels).
  eapply StronglySorted_weaken;
    [ | apply (StronglySorted_both argsort_by_K argsort_by_position)].
  intros i j Hi Hj [_ P]. simpl in P.
  apply argsort_lt_nn in Hi, Hj.
  change (tie_order (pair_at items labels j) (pair_at items labels i)).
  unfold tie_order. rewrite !snd_pair_at. intros T.
  assert (Pi := K_present Hi). assert (Pj := K_present Hj).
  unfold tie, present in *. rewrite Pi, Pj in T. simpl in T.
  apply andb_true_iff in T. destruct T as [_ T].
  apply negb_true_iff in T.
  apply labels_decreasing. split; [now apply P | exact Hj].
Qed.

Lemma missing_part_ties :
  StronglySorted tie_order (compress (map isnan items) (combine labels items)).
Proof.
  apply StronglySorted_compress.
  apply StronglySorted_weaken with (R := fun p q => fst p < fst q).
  - intros x y _ _ H _. exact H.
  - apply StronglySorted_unmap. now rewrite map_fst_combine.
Qed.

(** Labels and keys read through the indexer: tied keys in label
    order. *)
Lemma nargsort_ties :
  StronglySorted tie_order
                 (picks (indexer_of argsort items) (combine labels items)).
Proof.
  rewrite picks_indexer.
  2:{ rewrite length_combine, labels_length. apply Nat.min_id. }
  apply StronglySorted_app.
  - apply (StronglySorted_rev present_part_ties).
  - apply missing_part_ties.
  - intros x y Hx Hy T. exfalso.
    apply in_rev, picks_incl in Hx.
    apply (in_map snd) in Hx. unfold pairs in Hx.
    rewrite non_nans_map, map_snd_combine in Hx by exact labels_length.
    apply (proj1 (Forall_forall present _) (non_nans_present items)) in Hx.
    apply (in_map snd) in Hy.
    rewrite <- compress_map, map_snd_combine in Hy by exact labels_length.
    apply (proj1 (Forall_forall _ _) (nans_missing items)) in Hy.
    unfold tie, present in *. rewrite Hx, Hy in T. discriminate.
Qed.

End Stability.

(** * The script on sample data *)

(** The written example: rows (A, Asia, 10), (B, Asia, 30),
    (C, Europe, 20), ranked for Asia with [top_n] = 5, give B then A. *)
Example three_rows_ranked :
  match rankByMetric stable_argsort no_object_sort three_rows "Asia" Sales 5
  with
  | OK r =>
      index r = [1; 0]
      /\ getitem r "Company" = OK (Object [CStr "B"; CStr "A"])
      /\ getitem r "Sales ($billion)"
         = OK (Float64 [float_of_pos 30; float_of_pos 10])
  | Raise _ => False
  end.
Proof. vm_compute. repeat split. Qed.

Example three_rows_means :
  safeColumnMeans sequential_nanmean three_rows
                  ["Sales ($billion)"; "Profits ($billion)"]
  = OK [PyFloat (float_of_pos 20); PyFloat (float_of_pos 20)].
Proof. reflexivity. Qed.

(** Line 117 on a file without its profits column: the average sales
    shown is 0 as well. *)
Example no_profits_col_stats :
  col_stats (snd (line_117 sequential_nanmean (loaded no_profits)))
  = Some [("Sales", PyInt 0); ("Profit", PyInt 0)].
Proof. reflexivity. Qed.

(** The sales of the written example correlate with themselves as
    1.0. *)
Example three_rows_self_correlation :
  correlation three_rows "Sales ($billion)" "Sales ($billion)" = OK one.
Proof. vm_compute. reflexivity. Qed.

(** Text does not correlate. *)
Example company_correlation :
  correlation three_rows "Company" "Sales ($billion)" = Raise ValueError.
Proof. reflexivity. Qed.

(** Lines 40-41 on the objects: the dataset stays at address 0, and the
    filtered, the sorted and the first rows are three objects more. *)
Example three_rows_objects :
  let s := snd (Store.run_rank stable_argsort no_object_sort "Asia" Sales 5
                               (Store.loaded three_rows)) in
  length (Store.heap s) = 4
  /\ nth_error (Store.heap s) 0 = Some three_rows
  /\ Store.df (Store.names s) = 0
  /\ Store.filtered_df (Store.names s) = Some 1
  /\ Store.filtered_sorted (Store.names s) = Some 3.
Proof. vm_compute. repeat split. Qed.

(** A negative [top_n], which the slider never produces, drops rows
    from the end instead. *)
Example negative_top_n :
  match rankByMetric stable_argsort no_object_sort tied_rows "Asia" Sales (-1)
  with
  | OK r => index r = [2; 0]
  | Raise _ => False
  end.
Proof. vm_compute. reflexivity. Qed.

(** * The claims *)

(** C1.  Whatever routine stands behind numpy's [argsort], as long as
    it sorts: on a frame with a [Continent] column and a numeric metric
    column, and for a non-negative [top_n], lines 40-41 return a frame
    of at most [top_n] rows, whose [Continent] entries all equal the
    chosen continent, and whose metric column is in descending order
    (missing values last). *)
Theorem rank_bounded_filtered_sorted :
  forall (argsort : list float64 -> list nat)
         (nargsort_object : list cell -> Exc (list nat)),
    argsort_spec argsort ->
    forall (d : DataFrame) (cont : Series) (keys : list float64)
           (continent : string) (metric : Metric) (top_n : Z),
      wf d ->
      getitem d "Continent" = OK cont ->
      getitem d (metric_label metric) = OK (Float64 keys) ->
      (0 <= top_n)%Z ->
      exists (r : DataFrame) (cont' : Series) (keys' : list float64),
        rankByMetric argsort nargsort_object d continent metric top_n = OK r
        /\ wf r
        /\ (Z.of_nat (nrows r) <= top_n)%Z
        /\ getitem r "Continent" = OK cont'
        /\ Forall (fun c => c = CStr continent) (series_cells cont')
        /\ getitem r (metric_label metric) = OK (Float64 keys')
        /\ StronglySorted desc keys'.
Proof.
  intros argsort nargsort_object Hs d cont keys continent metric top_n
         W Hc Hm Hn.
  exists (frame_map (ranked argsort cont keys continent top_n) d),
    (series_map (ranked argsort cont keys continent top_n) cont),
    (ranked argsort cont keys continent top_n keys).
  repeat split.
  - now apply rankByMetric_eq.
  - apply wf_frame_map; [ | exact W].
    apply ranked_uniform.
  - unfold nrows, frame_map, ranked, sorted, masked. simpl.
    rewrite head_list_length by exact Hn. lia.
  - now apply getitem_frame_map.
  - apply ranked_continent.
  - now apply (getitem_frame_map (ranked argsort cont keys continent top_n))
      in Hm.
  - unfold ranked, sorted, masked, head_list. apply StronglySorted_firstn.
    apply (nargsort_desc Hs).
Qed.

(** C5.  When no row of the frame has the chosen continent, lines 40-41
    return (they do not raise) a frame with no rows: an empty index
    and every column empty, whatever [top_n] is. *)
Theorem rank_no_match_empty :
  forall (argsort : list float64 -> list nat)
         (nargsort_object : list cell -> Exc (list nat)),
    argsort_spec argsort ->
    forall (d : DataFrame) (cont : Series) (keys : list float64)
           (continent : string) (metric : Metric) (top_n : Z),
      wf d ->
      getitem d "Continent" = OK cont ->
      getitem d (metric_label metric) = OK (Float64 keys) ->
      Forall (fun c => cell_eq_str continent c = false) (series_cells cont) ->
      exists r : DataFrame,
        rankByMetric argsort nargsort_object d continent metric top_n = OK r
        /\ index r = []
        /\ Forall (fun c => series_len (snd c) = 0) (columns r).
Proof.
  intros argsort nargsort_object Hs d cont keys continent metric top_n
         W Hc Hm Hno.
  assert (E : forall (A : Type) (l : list A),
             ranked argsort cont keys continent top_n l = []).
  { intros A l. unfold ranked, sorted, masked.
    rewrite (compress_all_false (mask := chosen cont continent)).
    - rewrite picks_nil. unfold head_list. apply firstn_nil.
    - unfold chosen, series_eq. now rewrite Forall_map. }
  exists (frame_map (ranked argsort cont keys continent top_n) d).
  repeat split.
  - now apply rankByMetric_eq.
  - simpl. apply E.
  - simpl. rewrite Forall_map. apply Forall_forall.
    intros [n [l | l]] _; simpl; now rewrite E.
Qed.

(** C6.  For a non-negative [top_n], the frame lines 40-41 return has
    exactly min([top_n], number of rows of the chosen continent) rows;
    and when [top_n] is at least that number, it is the filtered frame
    itself with its rows rearranged: every matching row is there. *)
Theorem rank_length_min :
  forall (argsort : list float64 -> list nat)
         (nargsort_object : list cell -> Exc (list nat)),
    argsort_spec argsort ->
    forall (d : DataFrame) (cont : Series) (keys : list float64)
           (continent : string) (metric : Metric) (top_n : Z),
      wf d ->
      getitem d "Continent" = OK cont ->
      getitem d (metric_label metric) = OK (Float64 keys) ->
      (0 <= top_n)%Z ->
      exists r f : DataFrame,
        rankByMetric argsort nargsort_object d continent metric top_n = OK r
        /\ filter_continent d continent = OK f
        /\ nrows f = length (filter (cell_eq_str continent) (series_cells cont))
        /\ nrows r = Nat.min (Z.to_nat top_n) (nrows f)
        /\ ((Z.of_nat (nrows f) <= top_n)%Z ->
            exists idx : list nat,
              Permutation idx (seq 0 (nrows f))
              /\ r = frame_map (fun A => @picks A idx) f).
Proof.
  intros argsort nargsort_object Hs d cont keys continent metric top_n
         W Hc Hm Hn.
  exists (frame_map (ranked argsort cont keys continent top_n) d),
    (frame_map (masked cont continent) d).
  assert (Li : length (index d) = series_len cont)
    by (symmetry; apply (@getitem_len d _ _ W Hc)).
  assert (Lk : length (index d) = length keys)
    by (symmetry; apply (@getitem_len d _ _ W Hm)).
  assert (Nf : nrows (frame_map (masked cont continent) d)
               = length (chosen_keys cont keys continent)).
  { unfold nrows, chosen_keys. simpl. now apply compress_uniform. }
  repeat split.
  - now apply rankByMetric_eq.
  - now apply filter_continent_eq.
  - unfold nrows. simpl. now apply matching_count.
  - rewrite Nf. unfold nrows, ranked. simpl.
    rewrite head_list_length by exact Hn. f_equal.
    now apply (@sorted_length argsort Hs d cont keys continent metric W Hm).
  - intros Hall. exists (order argsort cont keys continent). split.
    + rewrite Nf. apply (indexer_perm Hs).
    + rewrite frame_map_compose. apply frame_map_ext; [exact W | ].
      intros A l E. unfold ranked. apply head_list_all.
      fold (sorted argsort cont keys continent l).
      rewrite (@sorted_length argsort Hs d cont keys continent metric W Hm
                              A l E).
      now rewrite <- Nf.
Qed.

Lemma seq_increasing (k n : nat) : StronglySorted lt (seq k n).
Proof.
  revert k. induction n as [ | n IH]; intros k; simpl; constructor;
    [apply IH | ].
  apply Forall_forall. intros x Hx. apply in_seq in Hx. lia.
Qed.

Lemma ranked_combine {A B : Type} (argsort : list float64 -> list nat)
      (cont : Series) (keys : list float64) (continent : string) (top_n : Z)
      (l : list A) (l' : list B) :
  length l = length l' ->
  combine (ranked argsort cont keys continent top_n l)
          (ranked argsort cont keys continent top_n l')
  = ranked argsort cont keys continent top_n (combine l l').
Proof.
  intros E. unfold ranked, sorted, masked.
  assert (E1 := compress_uniform (chosen cont continent) l l' E).
  assert (E2 := picks_uniform (order argsort cont keys continent) _ _ E1).
  rewrite compress_combine, picks_combine by exact E1.
  unfold head_list. rewrite combine_firstn, length_combine.
  simpl in E2. now rewrite <- E2, Nat.min_id.
Qed.

(** In a descending list, whatever stands between two tied entries is
    tied with them. *)
Lemma desc_ties_together (l : list float64) :
  StronglySorted desc l ->
  forall i k j, i <= k -> k <= j -> j < length l ->
    tie (key l i) (key l j) = true -> tie (key l i) (key l k) = true.
Proof.
  intros S i k j Hik Hkj Hj T.
  destruct (Nat.eq_dec i k) as [ | Nik]; [subst k | ].
  { unfold tie. destruct (isnan (key l i)) eqn:E; [reflexivity | ].
    now rewrite FloatOrder.flt_irrefl. }
  destruct (Nat.eq_dec k j) as [ | Nkj]; [now subst k | ].
  assert (D1 : desc (key l i) (key l k))
    by (apply (@StronglySorted_nth _ desc S754_nan l S i k); lia).
  assert (D2 : desc (key l k) (key l j))
    by (apply (@StronglySorted_nth _ desc S754_nan l S k j); lia).
  unfold tie in *. destruct (isnan (key l i)) eqn:Ei.
  - destruct D1 as [N | (N & _)]; [exact N | congruence].
  - apply andb_prop in T. destruct T as [T Tji].
    apply andb_prop in T. destruct T as [Nj Tij].
    apply negb_true_iff in Nj, Tij, Tji.
    destruct D2 as [N | (Nk & _ & Lkj)]; [congruence | ].
    destruct D1 as [N | (_ & _ & Lik)]; [congruence | ].
    rewrite Nk, Lik. simpl. apply negb_true_iff.
    exact (FloatOrder.asc_trans Ei Nj Nk Tji Lkj).
Qed.

(** C2, as the code has it.  Lines 40-41 keep tied rows together and
    lose none of them, and leave their order to [argsort]: in the frame
    they return, whatever row stands between two rows with tied metric
    values is tied with them; when [top_n] covers the rows of the chosen
    continent, the labelled values of the result are those of the
    filtered frame rearranged, each row once; and the tied rows stand
    in the order of their labels whenever the [argsort] behind
    [sort_values] keeps equal keys in place, which the default kind that
    line 41 leaves in force does not promise. *)
Theorem rank_ties_together :
  forall (argsort : list float64 -> list nat)
         (nargsort_object : list cell -> Exc (list nat)),
    argsort_spec argsort ->
    forall (d : DataFrame) (cont : Series) (keys : list float64)
           (continent : string) (metric : Metric) (top_n : Z),
      wf d ->
      getitem d "Continent" = OK cont ->
      getitem d (metric_label metric) = OK (Float64 keys) ->
      exists (r f : DataFrame) (keys' fkeys : list float64),
        rankByMetric argsort nargsort_object d continent metric top_n = OK r
        /\ filter_continent d continent = OK f
        /\ getitem r (metric_label metric) = OK (Float64 keys')
        /\ getitem f (metric_label metric) = OK (Float64 fkeys)
        /\ (forall i k j, i <= k -> k <= j -> j < length keys' ->
              tie (key keys' i) (key keys' j) = true ->
              tie (key keys' i) (key keys' k) = true)
        /\ ((Z.of_nat (nrows f) <= top_n)%Z ->
            Permutation (combine (index r) keys') (combine (index f) fkeys))
        /\ (range_indexed d -> argsort_stable argsort ->
            ties_in_dataset_order r (metric_label metric)).
Proof.
  intros argsort nargsort_object Hs d cont keys continent metric top_n
         W Hc Hm.
  assert (Lk : length (index d) = length keys)
    by (symmetry; apply (@getitem_len d _ _ W Hm)).
  assert (Hr := getitem_frame_map (ranked argsort cont keys continent top_n)
                  _ _ Hm).
  assert (Hf := getitem_frame_map (masked cont continent) _ _ Hm).
  exists (frame_map (ranked argsort cont keys continent top_n) d),
    (frame_map (masked cont continent) d),
    (ranked argsort cont keys continent top_n keys),
    (masked cont continent keys).
  split; [now apply rankByMetric_eq | ].
  split; [now apply filter_continent_eq | ].
  split; [exact Hr | ].
  split; [exact Hf | ].
  split; [ | split].
  - apply desc_ties_together.
    unfold ranked, sorted, masked, head_list. apply StronglySorted_firstn.
    apply (nargsort_desc Hs).
  - intros Hall. simpl. rewrite ranked_combine by exact Lk.
    unfold masked. rewrite <- compress_combine.
    fold (masked cont continent (combine (index d) keys)).
    unfold ranked. rewrite head_list_all.
    + unfold sorted. apply picks_perm. unfold masked.
      replace (length (compress (chosen cont continent)
                                (combine (index d) keys)))
        with (length (chosen_keys cont keys continent)).
      * apply (indexer_perm Hs).
      * unfold chosen_keys. apply compress_uniform.
        rewrite length_combine. lia.
    + fold (sorted argsort cont keys continent (combine (index d) keys)).
      rewrite (@sorted_length argsort Hs d cont keys continent metric W Hm).
      * unfold nrows in Hall. simpl in Hall.
        replace (length (chosen_keys cont keys continent))
          with (length (masked cont continent (index d))); [exact Hall | ].
        unfold chosen_keys, masked. now apply compress_uniform.
      * rewrite length_combine. unfold nrows. lia.
  - intros Hr' Hst.
    exists (ranked argsort cont keys continent top_n keys).
    split; [exact Hr | ].
    simpl. rewrite ranked_combine by exact Lk.
    unfold ranked, sorted, masked, head_list. apply StronglySorted_firstn.
    rewrite compress_combine.
    apply (nargsort_ties Hs Hst).
    + now apply compress_uniform.
    + apply StronglySorted_compress. rewrite Hr'. apply seq_increasing.
Qed.

(** ** The statements on the globals *)

Section Statements.

Variable argsort : list float64 -> list nat.
Variable nargsort_object : list cell -> Exc (list nat).
Variable nanmean : list float64 -> float64.
Variable Series_corr : Series -> Series -> Exc float64.
Variable format_2f : float64 -> string.

(** Lines 40-41 give what [rankByMetric] computes from [df], and
    assign [filtered_df] and [filtered_sorted] only. *)
Lemma run_rank_spec (continent : string) (metric : Metric) (top_n : Z)
      (g : Globals) :
  fst (run_rank argsort nargsort_object continent metric top_n g)
  = rankByMetric argsort nargsort_object (df g) continent metric top_n
  /\ df (snd (run_rank argsort nargsort_object continent metric top_n g))
     = df g.
Proof.
  unfold run_rank, line_40, line_41, rankByMetric, bindM, read_globals,
    liftE, assign_filtered_df, assign_filtered_sorted.
  destruct (filter_continent (df g) continent) as [f | e]; simpl;
    [ | now split].
  destruct (sort_values argsort nargsort_object f (metric_label metric))
    as [s | e]; simpl; now split.
Qed.

Lemma describe_relationship_df (x y : string) (g : Globals) :
  snd (describe_relationship Series_corr format_2f x y g) = g.
Proof.
  unfold describe_relationship, bindM, read_globals, liftE, ret.
  destruct (getitem (df g) x) as [sx | e]; [ | reflexivity].
  destruct (getitem (df g) y) as [sy | e]; [ | reflexivity].
  now destruct (Series_corr sx sy).
Qed.

Lemma safe_get_columns_eq (cols : list string) (g : Globals) :
  safe_get_columns nanmean cols g = (safeColumnMeans nanmean (df g) cols, g).
Proof.
  unfold safe_get_columns, bindM, read_globals, liftE. reflexivity.
Qed.

Lemma run_call_df (c : call) (g : Globals) :
  df (snd (run_call argsort nargsort_object nanmean Series_corr format_2f
                    c g)) = df g.
Proof.
  destruct c as [continent metric top_n | x y | cols]; unfold run_call, bindM.
  - destruct (run_rank_spec continent metric top_n g) as [_ E].
    destruct (run_rank argsort nargsort_object continent metric top_n g)
      as [[r | e] g']; exact E.
  - assert (E := describe_relationship_df x y g).
    destruct (describe_relationship Series_corr format_2f x y g)
      as [[s | e] g']; simpl in *; now subst.
  - rewrite safe_get_columns_eq.
    now destruct (safeColumnMeans nanmean (df g) cols).
Qed.

Lemma run_calls_df (cs : list call) (g : Globals) :
  df (snd (run_calls argsort nargsort_object nanmean Series_corr format_2f
                     cs g)) = df g.
Proof.
  revert g. induction cs as [ | c cs IH]; intros g; simpl; [reflexivity | ].
  assert (E := run_call_df c g).
  destruct (run_call argsort nargsort_object nanmean Series_corr format_2f
                     c g) as [r g'].
  specialize (IH g').
  destruct (run_calls argsort nargsort_object nanmean Series_corr format_2f
                      cs g') as [rs g''].
  simpl in *. congruence.
Qed.

End Statements.

(** C8.  Lines 40-41 run a second time with the same continent,
    metric and [top_n], on the globals the first run left behind and
    after any further calls into the query layer, give the very result
    (or the very exception) of the first run. *)
Theorem rank_twice_same :
  forall (argsort : list float64 -> list nat)
         (nargsort_object : list cell -> Exc (list nat))
         (nanmean : list float64 -> float64)
         (Series_corr : Series -> Series -> Exc float64)
         (format_2f : float64 -> string)
         (continent : string) (metric : Metric) (top_n : Z)
         (between : list call) (g : Globals),
    let first := run_rank argsort nargsort_object continent metric top_n g in
    let later := run_calls argsort nargsort_object nanmean Series_corr
                           format_2f between (snd first) in
    fst (run_rank argsort nargsort_object continent metric top_n (snd later))
    = fst first.
Proof.
  intros. subst first later.
  destruct (run_rank_spec argsort nargsort_object continent metric top_n g)
    as [E1 D1].
  destruct (run_rank_spec argsort nargsort_object continent metric top_n
              (snd (run_calls argsort nargsort_object nanmean Series_corr
                              format_2f between
                              (snd (run_rank argsort nargsort_object
                                             continent metric top_n g)))))
    as [E2 _].
  rewrite E1, E2, run_calls_df, D1. reflexivity.
Qed.

(** ** The objects behind the names *)

Section Objects.

Variable argsort : list float64 -> list nat.
Variable nargsort_object : list cell -> Exc (list nat).
Variable nanmean : list float64 -> float64.
Variable Series_corr : Series -> Series -> Exc float64.
Variable format_2f : float64 -> string.

Lemma grown_refl (s : Store.State) : Store.grown s s.
Proof. split; [reflexivity | exists []; now rewrite app_nil_r]. Qed.

Lemma grown_trans (s s' s'' : Store.State) :
  Store.grown s s' -> Store.grown s' s'' -> Store.grown s s''.
Proof.
  intros [D (more & E)] [D' (more' & E')]. split; [congruence | ].
  exists (more ++ more'). now rewrite E', E, app_assoc.
Qed.

Ltac same_objects :=
  split; [reflexivity | exists []; simpl; now rewrite app_nil_r].

Lemma keeps_ret {A : Type} (a : A) : Store.keeps (Store.ret a).
Proof. intros s. apply grown_refl. Qed.

Lemma keeps_lift {A : Type} (m : Exc A) : Store.keeps (Store.lift m).
Proof. intros s. apply grown_refl. Qed.

Lemma keeps_read_names : Store.keeps Store.read_names.
Proof. intros s. apply grown_refl. Qed.

Lemma keeps_deref (a : Store.addr) : Store.keeps (Store.deref a).
Proof. intros s. apply grown_refl. Qed.

Lemma keeps_new (f : DataFrame) : Store.keeps (Store.new f).
Proof. intros s. split; [reflexivity | now exists [f]]. Qed.

Lemma keeps_assign_filtered_df (a : Store.addr) :
  Store.keeps (Store.assign_filtered_df a).
Proof. intros s. same_objects. Qed.

Lemma keeps_assign_filtered_sorted (a : Store.addr) :
  Store.keeps (Store.assign_filtered_sorted a).
Proof. intros s. same_objects. Qed.

Lemma keeps_assign_col_stats (c : list (string * pynum)) :
  Store.keeps (Store.assign_col_stats c).
Proof. intros s. same_objects. Qed.

Lemma keeps_bind {A B : Type} (m : Store.P A) (k : A -> Store.P B) :
  Store.keeps m -> (forall a, Store.keeps (k a)) ->
  Store.keeps (Store.bind m k).
Proof.
  intros Hm Hk s. unfold Store.bind. specialize (Hm s).
  destruct (m s) as [[a | e] s']; simpl in *; [ | exact Hm].
  exact (grown_trans Hm (Hk a s')).
Qed.

Lemma keeps_try {A : Type} (body handler : Store.P A) :
  Store.keeps body -> Store.keeps handler ->
  Store.keeps (Store.try_except_KeyError body handler).
Proof.
  intros Hb Hh s. unfold Store.try_except_KeyError. specialize (Hb s).
  destruct (body s) as [[a | e] s']; simpl in *; [exact Hb | ].
  destruct e; try exact Hb.
  exact (grown_trans Hb (Hh s')).
Qed.

Lemma keeps_comprehension {A B : Type} (f : A -> Store.P B) (l : list A) :
  (forall x, Store.keeps (f x)) -> Store.keeps (Store.comprehension f l).
Proof.
  intros Hf. induction l as [ | x l IH]; simpl; [apply keeps_ret | ].
  apply keeps_bind; [apply Hf | intros y].
  apply keeps_bind; [exact IH | intros ys]. apply keeps_ret.
Qed.

Create HintDb keeps.

#[local] Hint Resolve keeps_ret keeps_lift keeps_read_names keeps_deref
  keeps_new keeps_assign_filtered_df keeps_assign_filtered_sorted
  keeps_assign_col_stats : keeps.

Ltac keeps_steps :=
  repeat first
    [ apply keeps_bind; [ | intros ? ]
    | solve [auto with keeps] ].

(** The pandas calls as the script makes them add objects and change
    none. *)
Lemma keeps_getitem (a : Store.addr) (c : string) :
  Store.keeps (Store.getitem a c).
Proof. unfold Store.getitem. keeps_steps. Qed.

Lemma keeps_getitem_bool (a : Store.addr) (mask : list bool) :
  Store.keeps (Store.getitem_bool a mask).
Proof. unfold Store.getitem_bool. keeps_steps. Qed.

Lemma keeps_sort_values (a : Store.addr) (by_ : string) :
  Store.keeps (Store.sort_values argsort nargsort_object a by_ false).
Proof. unfold Store.sort_values. keeps_steps. Qed.

Lemma keeps_head (a : Store.addr) (n : Z) : Store.keeps (Store.head a n).
Proof. unfold Store.head. keeps_steps. Qed.

Lemma keeps_receiver (r : option Store.addr) : Store.keeps (Store.receiver r).
Proof. destruct r; simpl; auto with keeps. Qed.

#[local] Hint Resolve keeps_getitem keeps_getitem_bool keeps_sort_values
  keeps_head keeps_receiver : keeps.

Lemma keeps_run_rank (continent : string) (metric : Metric) (top_n : Z) :
  Store.keeps (Store.run_rank argsort nargsort_object continent metric top_n).
Proof.
  unfold Store.run_rank, Store.line_40, Store.line_41. keeps_steps.
Qed.

Lemma keeps_describe_relationship (x y : string) :
  Store.keeps (Store.describe_relationship Series_corr format_2f x y).
Proof. unfold Store.describe_relationship. keeps_steps. Qed.

Lemma keeps_safe_get_columns (cols : list string) :
  Store.keeps (Store.safe_get_columns nanmean cols).
Proof.
  unfold Store.safe_get_columns. apply keeps_try; [ | apply keeps_ret].
  apply keeps_comprehension. intros col. unfold Store.column_mean.
  keeps_steps.
Qed.

Lemma keeps_run_call (c : call) :
  Store.keeps (Store.run_call argsort nargsort_object nanmean Series_corr
                              format_2f c).
Proof.
  destruct c as [continent metric top_n | x y | cols]; simpl;
    (apply keeps_bind; [ | intros ?; apply keeps_ret]).
  - apply keeps_run_rank.
  - apply keeps_describe_relationship.
  - apply keeps_safe_get_columns.
Qed.

Lemma run_calls_keep (cs : list call) (s : Store.State) :
  Store.grown s (snd (Store.run_calls argsort nargsort_object nanmean
                                      Series_corr format_2f cs s)).
Proof.
  revert s. induction cs as [ | c cs IH]; intros s; simpl.
  - apply grown_refl.
  - assert (Hc := keeps_run_call c s).
    destruct (Store.run_call argsort nargsort_object nanmean Series_corr
                             format_2f c s) as [r s'].
    specialize (IH s').
    destruct (Store.run_calls argsort nargsort_object nanmean Series_corr
                              format_2f cs s') as [rs s''].
    simpl in *. exact (grown_trans Hc IH).
Qed.

(** *** The objects and the values *)

Lemma nth_error_snoc {A : Type} (h : list A) (x : A) :
  nth_error (h ++ [x]) (length h) = Some x.
Proof. now rewrite nth_error_app2, Nat.sub_diag by lia. Qed.

(** On a state in which [df] is bound to the frame [d], lines 40-41
    give the frame that [rankByMetric] computes from [d]. *)
Lemma store_run_rank (continent : string) (metric : Metric) (top_n : Z)
      (s : Store.State) (d : DataFrame) :
  nth_error (Store.heap s) (Store.df (Store.names s)) = Some d ->
  fst (Store.run_rank argsort nargsort_object continent metric top_n s)
  = rankByMetric argsort nargsort_object d continent metric top_n.
Proof.
  intros Hd.
  unfold Store.run_rank, Store.line_40, Store.line_41, Store.getitem,
    Store.getitem_bool, Store.sort_values, Store.head, rankByMetric,
    filter_continent, Store.bind, Store.read_names, Store.deref, Store.lift,
    Store.new, Store.receiver,
    Store.assign_filtered_df, Store.assign_filtered_sorted, Store.ret.
  simpl. rewrite Hd.
  destruct (getitem d "Continent") as [c | e]; simpl; [ | reflexivity].
  rewrite Hd.
  destruct (getitem_bool d (series_eq c continent)) as [f | e]; simpl;
    [ | reflexivity].
  rewrite nth_error_snoc.
  destruct (sort_values argsort nargsort_object f (metric_label metric))
    as [t | e]; simpl; [ | reflexivity].
  rewrite nth_error_snoc. simpl.
  rewrite length_app. simpl.
  replace (length (Store.heap s ++ [f]) + 1)
    with (length ((Store.heap s ++ [f]) ++ [t]))
    by (rewrite !length_app; simpl; lia).
  now rewrite nth_error_snoc.
Qed.

(** And [safe_get_columns] gives what [safeColumnMeans] computes from
    [d]. *)
Lemma store_comprehension (cols : list string) (s : Store.State)
      (d : DataFrame) :
  nth_error (Store.heap s) (Store.df (Store.names s)) = Some d ->
  Store.comprehension (Store.column_mean nanmean) cols s
  = (mapM (column_mean nanmean d) cols, s).
Proof.
  intros Hd. induction cols as [ | col cols IH]; simpl; [reflexivity | ].
  unfold Store.bind at 1.
  assert (E : Store.column_mean nanmean col s = (column_mean nanmean d col, s)).
  { unfold Store.column_mean, column_mean, Store.getitem, Store.bind,
      Store.read_names,
      Store.deref, Store.lift, Store.ret. simpl. rewrite Hd.
    destruct (getitem d col) as [c | e]; simpl; [ | reflexivity].
    now destruct (series_mean nanmean c). }
  rewrite E. destruct (column_mean nanmean d col) as [m | e]; simpl;
    [ | reflexivity].
  unfold Store.bind. rewrite IH.
  now destruct (mapM (column_mean nanmean d) cols).
Qed.

Lemma store_safe_get_columns (cols : list string) (s : Store.State)
      (d : DataFrame) :
  nth_error (Store.heap s) (Store.df (Store.names s)) = Some d ->
  fst (Store.safe_get_columns nanmean cols s)
  = safeColumnMeans nanmean d cols.
Proof.
  intros Hd. unfold Store.safe_get_columns, Store.try_except_KeyError,
    safeColumnMeans, try_except_KeyError.
  rewrite (store_comprehension cols s Hd).
  destruct (mapM (column_mean nanmean d) cols) as [l | e]; [reflexivity | ].
  now destruct e.
Qed.

End Objects.

(** A sort in place is within the model's reach, and does change the
    object: [three_rows] sorted in place by sales is no longer
    [three_rows]. *)
Example sort_in_place_changes_the_object :
  Store.heap
    (snd (Store.sort_values stable_argsort no_object_sort 0
                            "Sales ($billion)" true (Store.loaded three_rows)))
  <> Store.heap (Store.loaded three_rows).
Proof. vm_compute. discriminate. Qed.

(** C9.  Whatever calls are made into the query layer, in whatever
    order and whether they return or raise, [df] is afterwards bound
    to the object it was bound to, and every frame object that
    existed before the calls, the dataset among them, is what it was:
    lines 40-41 put the filtered rows, the sorted rows and the first
    rows into new objects, [sort_values] is not asked to work in
    place, and the other calls only read. *)
Theorem calls_leave_dataset_unchanged :
  forall (argsort : list float64 -> list nat)
         (nargsort_object : list cell -> Exc (list nat))
         (nanmean : list float64 -> float64)
         (Series_corr : Series -> Series -> Exc float64)
         (format_2f : float64 -> string)
         (calls : list call) (s : Store.State),
    let s' := snd (Store.run_calls argsort nargsort_object nanmean
                                   Series_corr format_2f calls s) in
    Store.df (Store.names s') = Store.df (Store.names s)
    /\ forall (a : Store.addr) (f : DataFrame),
        nth_error (Store.heap s) a = Some f ->
        nth_error (Store.heap s') a = Some f.
Proof.
  intros argsort nargsort_object nanmean Series_corr format_2f calls s s'.
  destruct (run_calls_keep argsort nargsort_object nanmean Series_corr
                           format_2f calls s) as [D (more & E)].
  split; [exact D | ].
  intros a f Ha. subst s'. rewrite E.
  rewrite nth_error_app1; [exact Ha | ].
  apply nth_error_Some. congruence.
Qed.

(** ** [describe_relationship] *)

Lemma fsub_self (c : float64) : zero_or_nan (fsub c c) = true.
Proof.
  destruct c as [s | s | | s m e]; simpl; try reflexivity.
  - now destruct s.
  - now destruct s.
  - unfold fsub, SFsub. rewrite Z.min_id.
    match goal with
    | |- context [binary_normalize _ _ (?t - ?t)%Z _ _] =>
        replace (t - t)%Z with 0%Z by lia
    end.
    reflexivity.
Qed.

Lemma fmul_zero_l (a b : float64) :
  zero_or_nan a = true -> zero_or_nan (fmul a b) = true.
Proof. destruct a, b; simpl; intros H; try discriminate; reflexivity. Qed.

Lemma fmul_zero_r (a b : float64) :
  zero_or_nan b = true -> zero_or_nan (fmul a b) = true.
Proof. destruct a, b; simpl; intros H; try discriminate; reflexivity. Qed.

Lemma fadd_zero (a b : float64) :
  zero_or_nan a = true -> zero_or_nan b = true ->
  zero_or_nan (fadd a b) = true.
Proof.
  destruct a as [[ | ] | | | ], b as [[ | ] | | | ]; simpl; intros Ha Hb;
    try discriminate; reflexivity.
Qed.

Lemma fsqrt_zero (a : float64) :
  zero_or_nan a = true -> zero_or_nan (fsqrt a) = true.
Proof. destruct a; simpl; intros H; try discriminate; reflexivity. Qed.

Lemma fdiv_zero_zero (a b : float64) :
  zero_or_nan a = true -> zero_or_nan b = true -> fdiv a b = S754_nan.
Proof.
  destruct a, b; simpl; intros Ha Hb; try discriminate; reflexivity.
Qed.

Lemma fdiv_zero_any (a b : float64) :
  zero_or_nan a = true -> zero_or_nan (fdiv a b) = true.
Proof. destruct a, b; simpl; intros H; try discriminate; reflexivity. Qed.

Lemma fmul_inf (a : float64) :
  inf_or_nan (fmul a (S754_infinity false)) = true.
Proof. destruct a; reflexivity. Qed.

Lemma fsqrt_inf (a : float64) :
  inf_or_nan a = true -> inf_or_nan (fsqrt a) = true.
Proof.
  destruct a as [ | [ | ] | | ]; simpl; intros H; try discriminate; reflexivity.
Qed.

Lemma fdiv_inf_inf (a b : float64) :
  inf_or_nan a = true -> inf_or_nan b = true -> fdiv a b = S754_nan.
Proof.
  destruct a, b; simpl; intros Ha Hb; try discriminate; reflexivity.
Qed.

Lemma fdiv_nan (b : float64) : fdiv S754_nan b = S754_nan.
Proof. reflexivity. Qed.

Lemma clip_nan (lo hi : float64) : clip S754_nan lo hi = S754_nan.
Proof. reflexivity. Qed.

(** The products of a row of zeros with any row add up to a zero (or
    to NaN, when the other row holds an infinity). *)
Lemma dot_onto_zero_l (x y : list float64) (acc : float64) :
  Forall (fun a => zero_or_nan a = true) x ->
  zero_or_nan acc = true ->
  zero_or_nan (fold_left (fun acc p => fadd acc (fmul (fst p) (snd p)))
                         (combine x y) acc) = true.
Proof.
  intros F. revert y acc.
  induction F as [ | a x Ha _ IH]; intros y acc Hacc; [exact Hacc | ].
  destruct y as [ | b y]; [exact Hacc | ]. simpl.
  apply IH. apply fadd_zero; [exact Hacc | now apply fmul_zero_l].
Qed.

Lemma dot_onto_zero_r (x y : list float64) (acc : float64) :
  Forall (fun a => zero_or_nan a = true) y ->
  zero_or_nan acc = true ->
  zero_or_nan (fold_left (fun acc p => fadd acc (fmul (fst p) (snd p)))
                         (combine x y) acc) = true.
Proof.
  intros F. revert x acc.
  induction F as [ | b y Hb _ IH]; intros x acc Hacc.
  - now destruct x.
  - destruct x as [ | a x]; [exact Hacc | ]. simpl.
    apply IH. apply fadd_zero; [exact Hacc | now apply fmul_zero_r].
Qed.

Lemma dot_zero_l (x y : list float64) :
  Forall (fun a => zero_or_nan a = true) x -> zero_or_nan (dot x y) = true.
Proof. intros F. now apply dot_onto_zero_l. Qed.

Lemma dot_zero_r (x y : list float64) :
  Forall (fun a => zero_or_nan a = true) y -> zero_or_nan (dot x y) = true.
Proof. intros F. now apply dot_onto_zero_r. Qed.

(** A level column has no deviation from its mean. *)
Lemma level_centred (l : list float64) :
  level l -> Forall (fun a => zero_or_nan a = true) (centred l).
Proof.
  intros (c & F & E). unfold centred. rewrite E.
  apply Forall_map. apply Forall_forall. intros a Ha.
  rewrite Forall_forall in F. rewrite (F a Ha). apply fsub_self.
Qed.

Lemma corrcoef_level_l (x y : list float64) :
  level x -> corrcoef x y = S754_nan.
Proof.
  intros L. apply level_centred in L. unfold corrcoef, cov_entry.
  rewrite (@fdiv_zero_zero (fmul (dot (centred x) (centred y)) _)).
  - reflexivity.
  - apply fmul_zero_l. now apply dot_zero_l.
  - apply fsqrt_zero, fmul_zero_l. now apply dot_zero_l.
Qed.

Lemma corrcoef_level_r (x y : list float64) :
  level y -> corrcoef x y = S754_nan.
Proof.
  intros L. apply level_centred in L. unfold corrcoef, cov_entry.
  rewrite (@fdiv_zero_zero (fdiv _ _)).
  - reflexivity.
  - apply fdiv_zero_any, fmul_zero_l. now apply dot_zero_r.
  - apply fsqrt_zero, fmul_zero_l. now apply dot_zero_l.
Qed.

(** With one row, [fact] is 0.0 and every covariance entry is an
    infinity or NaN. *)
Lemma corrcoef_one_row (x y : list float64) :
  length x = 1 -> length y = 1 -> corrcoef x y = S754_nan.
Proof.
  intros Lx Ly. unfold corrcoef, cov_entry. rewrite Lx, Ly.
  change (fdiv one (float_of_nat (1 - 1))) with (S754_infinity false).
  rewrite (@fdiv_inf_inf (fmul _ _)).
  - reflexivity.
  - apply fmul_inf.
  - apply fsqrt_inf, fmul_inf.
Qed.

Lemma valid_pairs_self (xs : list float64) :
  map fst (valid_pairs xs xs) = filter notna xs
  /\ map snd (valid_pairs xs xs) = filter notna xs.
Proof.
  unfold valid_pairs.
  induction xs as [ | a xs [IH1 IH2]]; simpl; [now split | ].
  destruct (notna a); simpl; [now rewrite IH1, IH2 | now split].
Qed.

Lemma filter_nil_existsb {A : Type} (p : A -> bool) (l : list A) :
  (length (filter p l) <? 1)%nat = negb (existsb p l).
Proof.
  induction l as [ | a l IH]; simpl; [reflexivity | ].
  destruct (p a); simpl; [reflexivity | exact IH].
Qed.

(** The clip keeps a number between its bounds. *)
Lemma clip_range (x : float64) :
  isnan (clip x minus_one one) = true
  \/ (flt (clip x minus_one one) minus_one = false
      /\ flt one (clip x minus_one one) = false).
Proof.
  unfold clip, fmax, fmin.
  destruct (isnan x) eqn:Nx; simpl; [rewrite Nx; simpl; now left | ].
  right. destruct (flt minus_one x) eqn:L1.
  - rewrite Nx. simpl. destruct (flt x one) eqn:L2.
    + split; [now apply FloatOrder.flt_asym | now apply FloatOrder.flt_asym].
    + split; reflexivity.
  - simpl. split; reflexivity.
Qed.

(** C4, as the code has it.  [describe_relationship] has no value of
    its own for an undefined correlation: it shows the float that
    [Series.corr] returns.  That float is NaN, and no exception is
    raised, when fewer than two rows have a value in both columns, and
    when one of the two columns, over those rows, is level: all its
    entries are one value and their computed mean is that value. *)
Theorem correlation_nan_when_undefined :
  forall (d : DataFrame) (x y : string) (xs ys : list float64),
    getitem d x = OK (Float64 xs) ->
    getitem d y = OK (Float64 ys) ->
    length (valid_pairs xs ys) < 2
    \/ level (map fst (valid_pairs xs ys))
    \/ level (map snd (valid_pairs xs ys)) ->
    correlation d x y = OK S754_nan
    /\ forall (format_2f : float64 -> string) (g : Globals),
        df g = d ->
        fst (describe_relationship corr format_2f x y g)
        = OK ("Correlation between " ++ x ++ " and " ++ y ++ ": "
              ++ format_2f S754_nan)%string.
Proof.
  intros d x y xs ys Hx Hy H.
  assert (E : correlation d x y = OK S754_nan).
  { unfold correlation. rewrite Hx, Hy. simpl. unfold corr. simpl.
    destruct (length xs =? 0)%nat; [reflexivity | ]. simpl.
    unfold nancorr.
    destruct (length (valid_pairs xs ys)) as [ | [ | n]] eqn:L;
      [reflexivity | | ].
    - simpl. rewrite corrcoef_one_row; [reflexivity | | ];
        now rewrite length_map.
    - simpl. destruct H as [H | [H | H]]; [lia | | ].
      + now rewrite corrcoef_level_l.
      + now rewrite corrcoef_level_r. }
  split; [exact E | ].
  intros format_2f g Hg. subst d.
  unfold describe_relationship, bindM, read_globals, liftE, ret.
  unfold correlation in E. rewrite Hx, Hy in *. simpl in E.
  now rewrite E.
Qed.

(** C7, as the code has it.  A numeric column correlated with itself
    does not raise, and gives a float that depends on the computed
    sample variance [v] of its present values alone: [v] divided twice
    by its rounded square root, clipped to [-1, 1].  That float is NaN
    when the column has no present value and when [v] is a zero, an
    infinity or NaN; any other time it is a number from -1.0 to 1.0,
    which the roundings may leave short of 1.0. *)
Theorem self_correlation :
  forall (d : DataFrame) (x : string) (xs : list float64),
    getitem d x = OK (Float64 xs) ->
    exists q : float64,
      correlation d x x = OK q
      /\ q = (if existsb notna xs
              then self_quotient (variance (filter notna xs))
              else S754_nan)
      /\ (isnan q = true
          \/ (flt q minus_one = false /\ flt one q = false))
      /\ (zero_or_nan (variance (filter notna xs)) = true
          \/ inf_or_nan (variance (filter notna xs)) = true ->
          isnan q = true).
Proof.
  intros d x xs Hx.
  destruct (valid_pairs_self xs) as [E1 E2].
  assert (E : correlation d x x
              = OK (if existsb notna xs
                    then self_quotient (variance (filter notna xs))
                    else S754_nan)).
  { unfold correlation. rewrite Hx. simpl. unfold corr. simpl.
    destruct xs as [ | a xs']; [reflexivity | ].
    change (length (a :: xs') =? 0)%nat with false. simpl bindE.
    unfold nancorr. rewrite E1, E2.
    rewrite <- (length_map fst), E1, filter_nil_existsb.
    now destruct (existsb notna (a :: xs')). }
  eexists. split; [exact E | ]. split; [reflexivity | ].
  destruct (existsb notna xs); [ | split; [now left | reflexivity]].
  split; [apply clip_range | ].
  unfold self_quotient.
  destruct (variance (filter notna xs)) as [s | s | | s m e];
    intros [H | H]; try discriminate H; try reflexivity.
  now destruct s.
Qed.

(** ** [safe_get_columns] *)

Lemma mapM_raise {A B : Type} (f : A -> Exc B) (l : list A) (e : exn) :
  mapM f l = Raise e -> exists x, In x l /\ f x = Raise e.
Proof.
  induction l as [ | x l IH]; simpl; [discriminate | ].
  destruct (f x) as [y | e'] eqn:E; simpl.
  - destruct (mapM f l) as [ys | e'']; simpl; [discriminate | ].
    intros H. destruct (IH H) as (z & Hz & Ez). eauto.
  - intros H. inversion H; subst. eauto.
Qed.

Lemma mapM_first_raise {A B : Type} (f : A -> Exc B) (pre post : list A)
      (x : A) (e : exn) :
  Forall (fun c => exists m, f c = OK m) pre -> f x = Raise e ->
  mapM f (pre ++ x :: post) = Raise e.
Proof.
  intros H E. induction H as [ | c pre [m Hc] _ IH]; simpl.
  - now rewrite E.
  - now rewrite Hc, IH.
Qed.

Lemma column_mean_raise (nanmean : list float64 -> float64) (d : DataFrame)
      (c : string) (e : exn) :
  column_mean nanmean d c = Raise e ->
  (e = KeyError /\ getitem d c = Raise KeyError)
  \/ (e = TypeError
      /\ exists s, getitem d c = OK s
                   /\ series_mean nanmean s = Raise TypeError).
Proof.
  unfold column_mean, getitem.
  destruct (lookup c (columns d)) as [s | ]; simpl.
  - destruct (series_mean nanmean s) as [m | e'] eqn:E; simpl;
      [discriminate | ].
    intros H. inversion H; subst. right.
    assert (e = TypeError).
    { destruct s as [l | l]; simpl in E; [discriminate | ].
      destruct (existsb is_str l); congruence. }
    subst. eauto.
  - intros H. inversion H. now left.
Qed.

(** C3, as the code has it.  When a requested column is absent from
    the frame and every column requested before it has a mean (it is
    there and holds no text), [safe_get_columns] does not raise: it
    returns 0 for every requested column, those present in the frame
    included. *)
Theorem means_fall_back_to_zero :
  forall (nanmean : list float64 -> float64) (d : DataFrame)
         (before : list string) (absent : string) (after : list string),
    getitem d absent = Raise KeyError ->
    Forall (fun c => exists m, column_mean nanmean d c = OK m) before ->
    let cols := before ++ absent :: after in
    safeColumnMeans nanmean d cols = OK (map (fun _ => PyInt 0) cols)
    /\ (forall l, safeColumnMeans nanmean d cols = OK l ->
                  combine cols l = map (fun c => (c, PyInt 0)) cols).
Proof.
  intros nanmean d before absent after Ha Hb cols.
  assert (E : safeColumnMeans nanmean d cols
              = OK (map (fun _ => PyInt 0) cols)).
  { unfold safeColumnMeans, cols.
    rewrite (@mapM_first_raise _ _ (column_mean nanmean d) before after
               absent KeyError Hb).
    - reflexivity.
    - unfold column_mean. now rewrite Ha. }
  split; [exact E | ].
  intros l H. rewrite E in H. inversion H; subst.
  clear. induction cols as [ | c cols IH]; simpl; [reflexivity | ].
  now rewrite IH.
Qed.

(** C10.  [safe_get_columns] either returns a list with one entry per
    requested column - the means when every lookup succeeds, zeros
    when the first failure is a missing column - or raises the
    [TypeError] of a requested text column; it never returns a list
    of another length, and leaves the globals alone.  Line 117
    therefore zips its two labels with two numbers: when it returns,
    [col_stats] has both entries, under their own labels. *)
Theorem safe_get_columns_length :
  forall (nanmean : list float64 -> float64) (cols : list string)
         (g : Globals),
    snd (safe_get_columns nanmean cols g) = g
    /\ match fst (safe_get_columns nanmean cols g) with
       | OK l =>
           length l = length cols
           /\ map fst (combine cols l) = cols
           /\ (mapM (column_mean nanmean (df g)) cols = OK l
               \/ (mapM (column_mean nanmean (df g)) cols = Raise KeyError
                   /\ l = map (fun _ => PyInt 0) cols))
       | Raise e =>
           e = TypeError
           /\ exists c s, In c cols
                          /\ getitem (df g) c = OK s
                          /\ series_mean nanmean s = Raise TypeError
       end
    /\ match fst (line_117 nanmean g) with
       | OK _ =>
           exists sales profit : pynum,
             col_stats (snd (line_117 nanmean g))
             = Some [("Sales", sales); ("Profit", profit)]
       | Raise e => e = TypeError
       end.
Proof.
  intros nanmean cols g.
  assert (B : forall cs,
             match safeColumnMeans nanmean (df g) cs with
             | OK l =>
                 length l = length cs
                 /\ map fst (combine cs l) = cs
                 /\ (mapM (column_mean nanmean (df g)) cs = OK l
                     \/ (mapM (column_mean nanmean (df g)) cs = Raise KeyError
                         /\ l = map (fun _ => PyInt 0) cs))
             | Raise e =>
                 e = TypeError
                 /\ exists c s, In c cs
                                /\ getitem (df g) c = OK s
                                /\ series_mean nanmean s = Raise TypeError
             end).
  { intros cs. unfold safeColumnMeans.
    destruct (mapM (column_mean nanmean (df g)) cs) as [l | e] eqn:E.
    - simpl. assert (L := mapM_length _ _ E).
      repeat split; [exact L | now apply map_fst_combine | now left].
    - apply mapM_raise in E. destruct E as (c & Hc & E).
      apply column_mean_raise in E.
      destruct E as [[-> _] | [-> (s & Hs & Hm)]]; simpl.
      + repeat split.
        * apply length_map.
        * apply map_fst_combine. now rewrite length_map.
        * now right.
      + split; [reflexivity | ]. exists c, s. auto. }
  rewrite safe_get_columns_eq. simpl.
  split; [reflexivity | ]. split; [apply B | ].
  unfold line_117, bindM. rewrite safe_get_columns_eq.
  specialize (B ["Sales ($billion)"; "Profits ($billion)"]).
  destruct (safeColumnMeans nanmean (df g)
              ["Sales ($billion)"; "Profits ($billion)"]) as [l | e]; simpl.
  - destruct B as (L & _ & _).
    destruct l as [ | a [ | b [ | c l]]]; try discriminate.
    exists a, b. reflexivity.
  - apply B.
Qed.

(** * The claims on sample data *)

Ltac sample_frame :=
  match goal with
  | |- wf _ => repeat constructor
  | |- range_indexed _ => reflexivity
  | |- getitem _ _ = _ => reflexivity
  | |- (_ <= _)%Z => lia
  | |- Forall _ _ => repeat constructor
  end.

(** Ranking [three_rows] for Asia by sales, top 5. *)
Lemma rank_bounded_filtered_sorted_witness :
  argsort_spec stable_argsort
  /\ wf three_rows
  /\ (0 <= 5)%Z
  /\ exists (r : DataFrame) (cont' : Series) (keys' : list float64),
      rankByMetric stable_argsort no_object_sort three_rows "Asia" Sales 5
      = OK r
      /\ wf r
      /\ (Z.of_nat (nrows r) <= 5)%Z
      /\ getitem r "Continent" = OK cont'
      /\ Forall (fun c => c = CStr "Asia") (series_cells cont')
      /\ getitem r (metric_label Sales) = OK (Float64 keys')
      /\ StronglySorted desc keys'.
Proof.
  split; [exact Insertion.stable_argsort_spec | ].
  split; [sample_frame | ].
  split; [lia | ].
  eapply (rank_bounded_filtered_sorted (argsort:=stable_argsort)
            no_object_sort Insertion.stable_argsort_spec
            (d:=three_rows) "Asia" Sales (top_n:=5));
    sample_frame.
Defined.

(** The eighteen rows ranked with numpy's quicksort for the ten best:
    the result is sorted, and rows that tie are not in the order of
    the file. *)
Lemma rank_ties_not_kept :
  wf eighteen_rows
  /\ range_indexed eighteen_rows
  /\ exists (r : DataFrame) (keys' : list float64),
      rankByMetric Npysort.aquicksort no_object_sort eighteen_rows "Asia"
                   Sales 10 = OK r
      /\ nrows r = 10
      /\ getitem r (metric_label Sales) = OK (Float64 keys')
      /\ StronglySorted desc keys'
      /\ ~ ties_in_dataset_order r (metric_label Sales).
Proof.
  split; [sample_frame | ].
  split; [sample_frame | ].
  eexists. eexists.
  split; [vm_compute; reflexivity | ].
  split; [reflexivity | ].
  split; [reflexivity | ].
  split.
  - repeat (apply SSorted_cons;
            [ | repeat (apply Forall_cons;
                        [right; repeat split; reflexivity | ]);
                apply Forall_nil]).
    apply SSorted_nil.
  - intros (keys & Hk & S). inversion Hk; subst keys. simpl in S.
    assert (T := @StronglySorted_nth _ tie_order (0, S754_nan) _ S 2 3).
    simpl in T. unfold tie_order in T. simpl in T.
    assert (X : 16 < 4) by (apply T; [lia | reflexivity]). lia.
Qed.

Lemma rank_ties_together_witness :
  argsort_spec stable_argsort
  /\ wf tied_rows
  /\ exists (r f : DataFrame) (keys' fkeys : list float64),
      rankByMetric stable_argsort no_object_sort tied_rows "Asia" Sales 5
      = OK r
      /\ filter_continent tied_rows "Asia" = OK f
      /\ getitem r (metric_label Sales) = OK (Float64 keys')
      /\ getitem f (metric_label Sales) = OK (Float64 fkeys)
      /\ (forall i k j, i <= k -> k <= j -> j < length keys' ->
            tie (key keys' i) (key keys' j) = true ->
            tie (key keys' i) (key keys' k) = true)
      /\ ((Z.of_nat (nrows f) <= 5)%Z ->
          Permutation (combine (index r) keys') (combine (index f) fkeys))
      /\ (range_indexed tied_rows -> argsort_stable stable_argsort ->
          ties_in_dataset_order r (metric_label Sales)).
Proof.
  split; [exact Insertion.stable_argsort_spec | ].
  split; [sample_frame | ].
  apply (rank_ties_together (argsort:=stable_argsort) no_object_sort
           Insertion.stable_argsort_spec (d:=tied_rows)
           (cont:=Object (map CStr ["Asia"; "Asia"; "Asia"]))
           (keys:=map float_of_pos [10; 10; 30]%positive)
           "Asia" Sales 5);
    sample_frame.
Defined.

(** Sales and profits of 5.0 each: both columns are level. *)
Lemma correlation_nan_when_undefined_witness :
  getitem fives "Sales ($billion)" = OK (Float64 (map float_of_nat [5; 5; 5]))
  /\ getitem fives "Profits ($billion)"
     = OK (Float64 (map float_of_nat [5; 5; 5]))
  /\ level (map float_of_nat [5; 5; 5])
  /\ correlation fives "Sales ($billion)" "Profits ($billion)" = OK S754_nan
  /\ forall (format_2f : float64 -> string) (g : Globals),
      df g = fives ->
      fst (describe_relationship corr format_2f "Sales ($billion)"
                                 "Profits ($billion)" g)
      = OK ("Correlation between " ++ "Sales ($billion)" ++ " and "
            ++ "Profits ($billion)" ++ ": " ++ format_2f S754_nan)%string.
Proof.
  assert (L : level (map float_of_nat [5; 5; 5])).
  { exists (float_of_nat 5). split; [repeat constructor | reflexivity]. }
  split; [reflexivity | ].
  split; [reflexivity | ].
  split; [exact L | ].
  exact (@correlation_nan_when_undefined fives "Sales ($billion)"
           "Profits ($billion)" (map float_of_nat [5; 5; 5])
           (map float_of_nat [5; 5; 5]) eq_refl eq_refl
           (or_intror (or_introl L))).
Defined.

(** Sales and profits of 0.1 each: three times 0.1 does not add up to
    0.3, the mean is not 0.1, and the two constant columns correlate
    as 1.0. *)
Lemma correlation_of_constant_tenths :
  getitem tenths "Sales ($billion)" = OK (Float64 [tenth; tenth; tenth])
  /\ getitem tenths "Profits ($billion)" = OK (Float64 [tenth; tenth; tenth])
  /\ np_mean [tenth; tenth; tenth] <> tenth
  /\ correlation tenths "Sales ($billion)" "Profits ($billion)" = OK one
  /\ isnan one = false.
Proof.
  split; [reflexivity | ].
  split; [reflexivity | ].
  split; [vm_compute; discriminate | ].
  split; [vm_compute; reflexivity | reflexivity].
Qed.

(** The sales of [three_rows], 10, 30 and 20, against themselves. *)
Lemma self_correlation_witness :
  getitem three_rows "Sales ($billion)"
  = OK (Float64 (map float_of_pos [10; 30; 20]%positive))
  /\ exists q : float64,
      correlation three_rows "Sales ($billion)" "Sales ($billion)" = OK q
      /\ q = (if existsb notna (map float_of_pos [10; 30; 20]%positive)
              then self_quotient
                     (variance
                        (filter notna (map float_of_pos [10; 30; 20]%positive)))
              else S754_nan)
      /\ (isnan q = true
          \/ (flt q minus_one = false /\ flt one q = false))
      /\ (zero_or_nan
            (variance (filter notna (map float_of_pos [10; 30; 20]%positive)))
          = true
          \/ inf_or_nan
               (variance
                  (filter notna (map float_of_pos [10; 30; 20]%positive)))
             = true ->
          isnan q = true).
Proof.
  split; [reflexivity | ].
  exact (@self_correlation three_rows "Sales ($billion)"
           (map float_of_pos [10; 30; 20]%positive) eq_refl).
Defined.

(** Sales of 0 and 2, of variance 2, correlate with themselves as
    0.9999999999999999; sales of 0 and 2^600, whose variance overflows,
    as NaN. *)
Lemma self_correlation_not_one :
  variance (map float_of_nat [0; 2]) = float_of_nat 2
  /\ correlation zero_two "Sales ($billion)" "Sales ($billion)"
     = OK below_one
  /\ flt below_one one = true
  /\ variance [float_of_nat 0; huge] = S754_infinity false
  /\ correlation zero_huge "Sales ($billion)" "Sales ($billion)"
     = OK S754_nan.
Proof. repeat split; vm_compute; reflexivity. Qed.

(** The request of the written example: one column that is there, one
    that is not. *)
Lemma means_fall_back_to_zero_witness :
  getitem three_rows "NoSuchColumn" = Raise KeyError
  /\ Forall (fun c => exists m,
                 column_mean sequential_nanmean three_rows c = OK m)
            ["Sales ($billion)"]
  /\ safeColumnMeans sequential_nanmean three_rows
                     ["Sales ($billion)"; "NoSuchColumn"]
     = OK [PyInt 0; PyInt 0]
  /\ (forall l,
        safeColumnMeans sequential_nanmean three_rows
                        ["Sales ($billion)"; "NoSuchColumn"] = OK l ->
        combine ["Sales ($billion)"; "NoSuchColumn"] l
        = [("Sales ($billion)", PyInt 0); ("NoSuchColumn", PyInt 0)]).
Proof.
  assert (H : Forall (fun c => exists m,
                          column_mean sequential_nanmean three_rows c = OK m)
                     ["Sales ($billion)"])
    by (repeat constructor; eexists; reflexivity).
  split; [reflexivity | ].
  split; [exact H | ].
  exact (@means_fall_back_to_zero sequential_nanmean three_rows
           ["Sales ($billion)"] "NoSuchColumn" [] eq_refl H).
Defined.

(** A text column requested ahead of the missing one: the mean of
    [Company] raises [TypeError], which [except KeyError] lets through,
    whatever routine computes means. *)
Lemma means_raise_on_text :
  getitem three_rows "NoSuchColumn" = Raise KeyError
  /\ (fun nanmean =>
        safeColumnMeans nanmean three_rows ["Company"; "NoSuchColumn"])
     = (fun _ => Raise TypeError).
Proof. split; reflexivity. Qed.

(** No company of [three_rows] is African. *)
Lemma rank_no_match_empty_witness :
  argsort_spec stable_argsort
  /\ wf three_rows
  /\ Forall (fun c => cell_eq_str "Africa" c = false)
            (map CStr ["Asia"; "Asia"; "Europe"])
  /\ exists r : DataFrame,
      rankByMetric stable_argsort no_object_sort three_rows "Africa" Sales 5
      = OK r
      /\ index r = []
      /\ Forall (fun c => series_len (snd c) = 0) (columns r).
Proof.
  split; [exact Insertion.stable_argsort_spec | ].
  split; [sample_frame | ].
  split; [sample_frame | ].
  eapply (rank_no_match_empty (argsort:=stable_argsort) no_object_sort
            Insertion.stable_argsort_spec (d:=three_rows) "Africa" Sales 5);
    sample_frame.
Defined.

(** Top 5 of the three Asian rows of [tied_rows]. *)
Lemma rank_length_min_witness :
  argsort_spec stable_argsort
  /\ wf tied_rows
  /\ (0 <= 5)%Z
  /\ exists r f : DataFrame,
      rankByMetric stable_argsort no_object_sort tied_rows "Asia" Sales 5
      = OK r
      /\ filter_continent tied_rows "Asia" = OK f
      /\ nrows f = 3
      /\ nrows r = Nat.min (Z.to_nat 5) (nrows f)
      /\ ((Z.of_nat (nrows f) <= 5)%Z ->
          exists idx : list nat,
            Permutation idx (seq 0 (nrows f))
            /\ r = frame_map (fun A => @picks A idx) f).
Proof.
  split; [exact Insertion.stable_argsort_spec | ].
  split; [sample_frame | ].
  split; [lia | ].
  apply (rank_length_min (argsort:=stable_argsort) no_object_sort
           Insertion.stable_argsort_spec (d:=tied_rows)
           (cont:=Object (map CStr ["Asia"; "Asia"; "Asia"]))
           (keys:=map float_of_pos [10; 10; 30]%positive)
           "Asia" Sales (top_n:=5));
    sample_frame.
Defined.

(** * Beyond the claims *)

(** ** The rows shown are rows of the frame *)

Lemma firstn_picks {A : Type} (k : nat) (p : list nat) (l : list A) :
  in_range l p -> firstn k (picks p l) = picks (firstn k p) l.
Proof.
  intros R. revert k. induction R as [ | i p Hi _ IH]; intros k.
  - now rewrite !firstn_nil.
  - apply nth_error_Some in Hi.
    destruct (nth_error l i) as [x | ] eqn:E; [ | congruence].
    rewrite (@picks_cons_in _ i p l x E).
    destruct k as [ | k]; [reflexivity | ]. simpl firstn.
    now rewrite (@picks_cons_in _ i (firstn k p) l x E), IH.
Qed.

Lemma head_list_picks {A : Type} (n : Z) (p : list nat) (l : list A) :
  in_range l p -> head_list n (picks p l) = picks (head_list n p) l.
Proof.
  intros R. unfold head_list. rewrite (picks_length R). now apply firstn_picks.
Qed.

Lemma In_picks {A : Type} (p : list nat) (l : list A) (x : A) :
  In x (picks p l) -> exists i, In i p /\ nth_error l i = Some x.
Proof.
  unfold picks. intros H. apply in_flat_map in H. destruct H as (i & Hi & H).
  exists i. split; [exact Hi | ].
  destruct (nth_error l i) as [y | ]; [ | contradiction].
  destruct H as [-> | []]. reflexivity.
Qed.

Lemma picks_NoDup {A : Type} (p : list nat) (l : list A) :
  NoDup p -> NoDup l -> in_range l p -> NoDup (picks p l).
Proof.
  intros Np Nl R. induction R as [ | i p Hi R IH]; [constructor | ].
  inversion Np as [ | ? ? Ni Np']; subst.
  assert (Hi' := Hi). apply nth_error_Some in Hi'.
  destruct (nth_error l i) as [x | ] eqn:E; [ | congruence].
  rewrite (@picks_cons_in _ i p l x E). constructor; [ | now apply IH].
  intros Hx. apply In_picks in Hx. destruct Hx as (j & Hj & Ej).
  apply Ni. replace i with j; [exact Hj | ].
  apply (proj1 (NoDup_nth_error l) Nl); [ | congruence].
  apply nth_error_Some. congruence.
Qed.

Lemma firstn_NoDup {A : Type} (k : nat) (l : list A) :
  NoDup l -> NoDup (firstn k l).
Proof.
  intros N. rewrite <- (firstn_skipn k l) in N.
  now apply NoDup_app_remove_r in N.
Qed.

Lemma nonzero_from_In (k i : nat) (mask : list bool) :
  In i (nonzero_from k mask) <-> k <= i /\ nth_error mask (i - k) = Some true.
Proof.
  revert k. induction mask as [ | b mask IH]; intros k; simpl.
  - split; [contradiction | ]. intros [_ H]. now destruct (i - k).
  - assert (S : forall j, k <= j -> j <> k ->
                          nth_error (b :: mask) (j - k)
                          = nth_error mask (j - S k)).
    { intros j L N. replace (j - k) with (S (j - S k)) by lia. reflexivity. }
    destruct b; simpl; rewrite IH; split.
    + intros [<- | [L H]].
      * split; [lia | ]. now rewrite Nat.sub_diag.
      * split; [lia | ]. rewrite S by lia. exact H.
    + intros [L H]. destruct (Nat.eq_dec k i) as [E | N]; [now left | right].
      split; [lia | ]. rewrite <- S by lia. exact H.
    + intros [L H]. split; [lia | ]. rewrite S by lia. exact H.
    + intros [L H]. destruct (Nat.eq_dec i k) as [-> | N].
      * rewrite Nat.sub_diag in H. discriminate.
      * split; [lia | ]. rewrite <- S by lia. exact H.
Qed.

Lemma nonzero_In (i : nat) (mask : list bool) :
  In i (nonzero mask) <-> nth_error mask i = Some true.
Proof.
  unfold nonzero. rewrite nonzero_from_In, Nat.sub_0_r.
  split; [now intros [_ H] | intros H; split; [lia | exact H]].
Qed.

Lemma nonzero_from_NoDup (k : nat) (mask : list bool) :
  NoDup (nonzero_from k mask).
Proof.
  revert k. induction mask as [ | b mask IH]; intros k; simpl; [constructor | ].
  destruct b; [ | apply IH]. constructor; [ | apply IH].
  intros H. apply nonzero_from_In in H. lia.
Qed.

Section Shown.

Variable argsort : list float64 -> list nat.
Variable nargsort_object : list cell -> Exc (list nat).
Hypothesis argsort_ok : argsort_spec argsort.

Variable d : DataFrame.
Variable cont : Series.
Variable keys : list float64.
Variable continent : string.
Variable metric : Metric.
Hypothesis d_wf : wf d.
Hypothesis d_continent : getitem d "Continent" = OK cont.
Hypothesis d_metric : getitem d (metric_label metric) = OK (Float64 keys).

Lemma order_in_range {A : Type} (l : list A) :
  length l = nrows d ->
  in_range (masked cont continent l) (order argsort cont keys continent).
Proof.
  intros E. apply (@indexer_in_range argsort argsort_ok).
  now apply (@filtered_nrows d cont keys continent metric d_wf d_metric).
Qed.

Lemma chosen_in_range {A : Type} (l : list A) :
  length l = nrows d -> in_range l (nonzero (chosen cont continent)).
Proof.
  intros E. apply nonzero_in_range.
  now rewrite (@chosen_length d cont continent d_wf d_continent).
Qed.

(** One column through lines 40-41: its entries at the positions
    [shown]. *)
Lemma ranked_shown {A : Type} (top_n : Z) (l : list A) :
  length l = nrows d ->
  ranked argsort cont keys continent top_n l
  = picks (shown argsort cont keys continent top_n) l.
Proof.
  intros E. unfold ranked, sorted, shown.
  assert (M : masked cont continent l
              = picks (nonzero (chosen cont continent)) l).
  { unfold masked. symmetry. apply picks_nonzero.
    now rewrite (@chosen_length d cont continent d_wf d_continent). }
  rewrite M, picks_picks by exact (chosen_in_range l E).
  apply head_list_picks.
  unfold in_range. apply Forall_forall. intros i Hi.
  apply picks_incl in Hi.
  apply (proj1 (Forall_forall _ _) (chosen_in_range l E)), Hi.
Qed.

Lemma rank_shown (top_n : Z) :
  rankByMetric argsort nargsort_object d continent metric top_n
  = OK (frame_map (fun A => @picks A (shown argsort cont keys continent top_n))
                  d).
Proof.
  rewrite (@rankByMetric_eq argsort nargsort_object argsort_ok d cont keys
             continent metric d_wf d_continent d_metric top_n).
  f_equal. apply frame_map_ext; [exact d_wf | ].
  intros A l E. now apply ranked_shown.
Qed.

Lemma shown_NoDup (top_n : Z) :
  NoDup (shown argsort cont keys continent top_n).
Proof.
  unfold shown, head_list. apply firstn_NoDup. apply picks_NoDup.
  - apply (Permutation_NoDup
             (Permutation_sym (indexer_perm argsort_ok _))), seq_NoDup.
  - apply nonzero_from_NoDup.
  - apply perm_in_range. unfold order, chosen_keys.
    rewrite <- (@compress_length float64 (chosen cont continent) keys).
    + apply (indexer_perm argsort_ok).
    + rewrite (@chosen_length d cont continent d_wf d_continent).
      symmetry. apply (@keys_length d keys metric d_wf d_metric).
Qed.

Lemma shown_chosen (top_n : Z) (i : nat) :
  In i (shown argsort cont keys continent top_n) ->
  nth_error (series_cells cont) i = Some (CStr continent).
Proof.
  intros H. unfold shown in H. apply head_list_In, picks_incl in H.
  apply nonzero_In in H. unfold chosen, series_eq in H.
  rewrite nth_error_map in H.
  destruct (nth_error (series_cells cont) i) as [x | ]; [ | discriminate].
  simpl in H. injection H as H.
  destruct x as [s | f]; simpl in H; [ | discriminate].
  apply String.eqb_eq in H. now subst.
Qed.

(** The keys of the rows shown, then those of the matching rows left
    out: the matching keys, rearranged; and each of the first before
    each of the second in the descending order. *)
Lemma shown_dominate (top_n : Z) :
  let all := picks (order argsort cont keys continent)
                   (chosen_keys cont keys continent) in
  let k := slice_stop top_n (length all) in
  ranked argsort cont keys continent top_n keys = firstn k all
  /\ Permutation (firstn k all ++ skipn k all)
                 (chosen_keys cont keys continent)
  /\ Forall (fun a => Forall (desc a) (skipn k all)) (firstn k all).
Proof.
  intros all k. split; [reflexivity | ]. split.
  - rewrite firstn_skipn. apply picks_perm, (indexer_perm argsort_ok).
  - assert (S : StronglySorted desc all)
      by apply (nargsort_desc argsort_ok).
    rewrite <- (firstn_skipn k all) in S.
    clear - S. induction (firstn k all) as [ | a l IH]; [constructor | ].
    simpl in S. inversion S as [ | ? ? S' F]; subst.
    constructor; [ | now apply IH].
    apply Forall_app in F. apply F.
Qed.

End Shown.

Lemma series_cells_at (idx : list nat) (s : Series) :
  series_cells (series_map (fun A => @picks A idx) s)
  = picks idx (series_cells s).
Proof. destruct s; simpl; [now rewrite picks_map | reflexivity]. Qed.

Lemma nth_error_combine_inv {A B : Type} (i : nat) (l : list A) (l' : list B)
      (x : A) (y : B) :
  nth_error (combine l l') i = Some (x, y) ->
  nth_error l i = Some x /\ nth_error l' i = Some y.
Proof.
  revert l l'. induction i; intros [ | a l] [ | b l']; simpl;
    try discriminate.
  - intros H. inversion H. now split.
  - apply IHi.
Qed.

(** X1.  Lines 40-41 never make up a row: the frame they return is the
    dataset read at a list of row positions, the same list for the
    index and for every column, so the entries of one returned row
    all come from one dataset row; no position comes twice, and every
    position is that of a row whose [Continent] is the chosen one. *)
Theorem ranked_rows_are_dataset_rows :
  forall (argsort : list float64 -> list nat)
         (nargsort_object : list cell -> Exc (list nat)),
    argsort_spec argsort ->
    forall (d : DataFrame) (cont : Series) (keys : list float64)
           (continent : string) (metric : Metric) (top_n : Z),
      wf d ->
      getitem d "Continent" = OK cont ->
      getitem d (metric_label metric) = OK (Float64 keys) ->
      exists pos : list nat,
        rankByMetric argsort nargsort_object d continent metric top_n
        = OK (frame_map (fun A => @picks A pos) d)
        /\ NoDup pos
        /\ Forall (fun i => nth_error (series_cells cont) i
                            = Some (CStr continent)) pos.
Proof.
  intros argsort nargsort_object Hs d cont keys continent metric top_n
         W Hc Hm.
  exists (shown argsort cont keys continent top_n). repeat split.
  - now apply rank_shown.
  - now apply (@shown_NoDup argsort Hs d cont keys continent metric).
  - apply Forall_forall. intros i Hi. now apply shown_chosen in Hi.
Qed.

(** X2.  The rows shown are the largest: the metric values shown,
    followed by the values of the matching rows left out, are the
    metric values of all matching rows rearranged, and every value
    shown stands before every value left out in the descending order
    (a present value is not below it, a missing one comes last). *)
Theorem shown_rows_are_the_largest :
  forall (argsort : list float64 -> list nat)
         (nargsort_object : list cell -> Exc (list nat)),
    argsort_spec argsort ->
    forall (d : DataFrame) (cont : Series) (keys : list float64)
           (continent : string) (metric : Metric) (top_n : Z),
      wf d ->
      getitem d "Continent" = OK cont ->
      getitem d (metric_label metric) = OK (Float64 keys) ->
      exists (r : DataFrame) (shown_keys left_out : list float64),
        rankByMetric argsort nargsort_object d continent metric top_n = OK r
        /\ getitem r (metric_label metric) = OK (Float64 shown_keys)
        /\ Permutation (shown_keys ++ left_out)
                       (compress (series_eq cont continent) keys)
        /\ Forall (fun a => Forall (desc a) left_out) shown_keys.
Proof.
  intros argsort nargsort_object Hs d cont keys continent metric top_n
         W Hc Hm.
  destruct (@shown_dominate argsort Hs cont keys continent top_n)
    as (E & P & D).
  exists (frame_map (ranked argsort cont keys continent top_n) d),
    (ranked argsort cont keys continent top_n keys),
    (skipn (slice_stop top_n
              (length (picks (order argsort cont keys continent)
                             (chosen_keys cont keys continent))))
           (picks (order argsort cont keys continent)
                  (chosen_keys cont keys continent))).
  repeat split.
  - now apply rankByMetric_eq.
  - now apply (getitem_frame_map (ranked argsort cont keys continent top_n))
      in Hm.
  - rewrite E. exact P.
  - rewrite E. exact D.
Qed.

(** X3.  The bars of line 46: on a frame that also has a [Company]
    column, [ax.barh] receives as many labels as widths, the widths
    in descending order, and each label with the width of its own
    row: label and width are the [Company] and the metric value of
    one dataset row of the chosen continent. *)
Theorem bars_are_rows :
  forall (argsort : list float64 -> list nat)
         (nargsort_object : list cell -> Exc (list nat)),
    argsort_spec argsort ->
    forall (d : DataFrame) (cont company : Series) (keys : list float64)
           (continent : string) (metric : Metric) (top_n : Z),
      wf d ->
      getitem d "Continent" = OK cont ->
      getitem d (metric_label metric) = OK (Float64 keys) ->
      getitem d "Company" = OK company ->
      exists (r : DataFrame) (y : Series) (widths : list float64),
        rankByMetric argsort nargsort_object d continent metric top_n = OK r
        /\ bars r metric = OK (y, Float64 widths)
        /\ length (series_cells y) = length widths
        /\ StronglySorted desc widths
        /\ Forall (fun b =>
                     exists i : nat,
                       nth_error (series_cells company) i = Some (fst b)
                       /\ nth_error keys i = Some (snd b)
                       /\ nth_error (series_cells cont) i
                          = Some (CStr continent))
                  (combine (series_cells y) widths).
Proof.
  intros argsort nargsort_object Hs d cont company keys continent metric
         top_n W Hc Hm Hy.
  set (pos := shown argsort cont keys continent top_n).
  assert (Lc : length (series_cells company) = length keys).
  { rewrite series_cells_map_len, (@getitem_len d _ _ W Hy).
    symmetry. apply (@getitem_len d _ _ W Hm). }
  assert (Lk : length keys = nrows d) by apply (@getitem_len d _ _ W Hm).
  exists (frame_map (fun A => @picks A pos) d),
    (series_map (fun A => @picks A pos) company), (picks pos keys).
  split; [now apply rank_shown | ]. split.
  { unfold bars.
    rewrite (@getitem_frame_map (fun A => @picks A pos) d _ _ Hy). simpl.
    now rewrite (@getitem_frame_map (fun A => @picks A pos) d _ _ Hm). }
  rewrite series_cells_at. split; [ | split].
  - apply picks_uniform. exact Lc.
  - unfold pos.
    rewrite <- (@ranked_shown argsort d cont keys continent W Hc
                              float64 top_n keys Lk).
    unfold ranked, head_list. apply StronglySorted_firstn.
    apply (nargsort_desc Hs).
  - rewrite <- picks_combine by exact Lc.
    apply Forall_forall. intros [a b] Hb.
    apply In_picks in Hb. destruct Hb as (i & Hi & Hb).
    apply nth_error_combine_inv in Hb. destruct Hb as [Ha Hb].
    exists i. repeat split; [exact Ha | exact Hb | ].
    now apply shown_chosen in Hi.
Qed.

(** ** How the slider, the columns and the lookups behave *)

Lemma frame_map_ext_all (f g : forall A : Type, list A -> list A)
      (d : DataFrame) :
  (forall (A : Type) (l : list A), f A l = g A l) ->
  frame_map f d = frame_map g d.
Proof.
  intros E. unfold frame_map. f_equal; [apply E | ].
  apply map_ext. intros [n [l | l]]; simpl; now rewrite E.
Qed.

Lemma head_list_head_list {A : Type} (n1 n2 : Z) (l : list A) :
  (0 <= n1 <= n2)%Z -> head_list n1 (head_list n2 l) = head_list n1 l.
Proof.
  intros H. rewrite !head_list_nonneg by lia.
  rewrite firstn_firstn. f_equal. lia.
Qed.

(** X4.  Moving the slider down only cuts rows off the end: for
    0 <= n1 <= n2, lines 40-41 with [top_n = n1] give the first [n1]
    rows of what they give with [top_n = n2], and raise what they
    raise with [n2]. *)
Theorem smaller_top_n_is_a_prefix :
  forall (argsort : list float64 -> list nat)
         (nargsort_object : list cell -> Exc (list nat))
         (d : DataFrame) (continent : string) (metric : Metric) (n1 n2 : Z),
    (0 <= n1 <= n2)%Z ->
    rankByMetric argsort nargsort_object d continent metric n1
    = (r <- rankByMetric argsort nargsort_object d continent metric n2 ;;
       OK (head n1 r)).
Proof.
  intros argsort nargsort_object d continent metric n1 n2 H.
  unfold rankByMetric.
  destruct (filter_continent d continent) as [f | e]; simpl; [ | reflexivity].
  destruct (sort_values argsort nargsort_object f (metric_label metric))
    as [s | e]; simpl; [ | reflexivity].
  f_equal. unfold head. rewrite frame_map_compose.
  apply frame_map_ext_all. intros A l. symmetry.
  now apply head_list_head_list.
Qed.

Lemma take_columns_schema (idx : list nat) (cols cols' : list (string * Series)) :
  mapM (fun c => s <- series_take idx (snd c) ;; OK (fst c, s)) cols = OK cols' ->
  map (fun c => (fst c, is_float64 (snd c))) cols'
  = map (fun c => (fst c, is_float64 (snd c))) cols.
Proof.
  revert cols'. induction cols as [ | [n s] cols IH]; simpl; intros cols' H.
  - now inversion H.
  - destruct (series_take idx s) as [s' | e] eqn:E; simpl in H;
      [ | discriminate].
    destruct (mapM _ cols) as [cs | e]; simpl in H; [ | discriminate].
    inversion H; subst. simpl. rewrite (IH cs eq_refl). f_equal. f_equal.
    destruct s as [l | l]; simpl in E; destruct (take idx l); simpl in E;
      try discriminate; now inversion E.
Qed.

Lemma frame_take_schema (idx : list nat) (d r : DataFrame) :
  frame_take idx d = OK r -> schema r = schema d.
Proof.
  unfold frame_take, schema.
  destruct (take idx (index d)) as [ix | e]; simpl; [ | discriminate].
  destruct (mapM _ (columns d)) as [cs | e] eqn:E; simpl; [ | discriminate].
  intros H. inversion H; subst. simpl. now apply take_columns_schema with idx.
Qed.

Lemma frame_map_schema (f : forall A : Type, list A -> list A) (d : DataFrame) :
  schema (frame_map f d) = schema d.
Proof.
  unfold schema, frame_map. simpl. rewrite map_map.
  apply map_ext. intros [n [l | l]]; reflexivity.
Qed.

(** X5.  Lines 40-41 keep the table's columns: the frame they return
    has the columns of [df], under the same names, in the same order
    and of the same dtypes - whatever the sort key's dtype and
    whatever routine sorts. *)
Theorem ranking_keeps_the_columns :
  forall (argsort : list float64 -> list nat)
         (nargsort_object : list cell -> Exc (list nat))
         (d r : DataFrame) (continent : string) (metric : Metric) (top_n : Z),
    rankByMetric argsort nargsort_object d continent metric top_n = OK r ->
    schema r = schema d.
Proof.
  intros argsort nargsort_object d r continent metric top_n.
  unfold rankByMetric, filter_continent, getitem_bool, sort_values.
  destruct (getitem d "Continent") as [c | e]; simpl; [ | discriminate].
  destruct (frame_take (nonzero (series_eq c continent)) d) as [f | e] eqn:F;
    simpl; [ | discriminate].
  destruct (getitem f (metric_label metric)) as [k | e]; simpl;
    [ | discriminate].
  destruct (match k with
            | Float64 items => nargsort argsort items
            | Object items => nargsort_object items
            end) as [indexer | e]; simpl; [ | discriminate].
  destruct (frame_take indexer f) as [s | e] eqn:S; simpl; [ | discriminate].
  intros H. inversion H; subst. unfold head.
  rewrite frame_map_schema, (frame_take_schema _ _ S).
  now apply frame_take_schema with (nonzero (series_eq c continent)).
Qed.

Lemma getitem_raise (d : DataFrame) (c : string) (e : exn) :
  getitem d c = Raise e -> e = KeyError.
Proof.
  unfold getitem. destruct (lookup c (columns d)); [discriminate | ].
  intros H. now inversion H.
Qed.

Lemma getitem_frame_map_raise (f : forall A : Type, list A -> list A)
      (d : DataFrame) (c : string) :
  getitem d c = Raise KeyError -> getitem (frame_map f d) c = Raise KeyError.
Proof.
  unfold getitem, frame_map. simpl. rewrite lookup_map.
  destruct (lookup c (columns d)); [discriminate | reflexivity].
Qed.

(** X6.  Lines 40-41 have no fallback: on a frame without a
    [Continent] column, or without the column of the chosen metric,
    they raise [KeyError] - also when no row would match. *)
Theorem ranking_raises_on_missing_column :
  forall (argsort : list float64 -> list nat)
         (nargsort_object : list cell -> Exc (list nat))
         (d : DataFrame) (continent : string) (metric : Metric) (top_n : Z),
    wf d ->
    getitem d "Continent" = Raise KeyError
    \/ getitem d (metric_label metric) = Raise KeyError ->
    rankByMetric argsort nargsort_object d continent metric top_n
    = Raise KeyError.
Proof.
  intros argsort nargsort_object d continent metric top_n W H.
  unfold rankByMetric.
  destruct (getitem d "Continent") as [cont | e] eqn:Hc.
  - destruct H as [H | H]; [discriminate | ].
    rewrite (@filter_continent_eq d cont continent W Hc). simpl.
    unfold sort_values.
    now rewrite (getitem_frame_map_raise (masked cont continent) d _ H).
  - apply getitem_raise in Hc as E. subst e.
    unfold filter_continent. now rewrite Hc.
Qed.

(** X7.  Lines 40-41 read the index, the [Continent] column and the
    metric column, and nothing else: two frames that agree on these
    get the same rows in the same order, whatever their other columns
    hold. *)
Theorem ranking_reads_two_columns :
  forall (argsort : list float64 -> list nat)
         (nargsort_object : list cell -> Exc (list nat)),
    argsort_spec argsort ->
    forall (d d' : DataFrame) (cont : Series) (keys : list float64)
           (continent : string) (metric : Metric) (top_n : Z),
      wf d -> wf d' ->
      index d = index d' ->
      getitem d "Continent" = OK cont ->
      getitem d' "Continent" = OK cont ->
      getitem d (metric_label metric) = OK (Float64 keys) ->
      getitem d' (metric_label metric) = OK (Float64 keys) ->
      exists r r' : DataFrame,
        rankByMetric argsort nargsort_object d continent metric top_n = OK r
        /\ rankByMetric argsort nargsort_object d' continent metric top_n
           = OK r'
        /\ index r = index r'
        /\ getitem r "Continent" = getitem r' "Continent"
        /\ getitem r (metric_label metric) = getitem r' (metric_label metric).
Proof.
  intros argsort nargsort_object Hs d d' cont keys continent metric top_n
         W W' Hi Hc Hc' Hm Hm'.
  exists (frame_map (ranked argsort cont keys continent top_n) d),
    (frame_map (ranked argsort cont keys continent top_n) d').
  split; [now apply rankByMetric_eq | ].
  split; [now apply rankByMetric_eq | ].
  split; [simpl; now rewrite Hi | ].
  split.
  - rewrite (@getitem_frame_map _ d _ _ Hc).
    now rewrite (@getitem_frame_map _ d' _ _ Hc').
  - rewrite (@getitem_frame_map _ d _ _ Hm).
    now rewrite (@getitem_frame_map _ d' _ _ Hm').
Qed.

(** ** The select box *)

Lemma SFeqb_refl (a : float64) : isnan a = false -> SFeqb a a = true.
Proof.
  unfold SFeqb. destruct a as [s | s | | s m e]; try discriminate; intros _;
    simpl; try (destruct s; reflexivity).
  destruct s; rewrite Z.compare_refl;
    change (Pos.compare_cont Eq m m) with (Pos.compare m m);
    now rewrite Pos.compare_refl.
Qed.

Lemma SFeqb_sym (a b : float64) : SFeqb a b = SFeqb b a.
Proof.
  unfold SFeqb.
  destruct a as [sa | sa | | sa ma ea], b as [sb | sb | | sb mb eb]; simpl;
    try reflexivity;
    repeat match goal with s : bool |- _ => destruct s end; simpl;
    try reflexivity;
    change (Pos.compare_cont Eq ?x ?y) with (Pos.compare x y);
    rewrite (Z.compare_antisym ea eb), (Pos.compare_antisym ma mb);
    destruct (Z.compare ea eb); simpl; try reflexivity;
    destruct (Pos.compare ma mb); reflexivity.
Qed.

Lemma cell_same_refl (x : cell) : cell_same x x = true.
Proof.
  destruct x as [s | f]; simpl; [apply String.eqb_refl | ].
  destruct (isnan f) eqn:N; [now rewrite orb_true_r | ].
  now rewrite SFeqb_refl.
Qed.

Lemma cell_same_sym (x y : cell) : cell_same x y = cell_same y x.
Proof.
  destruct x as [s | a], y as [t | b]; simpl; try reflexivity.
  - apply String.eqb_sym.
  - now rewrite SFeqb_sym, (andb_comm (isnan a)).
Qed.

Lemma uniques_new (seen l : list cell) (x : cell) :
  In x (uniques seen l) -> In x l /\ existsb (cell_same x) seen = false.
Proof.
  revert seen. induction l as [ | y l IH]; intros seen; simpl; [contradiction | ].
  destruct (existsb (cell_same y) seen) eqn:E.
  - intros H. destruct (IH _ H). auto.
  - intros [<- | H]; [auto | ].
    destruct (IH _ H) as [I N]. split; [auto | ].
    simpl in N. now apply orb_false_iff in N.
Qed.

Lemma uniques_cover (seen l : list cell) (x : cell) :
  In x l ->
  existsb (cell_same x) seen = true
  \/ exists y, In y (uniques seen l) /\ cell_same x y = true.
Proof.
  revert seen. induction l as [ | z l IH]; intros seen; simpl; [contradiction | ].
  intros [-> | H].
  - destruct (existsb (cell_same x) seen) eqn:E; [now left | right].
    exists x. split; [now left | apply cell_same_refl].
  - destruct (existsb (cell_same z) seen) eqn:E; [now apply IH | ].
    destruct (IH (z :: seen) H) as [S | (y & Hy & S)].
    + simpl in S. apply orb_true_iff in S. destruct S as [S | S].
      * right. exists z. split; [now left | exact S].
      * now left.
    + right. exists y. split; [now right | exact S].
Qed.

Lemma uniques_distinct (seen l : list cell) :
  ForallOrdPairs (fun a b => cell_same a b = false) (uniques seen l).
Proof.
  revert seen. induction l as [ | x l IH]; intros seen; simpl; [constructor | ].
  destruct (existsb (cell_same x) seen); [apply IH | ].
  constructor; [ | apply IH].
  apply Forall_forall. intros y Hy. apply uniques_new in Hy.
  destruct Hy as [_ N]. simpl in N. apply orb_false_iff in N.
  rewrite cell_same_sym. apply N.
Qed.

(** X8.  The select box of line 35 lists every continent once: each
    option is an entry of the [Continent] column, each entry of the
    column is one of the options (or, for a gap, the option NaN), and
    no two options are the same. *)
Theorem continent_options_once_each :
  forall (d : DataFrame) (cont : Series),
    getitem d "Continent" = OK cont ->
    exists options : list cell,
      continent_options d = OK options
      /\ incl options (series_cells cont)
      /\ (forall x, In x (series_cells cont) ->
                    exists y, In y options /\ cell_same x y = true)
      /\ ForallOrdPairs (fun a b => cell_same a b = false) options.
Proof.
  intros d cont H. exists (Series_unique cont).
  unfold continent_options. rewrite H. simpl.
  split; [reflexivity | ]. unfold Series_unique. repeat split.
  - intros x Hx. now apply uniques_new in Hx.
  - intros x Hx.
    destruct (uniques_cover [] (series_cells cont) x Hx) as [S | S];
      [discriminate | exact S].
  - apply uniques_distinct.
Qed.

Lemma getitem_bool_compress (d : DataFrame) (mask : list bool) :
  wf d -> length mask = nrows d ->
  getitem_bool d mask = OK (frame_map (fun A => @compress A mask) d).
Proof.
  intros W L. unfold getitem_bool. rewrite frame_take_picks.
  - f_equal. apply frame_map_ext; [exact W | ].
    intros A l E. apply picks_nonzero. now rewrite L.
  - exact W.
  - eapply Forall_impl; [ | apply nonzero_from_bounds].
    simpl. rewrite L. intros; lia.
Qed.

Lemma series_eq_cell_text (s : Series) (c : string) :
  series_eq_cell s (CStr c) = series_eq s c.
Proof.
  unfold series_eq_cell, series_eq. apply map_ext.
  intros [t | f]; reflexivity.
Qed.

(** On a text, the select box's value, lines 40-41 are [rankByMetric]. *)
Lemma rank_choice_text (argsort : list float64 -> list nat)
      (nargsort_object : list cell -> Exc (list nat)) (d : DataFrame)
      (c : string) (metric : Metric) (top_n : Z) :
  rank_choice argsort nargsort_object d (CStr c) metric top_n
  = rankByMetric argsort nargsort_object d c metric top_n.
Proof.
  unfold rank_choice, rankByMetric, filter_continent.
  destruct (getitem d "Continent") as [s | e]; simpl; [ | reflexivity].
  now rewrite series_eq_cell_text.
Qed.

Lemma head_list_nil {A : Type} (n : Z) : head_list n (@nil A) = [].
Proof. unfold head_list. apply firstn_nil. Qed.

(** X9.  A continent the select box offers always has something to
    show: for a text among the options of line 35 and [top_n] at
    least 1 (the slider gives 5 to 50), lines 40-41 return at least
    one row, and at most [top_n]. *)
Theorem offered_continent_shows_rows :
  forall (argsort : list float64 -> list nat)
         (nargsort_object : list cell -> Exc (list nat)),
    argsort_spec argsort ->
    forall (d : DataFrame) (options : list cell) (keys : list float64)
           (continent : string) (metric : Metric) (top_n : Z),
      wf d ->
      continent_options d = OK options ->
      In (CStr continent) options ->
      getitem d (metric_label metric) = OK (Float64 keys) ->
      (1 <= top_n)%Z ->
      exists r : DataFrame,
        rank_choice argsort nargsort_object d (CStr continent) metric top_n
        = OK r
        /\ 1 <= nrows r
        /\ (Z.of_nat (nrows r) <= top_n)%Z.
Proof.
  intros argsort nargsort_object Hs d options keys continent metric top_n
         W Ho Hin Hm Hn.
  unfold continent_options in Ho.
  destruct (getitem d "Continent") as [cont | e] eqn:Hc; simpl in Ho;
    [ | discriminate].
  inversion Ho; subst options. clear Ho.
  apply uniques_new in Hin. destruct Hin as [Hin _].
  exists (frame_map (ranked argsort cont keys continent top_n) d).
  split; [rewrite rank_choice_text; now apply rankByMetric_eq | ].
  assert (N : nrows (frame_map (ranked argsort cont keys continent top_n) d)
              = Nat.min (Z.to_nat top_n)
                        (length (filter (cell_eq_str continent)
                                        (series_cells cont)))).
  { unfold nrows, ranked. simpl. rewrite head_list_length by lia. f_equal.
    rewrite (@sorted_length argsort Hs d cont keys continent metric W Hm
                            nat (index d) eq_refl).
    unfold chosen_keys. apply matching_count.
    rewrite (@getitem_len d _ _ W Hc). apply (@getitem_len d _ _ W Hm). }
  assert (P : 1 <= length (filter (cell_eq_str continent) (series_cells cont))).
  { assert (F : In (CStr continent)
                   (filter (cell_eq_str continent) (series_cells cont))).
    { apply filter_In. split; [exact Hin | apply String.eqb_refl]. }
    destruct (filter (cell_eq_str continent) (series_cells cont));
      [destruct F | simpl; lia]. }
  rewrite N. lia.
Qed.

(** X10.  When the [Continent] column has a gap the select box offers
    NaN as well, and choosing it shows nothing: NaN equals no entry,
    itself included, so lines 40-41 return a frame with no rows (and
    do not raise), whatever [top_n] is. *)
Theorem missing_choice_shows_nothing :
  forall (argsort : list float64 -> list nat)
         (nargsort_object : list cell -> Exc (list nat)),
    argsort_spec argsort ->
    forall (d : DataFrame) (cont : Series) (keys : list float64)
           (metric : Metric) (top_n : Z),
      wf d ->
      getitem d "Continent" = OK cont ->
      getitem d (metric_label metric) = OK (Float64 keys) ->
      exists r : DataFrame,
        rank_choice argsort nargsort_object d (CFloat S754_nan) metric top_n
        = OK r
        /\ index r = []
        /\ Forall (fun c => series_len (snd c) = 0) (columns r).
Proof.
  intros argsort nargsort_object Hs d cont keys metric top_n W Hc Hm.
  set (mask := series_eq_cell cont (CFloat S754_nan)).
  assert (Lm : length mask = nrows d).
  { unfold mask, series_eq_cell.
    rewrite length_map, series_cells_map_len. apply (@getitem_len d _ _ W Hc). }
  assert (F : forall (A : Type) (l : list A), compress mask l = []).
  { intros A l. apply compress_all_false. unfold mask, series_eq_cell.
    rewrite Forall_map. apply Forall_forall.
    intros [s | f] _; simpl; [reflexivity | ].
    unfold SFeqb. now destruct f. }
  set (f := frame_map (fun A => @compress A mask) d).
  assert (Wf : wf f) by (apply wf_frame_map; [apply compress_uniform | exact W]).
  assert (Kf : getitem f (metric_label metric) = OK (Float64 []))
    by (unfold f; rewrite (@getitem_frame_map _ d _ _ Hm); simpl;
        now rewrite F).
  set (idx := indexer_of argsort []).
  exists (head top_n (frame_map (fun A => @picks A idx) f)).
  split.
  - unfold rank_choice. rewrite Hc. simpl. fold mask.
    rewrite (getitem_bool_compress mask W Lm). simpl. fold f.
    unfold sort_values. rewrite Kf. simpl.
    rewrite (nargsort_eq Hs). simpl. fold idx.
    rewrite frame_take_picks; [reflexivity | exact Wf | ].
    unfold nrows, f. simpl. rewrite F.
    apply (@indexer_in_range argsort Hs nat [] []). reflexivity.
  - assert (E : forall (A : Type) (l : list A),
               head_list top_n (picks idx (compress mask l)) = []).
    { intros A l. now rewrite F, picks_nil, head_list_nil. }
    unfold head, f. rewrite !frame_map_compose. simpl. split; [apply E | ].
    rewrite Forall_map. apply Forall_forall.
    intros [n [l | l]] _; simpl; now rewrite E.
Qed.

(** ** The frame behind the map *)

Lemma getitem_list_columns (d : DataFrame) (cols : list string)
      (cs : list (string * Series)) :
  mapM (fun c => s <- getitem d c ;; OK (c, s)) cols = OK cs ->
  map fst cs = cols /\ Forall (fun c => getitem d (fst c) = OK (snd c)) cs.
Proof.
  revert cs. induction cols as [ | c cols IH]; simpl; intros cs H.
  - inversion H. split; constructor.
  - destruct (getitem d c) as [s | e] eqn:E; simpl in H; [ | discriminate].
    destruct (mapM _ cols) as [cs' | e]; simpl in H; [ | discriminate].
    inversion H; subst. destruct (IH cs' eq_refl) as [N F].
    split; [simpl; now rewrite N | now constructor].
Qed.

Lemma getitem_list_returns (d : DataFrame) (cols : list string) :
  Forall (fun c => exists s, getitem d c = OK s) cols ->
  exists cs, getitem_list d cols = OK (mkFrame (index d) cs).
Proof.
  intros H. unfold getitem_list.
  assert (X : exists cs,
             mapM (fun c => s <- getitem d c ;; OK (c, s)) cols = OK cs).
  { induction H as [ | c cols [s Hc] _ [cs IH]]; simpl; [now exists [] | ].
    rewrite Hc, IH. simpl. eauto. }
  destruct X as [cs X]. rewrite X. simpl. eauto.
Qed.

Lemma getitem_list_raises (d : DataFrame) (cols : list string) (c : string) :
  In c cols -> getitem d c = Raise KeyError ->
  getitem_list d cols = Raise KeyError.
Proof.
  intros Hin Hc. unfold getitem_list.
  destruct (mapM (fun c => s <- getitem d c ;; OK (c, s)) cols) as [cs | e]
    eqn:E; simpl.
  - apply getitem_list_columns in E. destruct E as [N F]. subst cols.
    apply in_map_iff in Hin. destruct Hin as (x & <- & Hx).
    rewrite Forall_forall in F. rewrite (F x Hx) in Hc. discriminate.
  - apply mapM_raise in E. destruct E as (x & _ & E).
    destruct (getitem d x) as [s | e'] eqn:G; simpl in E; [discriminate | ].
    apply getitem_raise in G. congruence.
Qed.

Lemma getitem_list_same (d : DataFrame) (cols : list string)
      (cs : list (string * Series)) (c : string) :
  mapM (fun c => s <- getitem d c ;; OK (c, s)) cols = OK cs ->
  In c cols -> lookup c cs = lookup c (columns d) /\ lookup c cs <> None.
Proof.
  revert cs. induction cols as [ | c0 cols IH]; simpl; intros cs H Hin;
    [contradiction | ].
  unfold getitem in H at 1.
  destruct (lookup c0 (columns d)) as [s | ] eqn:E; simpl in H;
    [ | discriminate].
  destruct (mapM _ cols) as [cs' | e]; simpl in H; [ | discriminate].
  inversion H; subst. simpl.
  destruct (String.eqb_spec c c0) as [-> | N].
  - rewrite E. split; congruence.
  - destruct Hin as [-> | Hin]; [congruence | ]. now apply IH.
Qed.

Lemma nth_repeat_true (i n : nat) : nth i (repeat true n) false = (i <? n)%nat.
Proof.
  revert i. induction n as [ | n IH]; intros [ | i]; simpl; try reflexivity.
  apply IH.
Qed.

Lemma nth_and_masks (i : nat) (a b : list bool) :
  nth i (and_masks a b) false = nth i a false && nth i b false.
Proof.
  unfold and_masks. revert a b.
  induction i as [ | i IH]; intros [ | x a] [ | y b]; simpl;
    try reflexivity; try (now rewrite andb_false_r).
  apply IH.
Qed.

(** A row is complete when it is a row and every column has a value
    there. *)
Lemma nth_complete_rows (d : DataFrame) (i : nat) :
  nth i (complete_rows d) false
  = (i <? nrows d)%nat
    && forallb (fun c => nth i (series_notna (snd c)) false) (columns d).
Proof.
  unfold complete_rows. induction (columns d) as [ | c cols IH]; simpl.
  - now rewrite nth_repeat_true, andb_true_r.
  - rewrite nth_and_masks, IH.
    destruct (i <? nrows d)%nat, (nth i (series_notna (snd c)) false);
      reflexivity.
Qed.

Lemma series_notna_length (s : Series) :
  length (series_notna s) = series_len s.
Proof. unfold series_notna. now rewrite length_map, series_cells_map_len. Qed.

Lemma complete_rows_length (d : DataFrame) :
  wf d -> length (complete_rows d) = nrows d.
Proof.
  unfold wf, complete_rows. generalize (nrows d) as n. intros n.
  induction 1 as [ | c cols E _ IH]; simpl.
  - apply repeat_length.
  - unfold and_masks at 1. rewrite length_map, length_combine.
    rewrite IH, series_notna_length, E. apply Nat.min_id.
Qed.

Lemma dropna_eq (d : DataFrame) :
  wf d ->
  dropna d = OK (frame_map (fun A => @compress A (complete_rows d)) d).
Proof.
  intros W. apply (getitem_bool_compress (complete_rows d) W).
  now apply complete_rows_length.
Qed.

Lemma compress_Forall_nth {A : Type} (P : A -> Prop) (mask : list bool)
      (l : list A) :
  (forall i x, nth i mask false = true -> nth_error l i = Some x -> P x) ->
  Forall P (compress mask l).
Proof.
  revert l. induction mask as [ | b mask IH]; intros [ | x l] H; simpl;
    try constructor.
  assert (T : Forall P (compress mask l))
    by (apply IH; intros i y Hi Hy; apply (H (S i) y Hi Hy)).
  destruct b; [ | exact T].
  constructor; [ | exact T]. now apply (H 0 x).
Qed.

Lemma nth_notna (s : Series) (i : nat) (x : cell) :
  nth_error (series_cells s) i = Some x ->
  nth i (series_notna s) false = negb (cell_isna x).
Proof.
  intros H. apply nth_error_nth. unfold series_notna.
  rewrite nth_error_map, H. reflexivity.
Qed.

Lemma series_cells_compress (mask : list bool) (s : Series) :
  series_cells (series_map (fun A => @compress A mask) s)
  = compress mask (series_cells s).
Proof. destruct s; simpl; [now rewrite compress_map | reflexivity]. Qed.

Lemma dropna_no_gap (d : DataFrame) :
  no_gap (frame_map (fun A => @compress A (complete_rows d)) d).
Proof.
  unfold no_gap, frame_map. simpl. rewrite Forall_map.
  apply Forall_forall. intros c Hc. simpl.
  rewrite series_cells_compress. apply compress_Forall_nth.
  intros i x Hi Hx. rewrite nth_complete_rows in Hi.
  apply andb_true_iff in Hi. destruct Hi as [_ Hi].
  rewrite forallb_forall in Hi. specialize (Hi c Hc).
  rewrite (nth_notna _ _ Hx) in Hi. now apply negb_true_iff in Hi.
Qed.

Lemma compress_length_le {A : Type} (mask : list bool) (l : list A) :
  length (compress mask l) <= length l.
Proof.
  revert l. induction mask as [ | b mask IH]; intros [ | x l]; simpl;
    try lia.
  specialize (IH l). destruct b; simpl; lia.
Qed.

Lemma nonzero_from_increasing (k : nat) (mask : list bool) :
  StronglySorted lt (nonzero_from k mask).
Proof.
  revert k. induction mask as [ | b mask IH]; intros k; simpl; [constructor | ].
  destruct b; [ | apply IH]. constructor; [apply IH | ].
  eapply Forall_impl; [ | apply nonzero_from_bounds]. simpl. intros; lia.
Qed.

Lemma nth_error_true (l : list bool) (i : nat) :
  nth_error l i = Some true <-> nth i l false = true.
Proof.
  split; intros H.
  - now apply nth_error_nth.
  - destruct (Nat.lt_ge_cases i (length l)) as [L | L].
    + rewrite <- H. now apply nth_error_nth'.
    + rewrite nth_overflow in H by exact L. discriminate.
Qed.

Lemma nth_notna_true (s : Series) (i : nat) :
  nth i (series_notna s) false = true
  <-> exists x, nth_error (series_cells s) i = Some x /\ cell_isna x = false.
Proof.
  split.
  - intros H. apply nth_error_true in H. unfold series_notna in H.
    rewrite nth_error_map in H.
    destruct (nth_error (series_cells s) i) as [x | ]; [ | discriminate].
    exists x. split; [reflexivity | ].
    simpl in H. injection H as H. now apply negb_true_iff in H.
  - intros (x & Hx & N). rewrite (nth_notna _ _ Hx). now rewrite N.
Qed.

Section MapFrame.

Variable d : DataFrame.
Variable cs : list (string * Series).
Hypothesis d_wf : wf d.
Hypothesis d_columns :
  mapM (fun c => s <- getitem d c ;; OK (c, s)) map_columns = OK cs.

Lemma sub_wf : wf (mkFrame (index d) cs).
Proof.
  destruct (getitem_list_columns _ _ d_columns) as [_ F].
  unfold wf, nrows. simpl. eapply Forall_impl; [ | exact F].
  intros c Hc. apply (@getitem_len d _ _ d_wf Hc).
Qed.

Lemma map_df_eq :
  map_df d
  = OK (frame_map
          (fun A => @compress A (complete_rows (mkFrame (index d) cs)))
          (mkFrame (index d) cs)).
Proof.
  unfold map_df, getitem_list. rewrite d_columns. simpl.
  apply dropna_eq, sub_wf.
Qed.

(** Row [i] is kept when each of the four columns has a value there. *)
Lemma complete_row_iff (i : nat) :
  nth i (complete_rows (mkFrame (index d) cs)) false = true
  <-> Forall (fun c => exists s x,
                  getitem d c = OK s
                  /\ nth_error (series_cells s) i = Some x
                  /\ cell_isna x = false) map_columns.
Proof.
  destruct (getitem_list_columns _ _ d_columns) as [N F].
  rewrite Forall_forall in F.
  rewrite nth_complete_rows, <- N, Forall_map. simpl.
  rewrite andb_true_iff, forallb_forall, Forall_forall. split.
  - intros [_ H] c Hc. specialize (H c Hc).
    apply nth_notna_true in H. destruct H as (x & Hx & Hn).
    exists (snd c), x. auto.
  - intros H. split.
    + assert (X : exists c, In c cs)
        by (clear - N; destruct cs as [ | c cs'];
            [discriminate | exists c; now left]).
      destruct X as [c Hc].
      destruct (H c Hc) as (s & x & Hs & Hx & _).
      apply Nat.ltb_lt. change (i < nrows d).
      rewrite <- (@getitem_len d _ _ d_wf Hs), <- series_cells_map_len.
      apply nth_error_Some. congruence.
    + intros c Hc. destruct (H c Hc) as (s & x & Hs & Hx & Hn).
      rewrite (F c Hc) in Hs. inversion Hs; subst s.
      apply nth_notna_true. eauto.
Qed.

End MapFrame.

(** X11.  Line 64 hands the map a frame without gaps: when [df] has
    the four columns, [map_df] is rectangular, holds exactly the
    columns [Company], [Latitude_final], [Longitude_final] and
    [Market Value ($billion)] in that order, has no missing entry in
    any of them, and has no more rows than [df]. *)
Theorem map_df_has_no_gap :
  forall d : DataFrame,
    wf d ->
    Forall (fun c => exists s, getitem d c = OK s) map_columns ->
    exists m : DataFrame,
      map_df d = OK m
      /\ wf m
      /\ map fst (columns m) = map_columns
      /\ no_gap m
      /\ nrows m <= nrows d.
Proof.
  intros d W H.
  destruct (getitem_list_returns d H) as [cs E].
  unfold getitem_list in E.
  destruct (mapM _ map_columns) as [cs' | e] eqn:C; simpl in E;
    [ | discriminate].
  inversion E; subst cs'. clear E.
  exists (frame_map (fun A => @compress A (complete_rows (mkFrame (index d) cs)))
                    (mkFrame (index d) cs)).
  split; [now apply map_df_eq | ].
  split; [apply wf_frame_map; [apply compress_uniform | now apply sub_wf] | ].
  split.
  { simpl. rewrite map_map. simpl.
    apply (getitem_list_columns _ _ C). }
  split; [apply dropna_no_gap | ].
  unfold nrows. simpl. apply compress_length_le.
Qed.

(** X12.  The map shows exactly the companies with a name,
    coordinates and a market value, in dataset order: on a frame as
    [read_csv] builds it, the labels of [map_df] are increasing, row
    [i] of [df] is among them if and only if each of the four columns
    has a value at [i], and each column of [map_df] is the column of
    [df] read at those labels - a point's coordinates, name and value
    come from one row. *)
Theorem map_df_keeps_complete_rows :
  forall d : DataFrame,
    wf d ->
    range_indexed d ->
    Forall (fun c => exists s, getitem d c = OK s) map_columns ->
    exists m : DataFrame,
      map_df d = OK m
      /\ StronglySorted lt (index m)
      /\ (forall i : nat,
             In i (index m)
             <-> Forall (fun c => exists s x,
                             getitem d c = OK s
                             /\ nth_error (series_cells s) i = Some x
                             /\ cell_isna x = false) map_columns)
      /\ Forall (fun c => exists s,
                     getitem d c = OK s
                     /\ getitem m c
                        = OK (series_map (fun A => @picks A (index m)) s))
                map_columns.
Proof.
  intros d W R H.
  destruct (getitem_list_returns d H) as [cs E].
  unfold getitem_list in E.
  destruct (mapM _ map_columns) as [cs' | e] eqn:C; simpl in E;
    [ | discriminate].
  inversion E; subst cs'. clear E.
  set (sub := mkFrame (index d) cs).
  assert (Ws : wf sub) by now apply sub_wf.
  assert (L : length (complete_rows sub) = nrows d)
    by apply (complete_rows_length Ws).
  assert (I : compress (complete_rows sub) (index d)
              = nonzero (complete_rows sub)).
  { rewrite R, <- L. apply compress_seq. }
  exists (frame_map (fun A => @compress A (complete_rows sub)) sub).
  split; [now apply map_df_eq | ]. simpl. rewrite I.
  split; [ | split].
  - apply nonzero_from_increasing.
  - intros i. rewrite nonzero_In, nth_error_true.
    now apply complete_row_iff.
  - apply Forall_forall. intros c Hc.
    destruct (getitem_list_same d map_columns c C Hc) as [S N].
    destruct (lookup c cs) as [s | ] eqn:Lc; [ | congruence].
    exists s. split; [unfold getitem; now rewrite <- S | ].
    assert (G : getitem sub c = OK s) by (unfold getitem; simpl; now rewrite Lc).
    rewrite (@getitem_frame_map _ sub _ _ G). f_equal.
    assert (Ls : series_len s = nrows d) by apply (@getitem_len sub _ _ Ws G).
    destruct s as [l | l]; simpl in *; f_equal; symmetry;
      apply picks_nonzero; congruence.
Qed.

(** X13.  Line 64 has no fallback either: when [df] lacks one of the
    four columns it asks for, it raises [KeyError]. *)
Theorem map_df_raises_on_missing_column :
  forall (d : DataFrame) (c : string),
    In c map_columns ->
    getitem d c = Raise KeyError ->
    map_df d = Raise KeyError.
Proof.
  intros d c Hin Hc. unfold map_df.
  now rewrite (getitem_list_raises d map_columns c Hin Hc).
Qed.

Lemma compress_all_true {A : Type} (mask : list bool) (l : list A) :
  Forall (fun b => b = true) mask -> length mask = length l ->
  compress mask l = l.
Proof.
  intros H. revert l. induction H as [ | b mask -> _ IH]; intros [ | x l] E;
    try discriminate; [reflexivity | ].
  simpl. f_equal. apply IH. now injection E.
Qed.

Lemma frame_map_id (d : DataFrame) : frame_map (fun A l => l) d = d.
Proof.
  destruct d as [ix cols]. unfold frame_map. simpl. f_equal.
  rewrite <- (map_id cols) at 2. apply map_ext.
  intros [n [l | l]]; reflexivity.
Qed.

Lemma no_gap_complete (m : DataFrame) :
  wf m -> no_gap m -> Forall (fun b => b = true) (complete_rows m).
Proof.
  intros W G. apply Forall_nth. intros i dflt Hi.
  rewrite (nth_indep _ dflt false Hi), nth_complete_rows.
  rewrite (complete_rows_length W) in Hi.
  apply andb_true_iff. split; [now apply Nat.ltb_lt | ].
  apply forallb_forall. intros c Hc.
  unfold wf, no_gap in *. rewrite Forall_forall in W, G.
  specialize (W c Hc). specialize (G c Hc).
  assert (L : i < length (series_cells (snd c)))
    by now rewrite series_cells_map_len, W.
  apply nth_error_Some in L.
  destruct (nth_error (series_cells (snd c)) i) as [x | ] eqn:E;
    [ | congruence].
  apply nth_notna_true. exists x. split; [exact E | ].
  rewrite Forall_forall in G. apply G. exact (nth_error_In _ _ E).
Qed.

Lemma dropna_again (d : DataFrame) :
  wf d ->
  dropna (frame_map (fun A => @compress A (complete_rows d)) d)
  = OK (frame_map (fun A => @compress A (complete_rows d)) d).
Proof.
  intros W.
  set (m := frame_map (fun A => @compress A (complete_rows d)) d).
  assert (Wm : wf m)
    by (apply wf_frame_map; [apply compress_uniform | exact W]).
  rewrite (dropna_eq Wm). f_equal.
  transitivity (frame_map (fun A l => l) m); [ | apply frame_map_id].
  apply frame_map_ext; [exact Wm | ]. intros A l E.
  apply compress_all_true.
  - apply (no_gap_complete Wm). apply dropna_no_gap.
  - now rewrite (complete_rows_length Wm).
Qed.

(** X14.  Dropping the incomplete rows once is enough: [dropna] on the
    frame line 64 produced returns that very frame. *)
Theorem map_df_dropna_again :
  forall d m : DataFrame,
    wf d ->
    map_df d = OK m ->
    dropna m = OK m.
Proof.
  intros d m W H. unfold map_df, getitem_list in H.
  destruct (mapM _ map_columns) as [cs | e] eqn:C; simpl in H;
    [ | discriminate].
  assert (Ws := sub_wf W C).
  rewrite (dropna_eq Ws) in H. inversion H; subst m.
  now apply dropna_again.
Qed.

(** ** [safe_get_columns] on numeric columns *)

Lemma float_column_eq (d : DataFrame) (c : string) (l : list float64) :
  getitem d c = OK (Float64 l) -> float_column d c = l.
Proof.
  unfold getitem, float_column.
  destruct (lookup c (columns d)) as [[l' | l'] | ]; try discriminate.
  intros H. now inversion H.
Qed.

(** X15.  [safe_get_columns] keeps its promise on numbers: when every
    requested column is either a float column of [df] or absent, it
    does not raise; it returns the means of the columns, in the order
    asked, when all are there, and a zero for every one of them as
    soon as one is absent. *)
Theorem means_of_numeric_columns :
  forall (nanmean : list float64 -> float64) (d : DataFrame)
         (cols : list string),
    Forall (fun c => getitem d c = Raise KeyError
                     \/ exists l, getitem d c = OK (Float64 l)) cols ->
    (Forall (fun c => exists l, getitem d c = OK (Float64 l)) cols
     /\ safeColumnMeans nanmean d cols
        = OK (map (fun c => PyFloat (nanmean (float_column d c))) cols))
    \/ ((exists c, In c cols /\ getitem d c = Raise KeyError)
        /\ safeColumnMeans nanmean d cols = OK (map (fun _ => PyInt 0) cols)).
Proof.
  intros nanmean d cols H. unfold safeColumnMeans.
  assert (X : (Forall (fun c => exists l, getitem d c = OK (Float64 l)) cols
               /\ mapM (column_mean nanmean d) cols
                  = OK (map (fun c => PyFloat (nanmean (float_column d c)))
                            cols))
              \/ ((exists c, In c cols /\ getitem d c = Raise KeyError)
                  /\ mapM (column_mean nanmean d) cols = Raise KeyError)).
  { induction H as [ | c cols [Hc | [l Hc]] _ IH].
    - left. split; [constructor | reflexivity].
    - right. split; [exists c; split; [now left | exact Hc] | ].
      simpl. unfold column_mean. now rewrite Hc.
    - assert (Ec : column_mean nanmean d c = OK (PyFloat (nanmean l)))
        by (unfold column_mean; now rewrite Hc).
      simpl. rewrite Ec, (float_column_eq _ _ Hc). simpl.
      destruct IH as [[F E] | [(c' & Hin & Hc') E]]; rewrite E; simpl.
      + left. split; [constructor; eauto | reflexivity].
      + right. split; [ | reflexivity]. exists c'. split; [now right | exact Hc']. }
  destruct X as [[F E] | [M E]]; rewrite E; simpl; [left | right]; auto.
Qed.

(** ** Filtering twice *)

Lemma chosen_filtered (cont : Series) (c c' : string) :
  chosen (series_map (masked cont c) cont) c'
  = map (cell_eq_str c') (filter (cell_eq_str c) (series_cells cont)).
Proof.
  unfold chosen, series_eq, masked. rewrite series_cells_compress.
  unfold chosen, series_eq. now rewrite compress_filter.
Qed.

(** X16.  Line 40 applied to its own result changes nothing, and
    filtering the result for another continent leaves no row: the
    frame kept for one continent holds rows of that continent only,
    and all of them pass again. *)
Theorem filter_twice :
  forall (d : DataFrame) (cont : Series) (continent : string),
    wf d ->
    getitem d "Continent" = OK cont ->
    exists f : DataFrame,
      filter_continent d continent = OK f
      /\ filter_continent f continent = OK f
      /\ (forall other : string,
             other <> continent ->
             exists e : DataFrame,
               filter_continent f other = OK e /\ nrows e = 0).
Proof.
  intros d cont continent W Hc.
  set (f := frame_map (masked cont continent) d).
  assert (Wf : wf f) by now apply filtered_wf.
  assert (Cf : getitem f "Continent"
               = OK (series_map (masked cont continent) cont))
    by now apply getitem_frame_map.
  exists f. split; [now apply filter_continent_eq | ]. split.
  - rewrite (@filter_continent_eq f _ continent Wf Cf). f_equal.
    transitivity (frame_map (fun A l => l) f); [ | apply frame_map_id].
    apply frame_map_ext; [exact Wf | ]. intros A l E.
    unfold masked at 1. apply compress_all_true.
    + rewrite chosen_filtered, Forall_map. apply Forall_forall.
      intros x Hx. now apply filter_In in Hx.
    + rewrite E. apply (@chosen_length f _ continent Wf Cf).
  - intros other N.
    exists (frame_map (masked (series_map (masked cont continent) cont) other)
                      f).
    split; [now apply filter_continent_eq | ].
    unfold nrows, masked at 1. simpl.
    rewrite compress_all_false; [reflexivity | ].
    rewrite chosen_filtered, Forall_map. apply Forall_forall.
    intros x Hx. apply filter_In in Hx. destruct Hx as [_ Hx].
    destruct x as [s | a]; simpl in *; [ | discriminate].
    apply String.eqb_eq in Hx. subst s.
    now apply String.eqb_neq.
Qed.

(** * The further properties on sample data *)

Ltac sample_columns :=
  repeat constructor; try (eexists; reflexivity).

Lemma ranked_rows_are_dataset_rows_witness :
  argsort_spec stable_argsort
  /\ wf three_rows
  /\ exists pos : list nat,
      rankByMetric stable_argsort no_object_sort three_rows "Asia" Sales 5
      = OK (frame_map (fun A => @picks A pos) three_rows)
      /\ NoDup pos
      /\ Forall (fun i =>
                   nth_error (map CStr ["Asia"; "Asia"; "Europe"]) i
                   = Some (CStr "Asia")) pos.
Proof.
  split; [exact Insertion.stable_argsort_spec | ].
  split; [sample_frame | ].
  apply (ranked_rows_are_dataset_rows (argsort:=stable_argsort) no_object_sort
           Insertion.stable_argsort_spec (d:=three_rows)
           (cont:=Object (map CStr ["Asia"; "Asia"; "Europe"]))
           (keys:=map float_of_pos [10; 30; 20]%positive)
           "Asia" Sales 5);
    sample_frame.
Defined.

Lemma shown_rows_are_the_largest_witness :
  argsort_spec stable_argsort
  /\ wf tied_rows
  /\ exists (r : DataFrame) (shown_keys left_out : list float64),
      rankByMetric stable_argsort no_object_sort tied_rows "Asia" Sales 2
      = OK r
      /\ getitem r (metric_label Sales) = OK (Float64 shown_keys)
      /\ Permutation (shown_keys ++ left_out)
                     (compress (series_eq (Object (map CStr ["Asia"; "Asia";
                                                             "Asia"]))
                                          "Asia")
                               (map float_of_pos [10; 10; 30]%positive))
      /\ Forall (fun a => Forall (desc a) left_out) shown_keys.
Proof.
  split; [exact Insertion.stable_argsort_spec | ].
  split; [sample_frame | ].
  apply (shown_rows_are_the_largest (argsort:=stable_argsort) no_object_sort
           Insertion.stable_argsort_spec (d:=tied_rows)
           (cont:=Object (map CStr ["Asia"; "Asia"; "Asia"]))
           (keys:=map float_of_pos [10; 10; 30]%positive)
           "Asia" Sales 2);
    sample_frame.
Defined.

Lemma bars_are_rows_witness :
  argsort_spec stable_argsort
  /\ wf three_rows
  /\ exists (r : DataFrame) (y : Series) (widths : list float64),
      rankByMetric stable_argsort no_object_sort three_rows "Asia" Sales 5
      = OK r
      /\ bars r Sales = OK (y, Float64 widths)
      /\ length (series_cells y) = length widths
      /\ StronglySorted desc widths
      /\ Forall (fun b =>
                   exists i : nat,
                     nth_error (map CStr ["A"; "B"; "C"]) i = Some (fst b)
                     /\ nth_error (map float_of_pos [10; 30; 20]%positive) i
                        = Some (snd b)
                     /\ nth_error (map CStr ["Asia"; "Asia"; "Europe"]) i
                        = Some (CStr "Asia"))
                (combine (series_cells y) widths).
Proof.
  split; [exact Insertion.stable_argsort_spec | ].
  split; [sample_frame | ].
  apply (bars_are_rows (argsort:=stable_argsort) no_object_sort
           Insertion.stable_argsort_spec (d:=three_rows)
           (cont:=Object (map CStr ["Asia"; "Asia"; "Europe"]))
           (company:=Object (map CStr ["A"; "B"; "C"]))
           (keys:=map float_of_pos [10; 30; 20]%positive)
           "Asia" Sales 5);
    sample_frame.
Defined.

Lemma smaller_top_n_is_a_prefix_witness :
  (0 <= 1 <= 5)%Z
  /\ rankByMetric stable_argsort no_object_sort tied_rows "Asia" Sales 1
     = (r <- rankByMetric stable_argsort no_object_sort tied_rows "Asia"
                          Sales 5 ;;
        OK (head 1 r)).
Proof.
  split; [lia | ].
  apply (@smaller_top_n_is_a_prefix stable_argsort no_object_sort tied_rows
           "Asia" Sales 1 5).
  lia.
Defined.

Lemma ranking_keeps_the_columns_witness :
  exists r : DataFrame,
    rankByMetric stable_argsort no_object_sort three_rows "Asia" Sales 5
    = OK r
    /\ schema r = schema three_rows.
Proof.
  eexists. split; [reflexivity | ].
  apply (@ranking_keeps_the_columns stable_argsort no_object_sort
           three_rows _ "Asia" Sales 5).
  reflexivity.
Defined.

Lemma ranking_raises_on_missing_column_witness :
  wf no_profits
  /\ getitem no_profits (metric_label Profits) = Raise KeyError
  /\ rankByMetric stable_argsort no_object_sort no_profits "Asia" Profits 5
     = Raise KeyError.
Proof.
  split; [sample_frame | ].
  split; [reflexivity | ].
  apply (@ranking_raises_on_missing_column stable_argsort no_object_sort
           no_profits "Asia" Profits 5).
  - sample_frame.
  - right. reflexivity.
Defined.

Lemma ranking_reads_two_columns_witness :
  argsort_spec stable_argsort
  /\ wf three_rows
  /\ wf three_rows_renamed
  /\ index three_rows = index three_rows_renamed
  /\ exists r r' : DataFrame,
      rankByMetric stable_argsort no_object_sort three_rows "Asia" Sales 5
      = OK r
      /\ rankByMetric stable_argsort no_object_sort three_rows_renamed "Asia"
                      Sales 5 = OK r'
      /\ index r = index r'
      /\ getitem r "Continent" = getitem r' "Continent"
      /\ getitem r (metric_label Sales) = getitem r' (metric_label Sales).
Proof.
  split; [exact Insertion.stable_argsort_spec | ].
  split; [sample_frame | ].
  split; [sample_frame | ].
  split; [reflexivity | ].
  apply (ranking_reads_two_columns (argsort:=stable_argsort) no_object_sort
           Insertion.stable_argsort_spec
           (d:=three_rows) (d':=three_rows_renamed)
           (cont:=Object (map CStr ["Asia"; "Asia"; "Europe"]))
           (keys:=map float_of_pos [10; 30; 20]%positive)
           "Asia" Sales 5);
    first [sample_frame | reflexivity].
Defined.

Lemma continent_options_once_each_witness :
  getitem with_gaps "Continent"
  = OK (Object [CStr "Asia"; CStr "Asia"; CStr "Europe"; CFloat S754_nan])
  /\ exists options : list cell,
      continent_options with_gaps = OK options
      /\ incl options [CStr "Asia"; CStr "Asia"; CStr "Europe"; CFloat S754_nan]
      /\ (forall x,
             In x [CStr "Asia"; CStr "Asia"; CStr "Europe"; CFloat S754_nan] ->
             exists y, In y options /\ cell_same x y = true)
      /\ ForallOrdPairs (fun a b => cell_same a b = false) options.
Proof.
  split; [reflexivity | ].
  apply (@continent_options_once_each with_gaps
           (Object [CStr "Asia"; CStr "Asia"; CStr "Europe"; CFloat S754_nan])).
  reflexivity.
Defined.

Lemma offered_continent_shows_rows_witness :
  argsort_spec stable_argsort
  /\ wf with_gaps
  /\ continent_options with_gaps
     = OK [CStr "Asia"; CStr "Europe"; CFloat S754_nan]
  /\ In (CStr "Europe") [CStr "Asia"; CStr "Europe"; CFloat S754_nan]
  /\ (1 <= 5)%Z
  /\ exists r : DataFrame,
      rank_choice stable_argsort no_object_sort with_gaps (CStr "Europe")
                  Sales 5 = OK r
      /\ 1 <= nrows r
      /\ (Z.of_nat (nrows r) <= 5)%Z.
Proof.
  split; [exact Insertion.stable_argsort_spec | ].
  split; [sample_frame | ].
  split; [reflexivity | ].
  split; [right; now left | ].
  split; [lia | ].
  apply (@offered_continent_shows_rows stable_argsort no_object_sort
           Insertion.stable_argsort_spec with_gaps
           [CStr "Asia"; CStr "Europe"; CFloat S754_nan]
           (map float_of_pos [10; 30; 20; 40]%positive) "Europe" Sales 5).
  - sample_frame.
  - reflexivity.
  - right. now left.
  - reflexivity.
  - lia.
Defined.

Lemma missing_choice_shows_nothing_witness :
  argsort_spec stable_argsort
  /\ wf with_gaps
  /\ exists r : DataFrame,
      rank_choice stable_argsort no_object_sort with_gaps (CFloat S754_nan)
                  Sales 5 = OK r
      /\ index r = []
      /\ Forall (fun c => series_len (snd c) = 0) (columns r).
Proof.
  split; [exact Insertion.stable_argsort_spec | ].
  split; [sample_frame | ].
  apply (@missing_choice_shows_nothing stable_argsort no_object_sort
           Insertion.stable_argsort_spec with_gaps
           (Object [CStr "Asia"; CStr "Asia"; CStr "Europe"; CFloat S754_nan])
           (map float_of_pos [10; 30; 20; 40]%positive) Sales 5);
    first [sample_frame | reflexivity].
Defined.

Lemma map_df_has_no_gap_witness :
  wf with_gaps
  /\ Forall (fun c => exists s, getitem with_gaps c = OK s) map_columns
  /\ exists m : DataFrame,
      map_df with_gaps = OK m
      /\ wf m
      /\ map fst (columns m) = map_columns
      /\ no_gap m
      /\ nrows m <= nrows with_gaps.
Proof.
  assert (H : Forall (fun c => exists s, getitem with_gaps c = OK s)
                     map_columns) by sample_columns.
  split; [sample_frame | ].
  split; [exact H | ].
  apply (@map_df_has_no_gap with_gaps); [sample_frame | exact H].
Defined.

Lemma map_df_keeps_complete_rows_witness :
  wf with_gaps
  /\ range_indexed with_gaps
  /\ Forall (fun c => exists s, getitem with_gaps c = OK s) map_columns
  /\ exists m : DataFrame,
      map_df with_gaps = OK m
      /\ StronglySorted lt (index m)
      /\ (forall i : nat,
             In i (index m)
             <-> Forall (fun c => exists s x,
                             getitem with_gaps c = OK s
                             /\ nth_error (series_cells s) i = Some x
                             /\ cell_isna x = false) map_columns)
      /\ Forall (fun c => exists s,
                     getitem with_gaps c = OK s
                     /\ getitem m c
                        = OK (series_map (fun A => @picks A (index m)) s))
                map_columns.
Proof.
  assert (H : Forall (fun c => exists s, getitem with_gaps c = OK s)
                     map_columns) by sample_columns.
  split; [sample_frame | ].
  split; [reflexivity | ].
  split; [exact H | ].
  apply (@map_df_keeps_complete_rows with_gaps);
    [sample_frame | reflexivity | exact H].
Defined.

Lemma map_df_raises_on_missing_column_witness :
  In "Latitude_final" map_columns
  /\ getitem no_coordinates "Latitude_final" = Raise KeyError
  /\ map_df no_coordinates = Raise KeyError.
Proof.
  assert (H : In "Latitude_final" map_columns) by (right; now left).
  split; [exact H | ].
  split; [reflexivity | ].
  apply (@map_df_raises_on_missing_column no_coordinates "Latitude_final" H).
  reflexivity.
Defined.

Lemma map_df_dropna_again_witness :
  wf with_gaps
  /\ exists m : DataFrame, map_df with_gaps = OK m /\ dropna m = OK m.
Proof.
  split; [sample_frame | ].
  eexists. split; [reflexivity | ].
  apply (@map_df_dropna_again with_gaps); [sample_frame | reflexivity].
Defined.

(** The request of line 117 on a file without its profits column. *)
Lemma means_of_numeric_columns_witness :
  Forall (fun c => getitem no_profits c = Raise KeyError
                   \/ exists l, getitem no_profits c = OK (Float64 l))
         ["Sales ($billion)"; "Profits ($billion)"]
  /\ ((Forall (fun c => exists l, getitem no_profits c = OK (Float64 l))
              ["Sales ($billion)"; "Profits ($billion)"]
       /\ safeColumnMeans sequential_nanmean no_profits
                          ["Sales ($billion)"; "Profits ($billion)"]
          = OK (map (fun c => PyFloat (sequential_nanmean
                                         (float_column no_profits c)))
                    ["Sales ($billion)"; "Profits ($billion)"]))
      \/ ((exists c, In c ["Sales ($billion)"; "Profits ($billion)"]
                     /\ getitem no_profits c = Raise KeyError)
          /\ safeColumnMeans sequential_nanmean no_profits
                             ["Sales ($billion)"; "Profits ($billion)"]
             = OK (map (fun _ => PyInt 0)
                       ["Sales ($billion)"; "Profits ($billion)"]))).
Proof.
  assert (H : Forall (fun c => getitem no_profits c = Raise KeyError
                               \/ exists l, getitem no_profits c
                                            = OK (Float64 l))
                     ["Sales ($billion)"; "Profits ($billion)"]).
  { constructor; [right; eexists; reflexivity | ].
    constructor; [left; reflexivity | constructor]. }
  split; [exact H | ].
  apply (@means_of_numeric_columns sequential_nanmean no_profits
           ["Sales ($billion)"; "Profits ($billion)"] H).
Defined.

Lemma filter_twice_witness :
  wf three_rows
  /\ exists f : DataFrame,
      filter_continent three_rows "Asia" = OK f
      /\ filter_continent f "Asia" = OK f
      /\ (forall other : string,
             other <> "Asia" ->
             exists e : DataFrame,
               filter_continent f other = OK e /\ nrows e = 0).
Proof.
  split; [sample_frame | ].
  apply (@filter_twice three_rows
           (Object (map CStr ["Asia"; "Asia"; "Europe"])) "Asia");
    sample_frame.
Defined.

